(** * Schema reconciliation of loan-applicant spreadsheets

    A shallow embedding of [app/main.py], [app/validator.py] and the payload
    parser of [app/llm_service.py], followed by the properties of the
    specification that were checked against it.

    Conventions of the embedding.
    - A Python [str] is a list of Unicode code points ([ustr]).  The classes
      the code tests with explicit ranges ([[A-Za-z]], [[0-9]], [[-_ ]]) are
      written out.  The notions Python reads off the Unicode database are
      those of CPython 3.11 (Unicode 14.0), as tables: whitespace
      ([str.strip], [str.split]) is [str.isspace]; [\d] is the decimal
      digits; [\w] is [str.isalnum] or the underscore; [str.lower] is the
      lowercase mapping, with the rule of the final sigma.
    - A Python [float] is an IEEE binary64 value, [spec_float] with
      precision 53 and maximal exponent 1024; conversions from text and from
      integers round to nearest, ties to even.
    - A cell of a sheet, and a value of a row, is [pyval]: [None], a [bool],
      an [int], a [float], a [str], or an object of another type (a
      timestamp, pandas' [NaT], a time of day), known by its text, its
      truth value and whether pandas counts it as missing.
    - Two limits of the interpreter are parameters: the number of digits
      [int] reads from a text ([sys.set_int_max_str_digits], 4300 unless
      set, 0 for none) and the nesting of arrays and objects that
      [json.loads] can enter before it raises [RecursionError].
    - A [dict] is a [gmap] from strings to values; a function that can raise
      returns a sum or an option. *)

From Stdlib Require Import ZArith NArith String Ascii List Bool Lia.
From Stdlib Require Import DecimalN DecimalPos.
From Stdlib Require Import Floats.SpecFloat.
From stdpp Require Import gmap list sorting.
Import ListNotations.

Set Warnings "-register-all".

(** * Part I: the embedding *)

(** ** The character tables of Python

    The notions of [str] that Python reads off the Unicode database, as
    CPython 3.11 has them (Unicode 14.0): the decimal digits, the
    alphanumeric characters, the cased and the case-ignorable characters,
    and the lowercase mapping. *)

Module UnicodeData.
Local Open Scope N_scope.

(** The code points of the digit zero of every run of decimal digits
    ([str.isdecimal], category Nd); each run holds the ten digits in
    order. *)
Definition nd_zeros : list N :=
  [ 48; 1632; 1776; 1984; 2406; 2534; 2662; 2790; 2918; 3046; 3174; 3302; 3430;
    3558; 3664; 3792; 3872; 4160; 4240; 6112; 6160; 6470; 6608; 6784; 6800;
    6992; 7088; 7232; 7248; 42528; 43216; 43264; 43472; 43504; 43600; 44016;
    65296; 66720; 68912; 69734; 69872; 69942; 70096; 70384; 70736; 70864;
    71248; 71360; 71472; 71904; 72016; 72784; 73040; 73120; 92768; 92864;
    93008; 120782; 120792; 120802; 120812; 120822; 123200; 123632; 125264;
    130032 ].

(** The ranges of the alphanumeric characters ([str.isalnum]). *)
Definition alnum_ranges : list (N * N) :=
  [ (48, 57); (65, 90); (97, 122); (170, 170); (178, 179); (181, 181);
    (185, 186); (188, 190); (192, 214); (216, 246); (248, 705); (710, 721);
    (736, 740); (748, 748); (750, 750); (880, 884); (886, 887); (890, 893);
    (895, 895); (902, 902); (904, 906); (908, 908); (910, 929); (931, 1013);
    (1015, 1153); (1162, 1327); (1329, 1366); (1369, 1369); (1376, 1416);
    (1488, 1514); (1519, 1522); (1568, 1610); (1632, 1641); (1646, 1647);
    (1649, 1747); (1749, 1749); (1765, 1766); (1774, 1788); (1791, 1791);
    (1808, 1808); (1810, 1839); (1869, 1957); (1969, 1969); (1984, 2026);
    (2036, 2037); (2042, 2042); (2048, 2069); (2074, 2074); (2084, 2084);
    (2088, 2088); (2112, 2136); (2144, 2154); (2160, 2183); (2185, 2190);
    (2208, 2249); (2308, 2361); (2365, 2365); (2384, 2384); (2392, 2401);
    (2406, 2415); (2417, 2432); (2437, 2444); (2447, 2448); (2451, 2472);
    (2474, 2480); (2482, 2482); (2486, 2489); (2493, 2493); (2510, 2510);
    (2524, 2525); (2527, 2529); (2534, 2545); (2548, 2553); (2556, 2556);
    (2565, 2570); (2575, 2576); (2579, 2600); (2602, 2608); (2610, 2611);
    (2613, 2614); (2616, 2617); (2649, 2652); (2654, 2654); (2662, 2671);
    (2674, 2676); (2693, 2701); (2703, 2705); (2707, 2728); (2730, 2736);
    (2738, 2739); (2741, 2745); (2749, 2749); (2768, 2768); (2784, 2785);
    (2790, 2799); (2809, 2809); (2821, 2828); (2831, 2832); (2835, 2856);
    (2858, 2864); (2866, 2867); (2869, 2873); (2877, 2877); (2908, 2909);
    (2911, 2913); (2918, 2927); (2929, 2935); (2947, 2947); (2949, 2954);
    (2958, 2960); (2962, 2965); (2969, 2970); (2972, 2972); (2974, 2975);
    (2979, 2980); (2984, 2986); (2990, 3001); (3024, 3024); (3046, 3058);
    (3077, 3084); (3086, 3088); (3090, 3112); (3114, 3129); (3133, 3133);
    (3160, 3162); (3165, 3165); (3168, 3169); (3174, 3183); (3192, 3198);
    (3200, 3200); (3205, 3212); (3214, 3216); (3218, 3240); (3242, 3251);
    (3253, 3257); (3261, 3261); (3293, 3294); (3296, 3297); (3302, 3311);
    (3313, 3314); (3332, 3340); (3342, 3344); (3346, 3386); (3389, 3389);
    (3406, 3406); (3412, 3414); (3416, 3425); (3430, 3448); (3450, 3455);
    (3461, 3478); (3482, 3505); (3507, 3515); (3517, 3517); (3520, 3526);
    (3558, 3567); (3585, 3632); (3634, 3635); (3648, 3654); (3664, 3673);
    (3713, 3714); (3716, 3716); (3718, 3722); (3724, 3747); (3749, 3749);
    (3751, 3760); (3762, 3763); (3773, 3773); (3776, 3780); (3782, 3782);
    (3792, 3801); (3804, 3807); (3840, 3840); (3872, 3891); (3904, 3911);
    (3913, 3948); (3976, 3980); (4096, 4138); (4159, 4169); (4176, 4181);
    (4186, 4189); (4193, 4193); (4197, 4198); (4206, 4208); (4213, 4225);
    (4238, 4238); (4240, 4249); (4256, 4293); (4295, 4295); (4301, 4301);
    (4304, 4346); (4348, 4680); (4682, 4685); (4688, 4694); (4696, 4696);
    (4698, 4701); (4704, 4744); (4746, 4749); (4752, 4784); (4786, 4789);
    (4792, 4798); (4800, 4800); (4802, 4805); (4808, 4822); (4824, 4880);
    (4882, 4885); (4888, 4954); (4969, 4988); (4992, 5007); (5024, 5109);
    (5112, 5117); (5121, 5740); (5743, 5759); (5761, 5786); (5792, 5866);
    (5870, 5880); (5888, 5905); (5919, 5937); (5952, 5969); (5984, 5996);
    (5998, 6000); (6016, 6067); (6103, 6103); (6108, 6108); (6112, 6121);
    (6128, 6137); (6160, 6169); (6176, 6264); (6272, 6276); (6279, 6312);
    (6314, 6314); (6320, 6389); (6400, 6430); (6470, 6509); (6512, 6516);
    (6528, 6571); (6576, 6601); (6608, 6618); (6656, 6678); (6688, 6740);
    (6784, 6793); (6800, 6809); (6823, 6823); (6917, 6963); (6981, 6988);
    (6992, 7001); (7043, 7072); (7086, 7141); (7168, 7203); (7232, 7241);
    (7245, 7293); (7296, 7304); (7312, 7354); (7357, 7359); (7401, 7404);
    (7406, 7411); (7413, 7414); (7418, 7418); (7424, 7615); (7680, 7957);
    (7960, 7965); (7968, 8005); (8008, 8013); (8016, 8023); (8025, 8025);
    (8027, 8027); (8029, 8029); (8031, 8061); (8064, 8116); (8118, 8124);
    (8126, 8126); (8130, 8132); (8134, 8140); (8144, 8147); (8150, 8155);
    (8160, 8172); (8178, 8180); (8182, 8188); (8304, 8305); (8308, 8313);
    (8319, 8329); (8336, 8348); (8450, 8450); (8455, 8455); (8458, 8467);
    (8469, 8469); (8473, 8477); (8484, 8484); (8486, 8486); (8488, 8488);
    (8490, 8493); (8495, 8505); (8508, 8511); (8517, 8521); (8526, 8526);
    (8528, 8585); (9312, 9371); (9450, 9471); (10102, 10131); (11264, 11492);
    (11499, 11502); (11506, 11507); (11517, 11517); (11520, 11557);
    (11559, 11559); (11565, 11565); (11568, 11623); (11631, 11631);
    (11648, 11670); (11680, 11686); (11688, 11694); (11696, 11702);
    (11704, 11710); (11712, 11718); (11720, 11726); (11728, 11734);
    (11736, 11742); (11823, 11823); (12293, 12295); (12321, 12329);
    (12337, 12341); (12344, 12348); (12353, 12438); (12445, 12447);
    (12449, 12538); (12540, 12543); (12549, 12591); (12593, 12686);
    (12690, 12693); (12704, 12735); (12784, 12799); (12832, 12841);
    (12872, 12879); (12881, 12895); (12928, 12937); (12977, 12991);
    (13312, 19903); (19968, 42124); (42192, 42237); (42240, 42508);
    (42512, 42539); (42560, 42606); (42623, 42653); (42656, 42735);
    (42775, 42783); (42786, 42888); (42891, 42954); (42960, 42961);
    (42963, 42963); (42965, 42969); (42994, 43009); (43011, 43013);
    (43015, 43018); (43020, 43042); (43056, 43061); (43072, 43123);
    (43138, 43187); (43216, 43225); (43250, 43255); (43259, 43259);
    (43261, 43262); (43264, 43301); (43312, 43334); (43360, 43388);
    (43396, 43442); (43471, 43481); (43488, 43492); (43494, 43518);
    (43520, 43560); (43584, 43586); (43588, 43595); (43600, 43609);
    (43616, 43638); (43642, 43642); (43646, 43695); (43697, 43697);
    (43701, 43702); (43705, 43709); (43712, 43712); (43714, 43714);
    (43739, 43741); (43744, 43754); (43762, 43764); (43777, 43782);
    (43785, 43790); (43793, 43798); (43808, 43814); (43816, 43822);
    (43824, 43866); (43868, 43881); (43888, 44002); (44016, 44025);
    (44032, 55203); (55216, 55238); (55243, 55291); (63744, 64109);
    (64112, 64217); (64256, 64262); (64275, 64279); (64285, 64285);
    (64287, 64296); (64298, 64310); (64312, 64316); (64318, 64318);
    (64320, 64321); (64323, 64324); (64326, 64433); (64467, 64829);
    (64848, 64911); (64914, 64967); (65008, 65019); (65136, 65140);
    (65142, 65276); (65296, 65305); (65313, 65338); (65345, 65370);
    (65382, 65470); (65474, 65479); (65482, 65487); (65490, 65495);
    (65498, 65500); (65536, 65547); (65549, 65574); (65576, 65594);
    (65596, 65597); (65599, 65613); (65616, 65629); (65664, 65786);
    (65799, 65843); (65856, 65912); (65930, 65931); (66176, 66204);
    (66208, 66256); (66273, 66299); (66304, 66339); (66349, 66378);
    (66384, 66421); (66432, 66461); (66464, 66499); (66504, 66511);
    (66513, 66517); (66560, 66717); (66720, 66729); (66736, 66771);
    (66776, 66811); (66816, 66855); (66864, 66915); (66928, 66938);
    (66940, 66954); (66956, 66962); (66964, 66965); (66967, 66977);
    (66979, 66993); (66995, 67001); (67003, 67004); (67072, 67382);
    (67392, 67413); (67424, 67431); (67456, 67461); (67463, 67504);
    (67506, 67514); (67584, 67589); (67592, 67592); (67594, 67637);
    (67639, 67640); (67644, 67644); (67647, 67669); (67672, 67702);
    (67705, 67742); (67751, 67759); (67808, 67826); (67828, 67829);
    (67835, 67867); (67872, 67897); (67968, 68023); (68028, 68047);
    (68050, 68096); (68112, 68115); (68117, 68119); (68121, 68149);
    (68160, 68168); (68192, 68222); (68224, 68255); (68288, 68295);
    (68297, 68324); (68331, 68335); (68352, 68405); (68416, 68437);
    (68440, 68466); (68472, 68497); (68521, 68527); (68608, 68680);
    (68736, 68786); (68800, 68850); (68858, 68899); (68912, 68921);
    (69216, 69246); (69248, 69289); (69296, 69297); (69376, 69415);
    (69424, 69445); (69457, 69460); (69488, 69505); (69552, 69579);
    (69600, 69622); (69635, 69687); (69714, 69743); (69745, 69746);
    (69749, 69749); (69763, 69807); (69840, 69864); (69872, 69881);
    (69891, 69926); (69942, 69951); (69956, 69956); (69959, 69959);
    (69968, 70002); (70006, 70006); (70019, 70066); (70081, 70084);
    (70096, 70106); (70108, 70108); (70113, 70132); (70144, 70161);
    (70163, 70187); (70272, 70278); (70280, 70280); (70282, 70285);
    (70287, 70301); (70303, 70312); (70320, 70366); (70384, 70393);
    (70405, 70412); (70415, 70416); (70419, 70440); (70442, 70448);
    (70450, 70451); (70453, 70457); (70461, 70461); (70480, 70480);
    (70493, 70497); (70656, 70708); (70727, 70730); (70736, 70745);
    (70751, 70753); (70784, 70831); (70852, 70853); (70855, 70855);
    (70864, 70873); (71040, 71086); (71128, 71131); (71168, 71215);
    (71236, 71236); (71248, 71257); (71296, 71338); (71352, 71352);
    (71360, 71369); (71424, 71450); (71472, 71483); (71488, 71494);
    (71680, 71723); (71840, 71922); (71935, 71942); (71945, 71945);
    (71948, 71955); (71957, 71958); (71960, 71983); (71999, 71999);
    (72001, 72001); (72016, 72025); (72096, 72103); (72106, 72144);
    (72161, 72161); (72163, 72163); (72192, 72192); (72203, 72242);
    (72250, 72250); (72272, 72272); (72284, 72329); (72349, 72349);
    (72368, 72440); (72704, 72712); (72714, 72750); (72768, 72768);
    (72784, 72812); (72818, 72847); (72960, 72966); (72968, 72969);
    (72971, 73008); (73030, 73030); (73040, 73049); (73056, 73061);
    (73063, 73064); (73066, 73097); (73112, 73112); (73120, 73129);
    (73440, 73458); (73648, 73648); (73664, 73684); (73728, 74649);
    (74752, 74862); (74880, 75075); (77712, 77808); (77824, 78894);
    (82944, 83526); (92160, 92728); (92736, 92766); (92768, 92777);
    (92784, 92862); (92864, 92873); (92880, 92909); (92928, 92975);
    (92992, 92995); (93008, 93017); (93019, 93025); (93027, 93047);
    (93053, 93071); (93760, 93846); (93952, 94026); (94032, 94032);
    (94099, 94111); (94176, 94177); (94179, 94179); (94208, 100343);
    (100352, 101589); (101632, 101640); (110576, 110579); (110581, 110587);
    (110589, 110590); (110592, 110882); (110928, 110930); (110948, 110951);
    (110960, 111355); (113664, 113770); (113776, 113788); (113792, 113800);
    (113808, 113817); (119520, 119539); (119648, 119672); (119808, 119892);
    (119894, 119964); (119966, 119967); (119970, 119970); (119973, 119974);
    (119977, 119980); (119982, 119993); (119995, 119995); (119997, 120003);
    (120005, 120069); (120071, 120074); (120077, 120084); (120086, 120092);
    (120094, 120121); (120123, 120126); (120128, 120132); (120134, 120134);
    (120138, 120144); (120146, 120485); (120488, 120512); (120514, 120538);
    (120540, 120570); (120572, 120596); (120598, 120628); (120630, 120654);
    (120656, 120686); (120688, 120712); (120714, 120744); (120746, 120770);
    (120772, 120779); (120782, 120831); (122624, 122654); (123136, 123180);
    (123191, 123197); (123200, 123209); (123214, 123214); (123536, 123565);
    (123584, 123627); (123632, 123641); (124896, 124902); (124904, 124907);
    (124909, 124910); (124912, 124926); (124928, 125124); (125127, 125135);
    (125184, 125251); (125259, 125259); (125264, 125273); (126065, 126123);
    (126125, 126127); (126129, 126132); (126209, 126253); (126255, 126269);
    (126464, 126467); (126469, 126495); (126497, 126498); (126500, 126500);
    (126503, 126503); (126505, 126514); (126516, 126519); (126521, 126521);
    (126523, 126523); (126530, 126530); (126535, 126535); (126537, 126537);
    (126539, 126539); (126541, 126543); (126545, 126546); (126548, 126548);
    (126551, 126551); (126553, 126553); (126555, 126555); (126557, 126557);
    (126559, 126559); (126561, 126562); (126564, 126564); (126567, 126570);
    (126572, 126578); (126580, 126583); (126585, 126588); (126590, 126590);
    (126592, 126601); (126603, 126619); (126625, 126627); (126629, 126633);
    (126635, 126651); (127232, 127244); (130032, 130041); (131072, 173791);
    (173824, 177976); (177984, 178205); (178208, 183969); (183984, 191456);
    (194560, 195101); (196608, 201546) ].

(** The ranges of the cased characters (lowercase, uppercase or titlecase
    letters and the like). *)
Definition cased_ranges : list (N * N) :=
  [ (65, 90); (97, 122); (170, 170); (181, 181); (186, 186); (192, 214);
    (216, 246); (248, 442); (444, 447); (452, 659); (661, 696); (704, 705);
    (736, 740); (837, 837); (880, 883); (886, 887); (890, 893); (895, 895);
    (902, 902); (904, 906); (908, 908); (910, 929); (931, 1013); (1015, 1153);
    (1162, 1327); (1329, 1366); (1376, 1416); (4256, 4293); (4295, 4295);
    (4301, 4301); (4304, 4346); (4349, 4351); (5024, 5109); (5112, 5117);
    (7296, 7304); (7312, 7354); (7357, 7359); (7424, 7615); (7680, 7957);
    (7960, 7965); (7968, 8005); (8008, 8013); (8016, 8023); (8025, 8025);
    (8027, 8027); (8029, 8029); (8031, 8061); (8064, 8116); (8118, 8124);
    (8126, 8126); (8130, 8132); (8134, 8140); (8144, 8147); (8150, 8155);
    (8160, 8172); (8178, 8180); (8182, 8188); (8305, 8305); (8319, 8319);
    (8336, 8348); (8450, 8450); (8455, 8455); (8458, 8467); (8469, 8469);
    (8473, 8477); (8484, 8484); (8486, 8486); (8488, 8488); (8490, 8493);
    (8495, 8500); (8505, 8505); (8508, 8511); (8517, 8521); (8526, 8526);
    (8544, 8575); (8579, 8580); (9398, 9449); (11264, 11492); (11499, 11502);
    (11506, 11507); (11520, 11557); (11559, 11559); (11565, 11565);
    (42560, 42605); (42624, 42653); (42786, 42887); (42891, 42894);
    (42896, 42954); (42960, 42961); (42963, 42963); (42965, 42969);
    (42997, 42998); (43000, 43002); (43824, 43866); (43868, 43880);
    (43888, 43967); (64256, 64262); (64275, 64279); (65313, 65338);
    (65345, 65370); (66560, 66639); (66736, 66771); (66776, 66811);
    (66928, 66938); (66940, 66954); (66956, 66962); (66964, 66965);
    (66967, 66977); (66979, 66993); (66995, 67001); (67003, 67004);
    (67456, 67456); (67459, 67461); (67463, 67504); (67506, 67514);
    (68736, 68786); (68800, 68850); (71840, 71903); (93760, 93823);
    (119808, 119892); (119894, 119964); (119966, 119967); (119970, 119970);
    (119973, 119974); (119977, 119980); (119982, 119993); (119995, 119995);
    (119997, 120003); (120005, 120069); (120071, 120074); (120077, 120084);
    (120086, 120092); (120094, 120121); (120123, 120126); (120128, 120132);
    (120134, 120134); (120138, 120144); (120146, 120485); (120488, 120512);
    (120514, 120538); (120540, 120570); (120572, 120596); (120598, 120628);
    (120630, 120654); (120656, 120686); (120688, 120712); (120714, 120744);
    (120746, 120770); (120772, 120779); (122624, 122633); (122635, 122654);
    (125184, 125251); (127280, 127305); (127312, 127337); (127344, 127369) ].

(** The ranges of the case-ignorable characters (marks, modifiers,
    apostrophes and other characters that lie inside a word). *)
Definition case_ignorable_ranges : list (N * N) :=
  [ (39, 39); (46, 46); (58, 58); (94, 94); (96, 96); (168, 168); (173, 173);
    (175, 175); (180, 180); (183, 184); (688, 879); (884, 885); (890, 890);
    (900, 901); (903, 903); (1155, 1161); (1369, 1369); (1375, 1375);
    (1425, 1469); (1471, 1471); (1473, 1474); (1476, 1477); (1479, 1479);
    (1524, 1524); (1536, 1541); (1552, 1562); (1564, 1564); (1600, 1600);
    (1611, 1631); (1648, 1648); (1750, 1757); (1759, 1768); (1770, 1773);
    (1807, 1807); (1809, 1809); (1840, 1866); (1958, 1968); (2027, 2037);
    (2042, 2042); (2045, 2045); (2070, 2093); (2137, 2139); (2184, 2184);
    (2192, 2193); (2200, 2207); (2249, 2306); (2362, 2362); (2364, 2364);
    (2369, 2376); (2381, 2381); (2385, 2391); (2402, 2403); (2417, 2417);
    (2433, 2433); (2492, 2492); (2497, 2500); (2509, 2509); (2530, 2531);
    (2558, 2558); (2561, 2562); (2620, 2620); (2625, 2626); (2631, 2632);
    (2635, 2637); (2641, 2641); (2672, 2673); (2677, 2677); (2689, 2690);
    (2748, 2748); (2753, 2757); (2759, 2760); (2765, 2765); (2786, 2787);
    (2810, 2815); (2817, 2817); (2876, 2876); (2879, 2879); (2881, 2884);
    (2893, 2893); (2901, 2902); (2914, 2915); (2946, 2946); (3008, 3008);
    (3021, 3021); (3072, 3072); (3076, 3076); (3132, 3132); (3134, 3136);
    (3142, 3144); (3146, 3149); (3157, 3158); (3170, 3171); (3201, 3201);
    (3260, 3260); (3263, 3263); (3270, 3270); (3276, 3277); (3298, 3299);
    (3328, 3329); (3387, 3388); (3393, 3396); (3405, 3405); (3426, 3427);
    (3457, 3457); (3530, 3530); (3538, 3540); (3542, 3542); (3633, 3633);
    (3636, 3642); (3654, 3662); (3761, 3761); (3764, 3772); (3782, 3782);
    (3784, 3789); (3864, 3865); (3893, 3893); (3895, 3895); (3897, 3897);
    (3953, 3966); (3968, 3972); (3974, 3975); (3981, 3991); (3993, 4028);
    (4038, 4038); (4141, 4144); (4146, 4151); (4153, 4154); (4157, 4158);
    (4184, 4185); (4190, 4192); (4209, 4212); (4226, 4226); (4229, 4230);
    (4237, 4237); (4253, 4253); (4348, 4348); (4957, 4959); (5906, 5908);
    (5938, 5939); (5970, 5971); (6002, 6003); (6068, 6069); (6071, 6077);
    (6086, 6086); (6089, 6099); (6103, 6103); (6109, 6109); (6155, 6159);
    (6211, 6211); (6277, 6278); (6313, 6313); (6432, 6434); (6439, 6440);
    (6450, 6450); (6457, 6459); (6679, 6680); (6683, 6683); (6742, 6742);
    (6744, 6750); (6752, 6752); (6754, 6754); (6757, 6764); (6771, 6780);
    (6783, 6783); (6823, 6823); (6832, 6862); (6912, 6915); (6964, 6964);
    (6966, 6970); (6972, 6972); (6978, 6978); (7019, 7027); (7040, 7041);
    (7074, 7077); (7080, 7081); (7083, 7085); (7142, 7142); (7144, 7145);
    (7149, 7149); (7151, 7153); (7212, 7219); (7222, 7223); (7288, 7293);
    (7376, 7378); (7380, 7392); (7394, 7400); (7405, 7405); (7412, 7412);
    (7416, 7417); (7468, 7530); (7544, 7544); (7579, 7679); (8125, 8125);
    (8127, 8129); (8141, 8143); (8157, 8159); (8173, 8175); (8189, 8190);
    (8203, 8207); (8216, 8217); (8228, 8228); (8231, 8231); (8234, 8238);
    (8288, 8292); (8294, 8303); (8305, 8305); (8319, 8319); (8336, 8348);
    (8400, 8432); (11388, 11389); (11503, 11505); (11631, 11631);
    (11647, 11647); (11744, 11775); (11823, 11823); (12293, 12293);
    (12330, 12333); (12337, 12341); (12347, 12347); (12441, 12446);
    (12540, 12542); (40981, 40981); (42232, 42237); (42508, 42508);
    (42607, 42610); (42612, 42621); (42623, 42623); (42652, 42655);
    (42736, 42737); (42752, 42785); (42864, 42864); (42888, 42890);
    (42994, 42996); (43000, 43001); (43010, 43010); (43014, 43014);
    (43019, 43019); (43045, 43046); (43052, 43052); (43204, 43205);
    (43232, 43249); (43263, 43263); (43302, 43309); (43335, 43345);
    (43392, 43394); (43443, 43443); (43446, 43449); (43452, 43453);
    (43471, 43471); (43493, 43494); (43561, 43566); (43569, 43570);
    (43573, 43574); (43587, 43587); (43596, 43596); (43632, 43632);
    (43644, 43644); (43696, 43696); (43698, 43700); (43703, 43704);
    (43710, 43711); (43713, 43713); (43741, 43741); (43756, 43757);
    (43763, 43764); (43766, 43766); (43867, 43871); (43881, 43883);
    (44005, 44005); (44008, 44008); (44013, 44013); (64286, 64286);
    (64434, 64450); (65024, 65039); (65043, 65043); (65056, 65071);
    (65106, 65106); (65109, 65109); (65279, 65279); (65287, 65287);
    (65294, 65294); (65306, 65306); (65342, 65342); (65344, 65344);
    (65392, 65392); (65438, 65439); (65507, 65507); (65529, 65531);
    (66045, 66045); (66272, 66272); (66422, 66426); (67456, 67461);
    (67463, 67504); (67506, 67514); (68097, 68099); (68101, 68102);
    (68108, 68111); (68152, 68154); (68159, 68159); (68325, 68326);
    (68900, 68903); (69291, 69292); (69446, 69456); (69506, 69509);
    (69633, 69633); (69688, 69702); (69744, 69744); (69747, 69748);
    (69759, 69761); (69811, 69814); (69817, 69818); (69821, 69821);
    (69826, 69826); (69837, 69837); (69888, 69890); (69927, 69931);
    (69933, 69940); (70003, 70003); (70016, 70017); (70070, 70078);
    (70089, 70092); (70095, 70095); (70191, 70193); (70196, 70196);
    (70198, 70199); (70206, 70206); (70367, 70367); (70371, 70378);
    (70400, 70401); (70459, 70460); (70464, 70464); (70502, 70508);
    (70512, 70516); (70712, 70719); (70722, 70724); (70726, 70726);
    (70750, 70750); (70835, 70840); (70842, 70842); (70847, 70848);
    (70850, 70851); (71090, 71093); (71100, 71101); (71103, 71104);
    (71132, 71133); (71219, 71226); (71229, 71229); (71231, 71232);
    (71339, 71339); (71341, 71341); (71344, 71349); (71351, 71351);
    (71453, 71455); (71458, 71461); (71463, 71467); (71727, 71735);
    (71737, 71738); (71995, 71996); (71998, 71998); (72003, 72003);
    (72148, 72151); (72154, 72155); (72160, 72160); (72193, 72202);
    (72243, 72248); (72251, 72254); (72263, 72263); (72273, 72278);
    (72281, 72283); (72330, 72342); (72344, 72345); (72752, 72758);
    (72760, 72765); (72767, 72767); (72850, 72871); (72874, 72880);
    (72882, 72883); (72885, 72886); (73009, 73014); (73018, 73018);
    (73020, 73021); (73023, 73029); (73031, 73031); (73104, 73105);
    (73109, 73109); (73111, 73111); (73459, 73460); (78896, 78904);
    (92912, 92916); (92976, 92982); (92992, 92995); (94031, 94031);
    (94095, 94111); (94176, 94177); (94179, 94180); (110576, 110579);
    (110581, 110587); (110589, 110590); (113821, 113822); (113824, 113827);
    (118528, 118573); (118576, 118598); (119143, 119145); (119155, 119170);
    (119173, 119179); (119210, 119213); (119362, 119364); (121344, 121398);
    (121403, 121452); (121461, 121461); (121476, 121476); (121499, 121503);
    (121505, 121519); (122880, 122886); (122888, 122904); (122907, 122913);
    (122915, 122916); (122918, 122922); (123184, 123197); (123566, 123566);
    (123628, 123631); (125136, 125142); (125252, 125259); (127995, 127999);
    (917505, 917505); (917536, 917631); (917760, 917999) ].

(** The lowercase mapping of one character to one character, as rows
    [(first, last, step, target)]: the characters [first], [first + step],
    ... up to [last] are sent to [target], [target + step], ...  Two
    characters are not in the table: U+0130, whose lowercase is two
    characters, and U+03A3, whose lowercase depends on its neighbours. *)
Definition lower_rows : list (N * N * N * N) :=
  [ (65, 90, 1, 97); (192, 214, 1, 224); (216, 222, 1, 248);
    (256, 302, 2, 257); (306, 310, 2, 307); (313, 327, 2, 314);
    (330, 374, 2, 331); (376, 376, 1, 255); (377, 381, 2, 378);
    (385, 385, 1, 595); (386, 388, 2, 387); (390, 390, 1, 596);
    (391, 391, 1, 392); (393, 394, 1, 598); (395, 395, 1, 396);
    (398, 398, 1, 477); (399, 399, 1, 601); (400, 400, 1, 603);
    (401, 401, 1, 402); (403, 403, 1, 608); (404, 404, 1, 611);
    (406, 406, 1, 617); (407, 407, 1, 616); (408, 408, 1, 409);
    (412, 412, 1, 623); (413, 413, 1, 626); (415, 415, 1, 629);
    (416, 420, 2, 417); (422, 422, 1, 640); (423, 423, 1, 424);
    (425, 425, 1, 643); (428, 428, 1, 429); (430, 430, 1, 648);
    (431, 431, 1, 432); (433, 434, 1, 650); (435, 437, 2, 436);
    (439, 439, 1, 658); (440, 440, 1, 441); (444, 444, 1, 445);
    (452, 452, 1, 454); (453, 453, 1, 454); (455, 455, 1, 457);
    (456, 456, 1, 457); (458, 458, 1, 460); (459, 475, 2, 460);
    (478, 494, 2, 479); (497, 497, 1, 499); (498, 500, 2, 499);
    (502, 502, 1, 405); (503, 503, 1, 447); (504, 542, 2, 505);
    (544, 544, 1, 414); (546, 562, 2, 547); (570, 570, 1, 11365);
    (571, 571, 1, 572); (573, 573, 1, 410); (574, 574, 1, 11366);
    (577, 577, 1, 578); (579, 579, 1, 384); (580, 580, 1, 649);
    (581, 581, 1, 652); (582, 590, 2, 583); (880, 882, 2, 881);
    (886, 886, 1, 887); (895, 895, 1, 1011); (902, 902, 1, 940);
    (904, 906, 1, 941); (908, 908, 1, 972); (910, 911, 1, 973);
    (913, 929, 1, 945); (932, 939, 1, 964); (975, 975, 1, 983);
    (984, 1006, 2, 985); (1012, 1012, 1, 952); (1015, 1015, 1, 1016);
    (1017, 1017, 1, 1010); (1018, 1018, 1, 1019); (1021, 1023, 1, 891);
    (1024, 1039, 1, 1104); (1040, 1071, 1, 1072); (1120, 1152, 2, 1121);
    (1162, 1214, 2, 1163); (1216, 1216, 1, 1231); (1217, 1229, 2, 1218);
    (1232, 1326, 2, 1233); (1329, 1366, 1, 1377); (4256, 4293, 1, 11520);
    (4295, 4295, 1, 11559); (4301, 4301, 1, 11565); (5024, 5103, 1, 43888);
    (5104, 5109, 1, 5112); (7312, 7354, 1, 4304); (7357, 7359, 1, 4349);
    (7680, 7828, 2, 7681); (7838, 7838, 1, 223); (7840, 7934, 2, 7841);
    (7944, 7951, 1, 7936); (7960, 7965, 1, 7952); (7976, 7983, 1, 7968);
    (7992, 7999, 1, 7984); (8008, 8013, 1, 8000); (8025, 8031, 2, 8017);
    (8040, 8047, 1, 8032); (8072, 8079, 1, 8064); (8088, 8095, 1, 8080);
    (8104, 8111, 1, 8096); (8120, 8121, 1, 8112); (8122, 8123, 1, 8048);
    (8124, 8124, 1, 8115); (8136, 8139, 1, 8050); (8140, 8140, 1, 8131);
    (8152, 8153, 1, 8144); (8154, 8155, 1, 8054); (8168, 8169, 1, 8160);
    (8170, 8171, 1, 8058); (8172, 8172, 1, 8165); (8184, 8185, 1, 8056);
    (8186, 8187, 1, 8060); (8188, 8188, 1, 8179); (8486, 8486, 1, 969);
    (8490, 8490, 1, 107); (8491, 8491, 1, 229); (8498, 8498, 1, 8526);
    (8544, 8559, 1, 8560); (8579, 8579, 1, 8580); (9398, 9423, 1, 9424);
    (11264, 11311, 1, 11312); (11360, 11360, 1, 11361); (11362, 11362, 1, 619);
    (11363, 11363, 1, 7549); (11364, 11364, 1, 637); (11367, 11371, 2, 11368);
    (11373, 11373, 1, 593); (11374, 11374, 1, 625); (11375, 11375, 1, 592);
    (11376, 11376, 1, 594); (11378, 11378, 1, 11379); (11381, 11381, 1, 11382);
    (11390, 11391, 1, 575); (11392, 11490, 2, 11393); (11499, 11501, 2, 11500);
    (11506, 11506, 1, 11507); (42560, 42604, 2, 42561);
    (42624, 42650, 2, 42625); (42786, 42798, 2, 42787);
    (42802, 42862, 2, 42803); (42873, 42875, 2, 42874);
    (42877, 42877, 1, 7545); (42878, 42886, 2, 42879);
    (42891, 42891, 1, 42892); (42893, 42893, 1, 613); (42896, 42898, 2, 42897);
    (42902, 42920, 2, 42903); (42922, 42922, 1, 614); (42923, 42923, 1, 604);
    (42924, 42924, 1, 609); (42925, 42925, 1, 620); (42926, 42926, 1, 618);
    (42928, 42928, 1, 670); (42929, 42929, 1, 647); (42930, 42930, 1, 669);
    (42931, 42931, 1, 43859); (42932, 42946, 2, 42933);
    (42948, 42948, 1, 42900); (42949, 42949, 1, 642); (42950, 42950, 1, 7566);
    (42951, 42953, 2, 42952); (42960, 42960, 1, 42961);
    (42966, 42968, 2, 42967); (42997, 42997, 1, 42998);
    (65313, 65338, 1, 65345); (66560, 66599, 1, 66600);
    (66736, 66771, 1, 66776); (66928, 66938, 1, 66967);
    (66940, 66954, 1, 66979); (66956, 66962, 1, 66995);
    (66964, 66965, 1, 67003); (68736, 68786, 1, 68800);
    (71840, 71871, 1, 71872); (93760, 93791, 1, 93792);
    (125184, 125217, 1, 125218) ].

End UnicodeData.

(** ** Strings *)

Module Str.
Local Open Scope N_scope.

Abbreviation ustr := (list N).

(** String literals of the source, as code points. *)
Definition u (s : string) : ustr := List.map N_of_ascii (list_ascii_of_string s).

Definition in_range (lo hi c : N) : bool := (lo <=? c) && (c <=? hi).

Definition is_ascii_upper (c : N) : bool := in_range 65 90 c.
Definition is_ascii_lower (c : N) : bool := in_range 97 122 c.
Definition is_ascii_alpha (c : N) : bool := is_ascii_upper c || is_ascii_lower c.
Definition is_ascii_digit (c : N) : bool := in_range 48 57 c.
Definition is_ascii_alnum (c : N) : bool := is_ascii_alpha c || is_ascii_digit c.

(** [str.isspace] of one code point: the characters [strip()] and
    [split()] remove. *)
Definition is_space (c : N) : bool :=
  in_range 9 13 c || in_range 28 32 c || (c =? 133) || (c =? 160)
  || (c =? 5760) || in_range 8192 8202 c || (c =? 8232) || (c =? 8233)
  || (c =? 8239) || (c =? 8287) || (c =? 12288).

(** Membership in a table of ranges. *)
Definition in_ranges (t : list (N * N)) (c : N) : bool :=
  List.existsb (fun r => in_range (fst r) (snd r) c) t.

(** The value of a decimal digit, [None] for any other code point. *)
Definition decimal_value (c : N) : option N :=
  match List.find (fun z => in_range z (z + 9) c) UnicodeData.nd_zeros with
  | Some z => Some (c - z)
  | None => None
  end.

(** The class [\d] of a [str] pattern. *)
Definition is_decimal (c : N) : bool :=
  match decimal_value c with Some _ => true | None => false end.

(** [str.isalnum] of one code point. *)
Definition is_alnum (c : N) : bool := in_ranges UnicodeData.alnum_ranges c.

(** The class [\w] of a [str] pattern. *)
Definition is_word (c : N) : bool := is_alnum c || (c =? 95).

Definition is_cased (c : N) : bool := in_ranges UnicodeData.cased_ranges c.

Definition is_case_ignorable (c : N) : bool :=
  in_ranges UnicodeData.case_ignorable_ranges c.

Fixpoint drop_while (p : N -> bool) (s : ustr) : ustr :=
  match s with
  | [] => []
  | c :: s' => if p c then drop_while p s' else s
  end.

Fixpoint take_while (p : N -> bool) (s : ustr) : ustr :=
  match s with
  | [] => []
  | c :: s' => if p c then c :: take_while p s' else []
  end.

(** [s.strip(chars)], with the characters given as a predicate. *)
Definition strip_with (p : N -> bool) (s : ustr) : ustr :=
  List.rev (drop_while p (List.rev (drop_while p s))).

(** [s.strip()] *)
Definition strip (s : ustr) : ustr := strip_with is_space s.

(** The lowercase of one character other than the capital sigma. *)
Definition lower_cp (c : N) : ustr :=
  if c =? 304 then [105; 775]
  else
    match
      List.find
        (fun '(first, last, step, _) =>
           in_range first last c && ((c - first) mod step =? 0))
        UnicodeData.lower_rows
    with
    | Some (first, _, _, target) => [target + (c - first)]
    | None => [c]
    end.

(** Whether a capital sigma ends a word: the nearest character before it
    that is not case-ignorable is cased, and the nearest one after it, if
    any, is not.  [before] holds the text before the sigma, last character
    first. *)
Definition final_sigma (before after : ustr) : bool :=
  match drop_while is_case_ignorable before with
  | c :: _ => is_cased c
  | [] => false
  end
  && match drop_while is_case_ignorable after with
     | c :: _ => negb (is_cased c)
     | [] => true
     end.

(** The lowercase of the text [s] that follows [before] (last character
    first). *)
Fixpoint lower_from (before s : ustr) : ustr :=
  match s with
  | [] => []
  | c :: rest =>
      (if c =? 931
       then [if final_sigma before rest then 962 else 963]
       else lower_cp c)
      ++ lower_from (c :: before) rest
  end.

(** [s.lower()] *)
Definition lower (s : ustr) : ustr := lower_from [] s.

(** [s.startswith(p)]: the rest of [s] after the prefix [p], if any. *)
Fixpoint strip_prefix (p s : ustr) : option ustr :=
  match p, s with
  | [], _ => Some s
  | a :: p', b :: s' => if a =? b then strip_prefix p' s' else None
  | _ :: _, [] => None
  end.

Definition startswith (p s : ustr) : bool :=
  match strip_prefix p s with Some _ => true | None => false end.

Definition endswith (p s : ustr) : bool := startswith (List.rev p) (List.rev s).

Definition ustr_eqb (a b : ustr) : bool := bool_decide (a = b).

(** [s.split()]: the maximal runs of characters that are not whitespace. *)
Fixpoint split_ws_aux (cur : ustr) (s : ustr) : list ustr :=
  match s with
  | [] => match cur with [] => [] | _ => [List.rev cur] end
  | c :: s' =>
      if is_space c
      then match cur with
           | [] => split_ws_aux [] s'
           | _ => List.rev cur :: split_ws_aux [] s'
           end
      else split_ws_aux (c :: cur) s'
  end.

Definition split_ws (s : ustr) : list ustr := split_ws_aux [] s.

(** [re.sub(r"[class]+", rep, s)]: every maximal run of characters of the
    class is replaced by one copy of [rep]. *)
Fixpoint sub_runs_aux (p : N -> bool) (rep : ustr) (in_run : bool) (s : ustr) : ustr :=
  match s with
  | [] => []
  | c :: s' =>
      if p c
      then (if in_run then [] else rep) ++ sub_runs_aux p rep true s'
      else c :: sub_runs_aux p rep false s'
  end.

Definition sub_runs (p : N -> bool) (rep : ustr) (s : ustr) : ustr :=
  sub_runs_aux p rep false s.

(** The anchor [$] of a pattern without flags: at the end of the text, or
    just before a line feed that ends the text. *)
Definition at_dollar (rest : ustr) : bool :=
  match rest with
  | [] => true
  | [10] => true
  | _ => false
  end.

(** Decimal numerals. *)
Fixpoint ustr_of_uint (d : Decimal.uint) : ustr :=
  match d with
  | Decimal.Nil => []
  | Decimal.D0 d => 48 :: ustr_of_uint d
  | Decimal.D1 d => 49 :: ustr_of_uint d
  | Decimal.D2 d => 50 :: ustr_of_uint d
  | Decimal.D3 d => 51 :: ustr_of_uint d
  | Decimal.D4 d => 52 :: ustr_of_uint d
  | Decimal.D5 d => 53 :: ustr_of_uint d
  | Decimal.D6 d => 54 :: ustr_of_uint d
  | Decimal.D7 d => 55 :: ustr_of_uint d
  | Decimal.D8 d => 56 :: ustr_of_uint d
  | Decimal.D9 d => 57 :: ustr_of_uint d
  end.

Definition str_of_N (n : N) : ustr := ustr_of_uint (N.to_uint n).

(** [str(z)] for an [int]. *)
Definition str_of_Z (z : Z) : ustr :=
  match z with
  | Zneg p => 45 :: str_of_N (Npos p)
  | _ => str_of_N (Z.to_N z)
  end.

(** The number written by a run of decimal digits ([int(s)] on such a run);
    a character that is no digit counts as zero. *)
Definition digits_value (s : ustr) : N :=
  List.fold_left (fun acc c => 10 * acc + default 0 (decimal_value c)) s 0.

(** The limit CPython puts on [int] of a text: a number of more than 640
    digits is refused, with [ValueError], when a limit is set
    ([max_str_digits], 4300 unless changed, 0 for none) and the number has
    more digits than it. *)
Definition int_digits_ok (max_str_digits ndigits : nat) : bool :=
  negb ((640 <? ndigits)%nat && (0 <? max_str_digits)%nat
        && (max_str_digits <? ndigits)%nat).

(** [f"{z:04d}"]: at least four characters, sign included, zero-padded. *)
Definition zero_pad (width : nat) (s : ustr) : ustr :=
  List.repeat 48 (width - length s) ++ s.

Definition format_04d (z : Z) : ustr :=
  match z with
  | Zneg p => 45 :: zero_pad 3 (str_of_N (Npos p))
  | _ => zero_pad 4 (str_of_N (Z.to_N z))
  end.

End Str.
Export Str.

(** ** Floating-point numbers *)

Module Float.
Local Open Scope Z_scope.

Definition prec : Z := 53.
Definition emax : Z := 1024.

(** The binary64 value nearest to [(-1)^neg * m * 10^e10]. *)
Definition of_decimal (neg : bool) (m : N) (e10 : Z) : spec_float :=
  match m with
  | N0 => S754_zero neg
  | Npos p =>
      if 0 <=? e10
      then binary_round prec emax neg (p * Z.to_pos (10 ^ e10)) 0
      else
        let '(q, e', l) := SFdiv_core_binary prec emax (Zpos p) 0 (10 ^ (- e10)) 0 in
        binary_round_aux prec emax neg q e' l
  end.

(** The binary64 value nearest to an integer. *)
Definition of_Z (z : Z) : spec_float := binary_normalize prec emax z 0 false.

(** [float(z)] for an [int]: [OverflowError] beyond the finite range. *)
Definition of_int (z : Z) : option spec_float :=
  match of_Z z with
  | S754_infinity _ => None
  | f => Some f
  end.

(** [f.is_integer()] *)
Definition is_integer (f : spec_float) : bool :=
  match f with
  | S754_zero _ => true
  | S754_finite _ m e => if 0 <=? e then true else Zpos m mod 2 ^ (- e) =? 0
  | _ => false
  end.

(** [int(f)]: truncation towards zero; raises on an infinity or a NaN. *)
Definition to_int (f : spec_float) : option Z :=
  match f with
  | S754_zero _ => Some 0
  | S754_finite s m e =>
      let a := if 0 <=? e then Zpos m * 2 ^ e else Zpos m / 2 ^ (- e) in
      Some (if s then - a else a)
  | _ => None
  end.

(** Exact comparison of a float with an integer; [None] for a NaN. *)
Definition compare_Z (f : spec_float) (z : Z) : option comparison :=
  match f with
  | S754_nan => None
  | S754_infinity s => Some (if s then Lt else Gt)
  | S754_zero _ => Some (0 ?= z)
  | S754_finite s m e =>
      let sm := if s then Zneg m else Zpos m in
      Some (if 0 <=? e then sm * 2 ^ e ?= z else sm ?= z * 2 ^ (- e))
  end.

(** [f >= z], [f > z] and [f < z] for an [int] [z]. *)
Definition geb_Z (f : spec_float) (z : Z) : bool :=
  match compare_Z f z with Some Gt | Some Eq => true | _ => false end.
Definition gtb_Z (f : spec_float) (z : Z) : bool :=
  match compare_Z f z with Some Gt => true | _ => false end.
Definition ltb_Z (f : spec_float) (z : Z) : bool :=
  match compare_Z f z with Some Lt => true | _ => false end.

(** *** [float(s)] for a [str] *)

(** A run [digit (_? digit)*]: the values of its digits and the rest. *)
Fixpoint digitpart (prev_digit : bool) (s : ustr) : list N * ustr :=
  match s with
  | [] => ([], [])
  | c :: s' =>
      match decimal_value c with
      | Some d => let '(ds, r) := digitpart true s' in (d :: ds, r)
      | None =>
          if (c =? 95)%N && prev_digit
             && match s' with c2 :: _ => is_decimal c2 | [] => false end
          then digitpart false s'
          else ([], s)
      end
  end.

Definition digits_to_N (ds : list N) : N :=
  List.fold_left (fun acc d => (10 * acc + d)%N) ds 0%N.

(** An optional sign. *)
Definition parse_sign (s : ustr) : bool * ustr :=
  match s with
  | 45%N :: r => (true, r)
  | 43%N :: r => (false, r)
  | _ => (false, s)
  end.

(** An optional exponent [(e|E) sign? digitpart]; [None] when an [e] is
    not followed by one. *)
Definition parse_exponent (s : ustr) : option (Z * ustr) :=
  match s with
  | c :: r =>
      if (c =? 101)%N || (c =? 69)%N
      then
        let '(neg, r1) := parse_sign r in
        match digitpart false r1 with
        | ([], _) => None
        | (ds, r2) =>
            let e := Z.of_N (digits_to_N ds) in
            Some (if neg then - e else e, r2)
        end
      else Some (0, s)
  | [] => Some (0, [])
  end.

(** A decimal literal [digitpart [. [digitpart]] [exponent]] or
    [. digitpart [exponent]] that spans the whole text. *)
Definition parse_number (neg : bool) (s : ustr) : option spec_float :=
  let '(ip, r1) := digitpart false s in
  let '(fp, r2) :=
    match r1 with
    | 46%N :: r => digitpart false r
    | _ => ([], r1)
    end in
  match ip, fp with
  | [], [] => None
  | _, _ =>
      match parse_exponent r2 with
      | Some (e, []) =>
          Some (of_decimal neg (digits_to_N (ip ++ fp)) (e - Z.of_nat (length fp)))
      | _ => None
      end
  end.

(** The whitespace [float] ignores around a number: the blanks of C
    ([isspace]: tab to carriage return, and the space) and the whitespace
    outside ASCII, which is first turned into spaces.  The separators
    U+001C to U+001F, which [str.strip] removes, are not among them. *)
Definition is_float_space (c : N) : bool :=
  in_range 9 13 c || (c =? 32)%N || ((127 <=? c)%N && is_space c).

(** The letters A to Z put in lower case, as C compares the names [inf],
    [infinity] and [nan]. *)
Definition lower_ascii (s : ustr) : ustr :=
  List.map (fun c => if is_ascii_upper c then (c + 32)%N else c) s.

(** [float(s)]: surrounding whitespace is ignored; [None] is [ValueError]. *)
Definition of_str (s : ustr) : option spec_float :=
  let '(neg, r) := parse_sign (strip_with is_float_space s) in
  let l := lower_ascii r in
  if ustr_eqb l (u "inf") || ustr_eqb l (u "infinity") then Some (S754_infinity neg)
  else if ustr_eqb l (u "nan") then Some S754_nan
  else parse_number neg r.

(** *** [repr(f)]: the shortest decimal text that reads back as [f] *)

Definition lt_pow10 (num den k : Z) : bool :=
  if 0 <=? k then num <? den * 10 ^ k else num * 10 ^ (- k) <? den.

(** The least [k >= k0] with [num / den < 10^k]. *)
Fixpoint find_decpt (fuel : nat) (num den k : Z) : Z :=
  match fuel with
  | O => k
  | S fuel' => if lt_pow10 num den k then k else find_decpt fuel' num den (k + 1)
  end.

(** The first [n] (from [n] on) for which a decimal of [n] significant
    digits next to [num / den] reads back as [f]; the result [(c, e)]
    stands for [c * 10^e]. *)
Fixpoint shortest_digits (fuel : nat) (n : Z) (f : spec_float) (num den k : Z) : Z * Z :=
  match fuel with
  | O => (0, 0)
  | S fuel' =>
      let sh := n - k in
      let sn := if 0 <=? sh then num * 10 ^ sh else num in
      let sd := if 0 <=? sh then den else den * 10 ^ (- sh) in
      let lo := sn / sd in
      let ok c := SFeqb (of_decimal false (Z.to_N c) (- sh)) f in
      let pick :=
        match ok lo, ok (lo + 1) with
        | true, true =>
            Some match 2 * (sn - lo * sd) ?= sd with
                 | Lt => lo
                 | Gt => lo + 1
                 | Eq => if Z.even lo then lo else lo + 1
                 end
        | true, false => Some lo
        | false, true => Some (lo + 1)
        | false, false => None
        end in
      match pick with
      | Some c => (c, - sh)
      | None => shortest_digits fuel' (n + 1) f num den k
      end
  end.

(** The text of [c * 10^e]: fixed notation when the decimal point falls
    within [-4 < decpt <= 16], exponent notation otherwise. *)
Definition format_repr (c e : Z) : ustr :=
  let ds := str_of_N (Z.to_N c) in
  let D := List.rev (drop_while (N.eqb 48) (List.rev ds)) in
  let decpt := Z.of_nat (length ds) + e in
  if (decpt <=? -4) || (16 <? decpt)
  then
    let x := decpt - 1 in
    let xs := str_of_N (Z.to_N (Z.abs x)) in
    List.firstn 1 D
    ++ match List.skipn 1 D with [] => [] | t => 46%N :: t end
    ++ [101%N; if x <? 0 then 45%N else 43%N]
    ++ zero_pad 2 xs
  else if decpt <=? 0
  then u "0." ++ List.repeat 48%N (Z.to_nat (- decpt)) ++ D
  else if Z.of_nat (length D) <=? decpt
  then D ++ List.repeat 48%N (Z.to_nat decpt - length D) ++ u ".0"
  else List.firstn (Z.to_nat decpt) D ++ 46%N :: List.skipn (Z.to_nat decpt) D.

(** [repr(f)], which is also [str(f)]. *)
Definition repr (f : spec_float) : ustr :=
  match f with
  | S754_nan => u "nan"
  | S754_infinity s => if s then u "-inf" else u "inf"
  | S754_zero s => if s then u "-0.0" else u "0.0"
  | S754_finite s m e =>
      let num := if 0 <=? e then Zpos m * 2 ^ e else Zpos m in
      let den := if 0 <=? e then 1 else 2 ^ (- e) in
      let k := find_decpt 700 num den (-330) in
      let '(c, e10) := shortest_digits 17 1 (S754_finite false m e) num den k in
      (if s then [45%N] else []) ++ format_repr c e10
  end.

Definition is_nan (f : spec_float) : bool :=
  match f with S754_nan => true | _ => false end.

End Float.


(** ** Values *)

(** A value of Python, as a cell of a sheet or a value of a row holds it.
    [VOther] stands for an object of another type than the first five: a
    timestamp, pandas' [NaT], a time of day, a duration.  The code asks
    three things of such an object: its text [str(v)], its truth value,
    and, through pandas, whether it counts as missing ([NaT] does). *)
Inductive pyval : Type :=
  | VNone
  | VBool (b : bool)
  | VInt (z : Z)
  | VFloat (f : spec_float)
  | VStr (s : ustr)
  | VOther (text : ustr) (truthy missing : bool).

(** Python's [dict] with [str] keys. *)
Abbreviation pydict := (gmap ustr pyval).

(** [str(v)] *)
Definition py_str (v : pyval) : ustr :=
  match v with
  | VNone => u "None"
  | VBool true => u "True"
  | VBool false => u "False"
  | VInt z => str_of_Z z
  | VFloat f => Float.repr f
  | VStr s => s
  | VOther text _ _ => text
  end.

(** The truth value of [v] in a condition. *)
Definition py_truthy (v : pyval) : bool :=
  match v with
  | VNone => false
  | VBool b => b
  | VInt z => negb (z =? 0)%Z
  | VFloat (S754_zero _) => false
  | VFloat _ => true
  | VStr s => match s with [] => false | _ => true end
  | VOther _ truthy _ => truthy
  end.

(** [float(v)]; [None] when it raises. *)
Definition py_float (v : pyval) : option spec_float :=
  match v with
  | VNone => None
  | VBool b => Float.of_int (if b then 1 else 0)
  | VInt z => Float.of_int z
  | VFloat f => Some f
  | VStr s => Float.of_str s
  | VOther _ _ _ => None
  end.

Definition is_none (v : pyval) : bool :=
  match v with VNone => true | _ => false end.

(** [d.get(k)] *)
Definition dict_get (d : pydict) (k : ustr) : pyval := default VNone (d !! k).

(** ** [app/validator.py] *)

Definition REQUIRED_FIELDS : list ustr :=
  [ u "loaner_id"; u "fullname"; u "mobile_no"; u "loaner_adhar";
    u "total_amount"; u "total_land"; u "descrition" ].

(** [n] characters of [[0-9]], then the rest. *)
Fixpoint ascii_digits (n : nat) (s : ustr) : option ustr :=
  match n with
  | O => Some s
  | S n' =>
      match s with
      | c :: s' => if is_ascii_digit c then ascii_digits n' s' else None
      | [] => None
      end
  end.

(** [re.match(r"^[6-9][0-9]{9}$", s)] *)
Definition match_mobile (s : ustr) : bool :=
  match s with
  | c :: s' =>
      in_range 54 57 c
      && match ascii_digits 9 s' with Some rest => at_dollar rest | None => false end
  | [] => false
  end.

(** [re.match(r"^[0-9]{12}$", s)] *)
Definition match_adhar (s : ustr) : bool :=
  match ascii_digits 12 s with Some rest => at_dollar rest | None => false end.

(** The body of the loop of [validate_and_clean], for one row. *)
Definition clean_row (row : pydict) : pydict :=
  let clean_row : pydict :=
    List.fold_left (fun acc field => <[field := dict_get row field]> acc)
                   REQUIRED_FIELDS ∅ in
  let clean_row :=
    if negb (is_none (dict_get clean_row (u "total_amount")))
    then
      match py_float (dict_get clean_row (u "total_amount")) with
      | Some f => <[u "total_amount" := VFloat f]> clean_row
      | None => <[u "total_amount" := VNone]> clean_row
      end
    else clean_row in
  let clean_row :=
    if py_truthy (dict_get clean_row (u "mobile_no"))
    then if negb (match_mobile (py_str (dict_get clean_row (u "mobile_no"))))
         then <[u "mobile_no" := VNone]> clean_row
         else clean_row
    else clean_row in
  let clean_row :=
    if py_truthy (dict_get clean_row (u "loaner_adhar"))
    then if negb (match_adhar (py_str (dict_get clean_row (u "loaner_adhar"))))
         then <[u "loaner_adhar" := VNone]> clean_row
         else clean_row
    else clean_row in
  clean_row.

Definition validate_and_clean (data_list : list pydict) : list pydict :=
  List.map clean_row data_list.

(** ** [app/main.py]: normalizer and alias table *)

(** [re.sub(r"[^a-zA-Z0-9]+", "_", str(name).strip().lower())], then
    [re.sub(r"_+", "_", normalized).strip("_")]. *)
Definition _normalize_column_name (name : pyval) : ustr :=
  let normalized :=
    sub_runs (fun c => negb (is_ascii_alnum c)) (u "_") (lower (strip (py_str name))) in
  strip_with (N.eqb 95) (sub_runs (N.eqb 95) (u "_") normalized).

Definition _clean_nan (value : pyval) : pyval :=
  match value with
  | VFloat f => if Float.is_nan f then VNone else value
  | VStr s => match strip s with [] => VNone | s' => VStr s' end
  | _ => value
  end.

(** The alias sets as declared, field by field in the order of the [dict]. *)
Definition FIELD_ALIASES : list (ustr * list ustr) :=
  [ (u "loaner_id",
     [u "loaner_id"; u "loanerid"; u "id"; u "app_id"; u "application_id"]);
    (u "fullname",
     [u "fullname"; u "full_name"; u "name"; u "customer_name"]);
    (u "mobile_no",
     [u "mobile_no"; u "mobile"; u "mobile_number"; u "phone"; u "phone_no"]);
    (u "loaner_adhar",
     [u "loaner_adhar"; u "loaner_aadhar"; u "aadhar"; u "aadhaar"; u "adhar_no"]);
    (u "total_amount",
     [u "total_amount"; u "amount"; u "loan_amount"; u "total_loan_amount"]);
    (u "total_land",
     [u "total_land"; u "land"; u "land_size"; u "land_area"]);
    (u "descrition",
     [u "descrition"; u "description"; u "purpose"; u "remarks"]) ].

(** [FIELD_ALIASES.get(field, {field})] *)
Definition aliases_of (field : ustr) : list ustr :=
  match List.find (fun fa => ustr_eqb (fst fa) field) FIELD_ALIASES with
  | Some (_, aliases) => aliases
  | None => [field]
  end.

(** A sheet as the reader returns it: the column labels and the rows of
    cells under them. *)
Record DataFrame : Type := {
  columns : list pyval;
  rows : list (list pyval)
}.

(** The [header] argument of the reader. *)
Inductive header_arg : Type :=
  | HeaderNone
  | HeaderRow (n : nat).

(** What pandas counts as missing: [None], NaN, and a missing value of
    another type such as [NaT]. *)
Definition is_na (v : pyval) : bool :=
  match v with
  | VNone => true
  | VFloat f => Float.is_nan f
  | VOther _ _ missing => missing
  | _ => false
  end.

(** [df.dropna(how="all")] *)
Definition dropna_all (df : DataFrame) : DataFrame :=
  {| columns := columns df;
     rows := List.filter (fun r => negb (List.forallb is_na r)) (rows df) |}.

(** The storage collaborator answers an insertion in one of three ways. *)
Inductive add_outcome : Type :=
  | Inserted
  | IntegrityError
  | OtherError.

(** The calls the upload makes on the storage session, in order. *)
Inductive db_event : Type :=
  | EvAdd (row : pydict)
  | EvCommit
  | EvRollback
  | EvQuery.

Inductive mapping_source : Type :=
  | direct_header
  | content_heuristic.

Record upload_ok : Type := {
  ok_mapping_source : mapping_source;
  rows_inserted : nat;
  duplicates_skipped : nat;
  failed_rows : nat;
  total_processed : nat;
  preview : list pydict;
  data : list pydict
}.

(** The response of the upload: a report, or an HTTP error with its status
    and detail. *)
Inductive response : Type :=
  | Success (r : upload_ok)
  | HTTPException (status_code : nat) (detail : ustr).

(** [repr] of a list of plain ASCII names, as an f-string prints it. *)
Definition repr_str_list (l : list ustr) : ustr :=
  let fix go (l : list ustr) : ustr :=
    match l with
    | [] => []
    | [x] => 39%N :: x ++ [39%N]
    | x :: l' => 39%N :: x ++ [39%N] ++ u ", " ++ go l'
    end in
  u "[" ++ go l ++ u "]".

(** ** [app/main.py]: content classifier *)

Definition land_words : list ustr :=
  [u "acre"; u "acres"; u "hectare"; u "hectares"; u "ha"].

Definition is_word_opt (c : option N) : bool :=
  match c with Some c => is_word c | None => false end.

(** [\b] between two neighbouring characters (absent at either end). *)
Definition word_boundary (before after : option N) : bool :=
  xorb (is_word_opt before) (is_word_opt after).

(** [\b(acre|acres|hectare|hectares|ha)\b] matched at the start of [s],
    where [prev] is the character before it. *)
Definition land_match_here (prev : option N) (s : ustr) : bool :=
  word_boundary prev (List.head s)
  && List.existsb
       (fun w =>
          match strip_prefix w s with
          | Some rest => word_boundary (List.last (List.map Some w) None) (List.head rest)
          | None => false
          end)
       land_words.

(** [re.search(r"\b(acre|acres|hectare|hectares|ha)\b", s)] *)
Fixpoint land_search_from (prev : option N) (s : ustr) : bool :=
  land_match_here prev s
  || match s with
     | [] => false
     | c :: s' => land_search_from (Some c) s'
     end.

Definition land_search (s : ustr) : bool := land_search_from None s.

(** [re.sub(r"\D", "", text)] *)
Definition digits_of (text : ustr) : ustr := List.filter is_decimal text.

(** [\d{1,}$] *)
Definition digits_then_end (s : ustr) : bool :=
  match take_while is_decimal s with
  | [] => false
  | _ => at_dollar (drop_while is_decimal s)
  end.

Definition is_id_separator (c : N) : bool :=
  (c =? 45)%N || (c =? 95)%N || (c =? 32)%N.

(** [[-_ ]?\d{1,}$] *)
Definition id_tail (s : ustr) : bool :=
  digits_then_end s
  || match s with
     | c :: s' => is_id_separator c && digits_then_end s'
     | [] => false
     end.

(** [re.match(r"^[A-Za-z]{1,5}[-_ ]?\d{1,}$", text)] *)
Definition match_id_pattern (text : ustr) : bool :=
  List.existsb
    (fun k =>
       let letters := List.firstn k text in
       (length letters =? k)%nat && List.forallb is_ascii_alpha letters
       && id_tail (List.skipn k text))
    [1; 2; 3; 4; 5]%nat.

(** [re.fullmatch(r"\d+(\.\d+)?", text)] *)
Definition fullmatch_numeric (text : ustr) : bool :=
  match take_while is_decimal text with
  | [] => false
  | _ =>
      match drop_while is_decimal text with
      | [] => true
      | 46%N :: frac =>
          match frac with
          | [] => false
          | _ => List.forallb is_decimal frac
          end
      | _ => false
      end
  end.

(** The state of the loop over the values of one row. *)
Record row_state : Type := {
  inferred : pydict;
  text_candidates : list ustr;
  numeric_candidates : list ustr
}.

Definition set_inferred (st : row_state) (field : ustr) (v : pyval) : row_state :=
  {| inferred := <[field := v]> (inferred st);
     text_candidates := text_candidates st;
     numeric_candidates := numeric_candidates st |}.

(** One turn of [for value in values]. *)
Definition classify_value (st : row_state) (value : pyval) : row_state :=
  let text := strip (py_str value) in
  let digits := digits_of text in
  let lower := lower text in
  if is_none (dict_get (inferred st) (u "total_land")) && land_search lower
  then set_inferred st (u "total_land") (VStr text)
  else if is_none (dict_get (inferred st) (u "loaner_adhar")) && (length digits =? 12)%nat
  then set_inferred st (u "loaner_adhar") (VStr digits)
  else if is_none (dict_get (inferred st) (u "mobile_no"))
          && (length digits =? 10)%nat
          && match digits with c :: _ => in_range 54 57 c | [] => false end
  then set_inferred st (u "mobile_no") (VStr digits)
  else if match_id_pattern text && is_none (dict_get (inferred st) (u "loaner_id"))
  then set_inferred st (u "loaner_id") (VStr (List.filter (fun c => negb (c =? 32)%N) text))
  else if fullmatch_numeric text
  then {| inferred := inferred st;
          text_candidates := text_candidates st;
          numeric_candidates := numeric_candidates st ++ [text] |}
  else {| inferred := inferred st;
          text_candidates := text_candidates st ++ [text];
          numeric_candidates := numeric_candidates st |}.

(** [max(l, key=len)] of a list that is not empty: the first of the longest. *)
Fixpoint max_by_len (best : ustr) (l : list ustr) : ustr :=
  match l with
  | [] => best
  | x :: l' => max_by_len (if (length best <? length x)%nat then x else best) l'
  end.

(** The first candidate other than the description with at most 4 words. *)
Definition pick_fullname (descrition : ustr) (cands : list ustr) : option ustr :=
  List.find
    (fun candidate =>
       negb (ustr_eqb candidate descrition)
       && (length (split_ws candidate) <=? 4)%nat)
    cands.

Definition assign_text (inf : pydict) (cands : list ustr) : pydict :=
  match cands with
  | [] => inf
  | c :: rest =>
      let d := max_by_len c rest in
      let inf := <[u "descrition" := VStr d]> inf in
      match pick_fullname d cands with
      | Some candidate => <[u "fullname" := VStr candidate]> inf
      | None => inf
      end
  end.

(** One turn of [for candidate in numeric_candidates]. *)
Definition assign_numeric (inf : pydict) (candidate : ustr) : pydict :=
  match Float.of_str candidate with
  | None => inf
  | Some n =>
      let inf :=
        if is_none (dict_get inf (u "total_amount")) && Float.geb_Z n 1000
        then <[u "total_amount" := VFloat n]> inf
        else inf in
      if is_none (dict_get inf (u "loaner_id")) && Float.is_integer n
         && Float.gtb_Z n 0 && Float.ltb_Z n 10000
      then
        match Float.to_int n with
        | Some z => <[u "loaner_id" := VStr (str_of_Z z)]> inf
        | None => inf
        end
      else inf
  end.

(** The values of a row that survive [_clean_nan]. *)
Definition row_values (row : list pyval) : list pyval :=
  List.map _clean_nan (List.filter (fun v => negb (is_none (_clean_nan v))) row).

(** The body of the loop over the rows: [None] when the row is skipped. *)
Definition classify_row (idx : nat) (row : list pyval) : option pydict :=
  match row_values row with
  | [] => None
  | values =>
      let init :=
        {| inferred :=
             List.fold_left (fun acc field => <[field := VNone]> acc) REQUIRED_FIELDS ∅;
           text_candidates := [];
           numeric_candidates := [] |} in
      let st := List.fold_left classify_value values init in
      let inf := assign_text (inferred st) (text_candidates st) in
      let inf := List.fold_left assign_numeric (numeric_candidates st) inf in
      let inf :=
        if is_none (dict_get inf (u "loaner_id"))
        then <[u "loaner_id" := VStr (u "TEMP" ++ str_of_N (N.of_nat idx))]> inf
        else inf in
      Some inf
  end.

(** The loop over the rows, numbered from [idx]. *)
Fixpoint classify_rows (idx : nat) (rows : list (list pyval)) : list pydict :=
  match rows with
  | [] => []
  | row :: rest =>
      match classify_row idx row with
      | Some inf => inf :: classify_rows (S idx) rest
      | None => classify_rows (S idx) rest
      end
  end.

Definition _extract_rows_by_content (df : DataFrame) : option (list pydict) :=
  let df := dropna_all df in
  match classify_rows 1 (rows df) with
  | [] => None
  | inferred_rows => Some inferred_rows
  end.

(** ** [app/main.py]: identifiers *)

Definition auto_id (index : Z) (batch_tag : ustr) : ustr :=
  u "AUTO" ++ batch_tag ++ format_04d index.

Definition _ensure_loaner_id (value : pyval) (index : Z) (batch_tag : ustr) : ustr :=
  match value with
  | VNone => auto_id index batch_tag
  | _ =>
      let text := strip (py_str value) in
      match text with
      | [] => auto_id index batch_tag
      | _ =>
          if endswith (u ".0") text
          then
            match Float.of_str text with
            | Some f =>
                match Float.to_int f with
                | Some z => str_of_Z z
                | None => text
                end
            | None => text
            end
          else text
      end
  end.

(** The tuples [_loaner_sort_key] returns. *)
Record sort_key : Type := {
  key_class : Z;
  key_prefix : ustr;
  key_num : Z;
  key_text : ustr
}.

(** [0*([0-9]+)$] on a run of digits: the second group is what is left
    after the leading zeros, or the last zero when there is nothing else. *)
Fixpoint group2 (ds : ustr) : ustr :=
  match ds with
  | 48%N :: (_ :: _) as rest => group2 rest
  | _ => ds
  end.

(** [re.match(r"^([A-Za-z]+)?0*([0-9]+)$", text)]: the two groups. *)
Definition match_sort_pattern (text : ustr) : option (ustr * ustr) :=
  let prefix := take_while is_ascii_alpha text in
  let rest := drop_while is_ascii_alpha text in
  let ds := take_while is_ascii_digit rest in
  match ds with
  | [] => None
  | _ =>
      if at_dollar (drop_while is_ascii_digit rest)
      then Some (prefix, group2 ds)
      else None
  end.

(** [_loaner_sort_key]; [None] stands for the [ValueError] of
    [int(match.group(2))] on digits beyond the limit of the interpreter. *)
Definition _loaner_sort_key (max_str_digits : nat) (loaner_id : pyval) : option sort_key :=
  let text := match loaner_id with VNone => [] | _ => strip (py_str loaner_id) end in
  match match_sort_pattern text with
  | Some (g1, g2) =>
      if int_digits_ok max_str_digits (length g2)
      then Some {| key_class := 0; key_prefix := lower g1;
                   key_num := Z.of_N (digits_value g2); key_text := lower text |}
      else None
  | None =>
      Some {| key_class := 1; key_prefix := lower text; key_num := 0;
              key_text := lower text |}
  end.

(** The order of [str]: lexicographic on code points. *)
Fixpoint str_compare (a b : ustr) : comparison :=
  match a, b with
  | [], [] => Eq
  | [], _ :: _ => Lt
  | _ :: _, [] => Gt
  | x :: a', y :: b' =>
      match (x ?= y)%N with
      | Eq => str_compare a' b'
      | c => c
      end
  end.

(** The order of the key tuples: lexicographic on the components. *)
Definition key_compare (k1 k2 : sort_key) : comparison :=
  match (key_class k1 ?= key_class k2)%Z with
  | Eq =>
      match str_compare (key_prefix k1) (key_prefix k2) with
      | Eq =>
          match (key_num k1 ?= key_num k2)%Z with
          | Eq => str_compare (key_text k1) (key_text k2)
          | c => c
          end
      | c => c
      end
  | c => c
  end.

Definition key_leb (k1 k2 : sort_key) : bool :=
  match key_compare k1 k2 with Gt => false | _ => true end.

(** [sorted(l, key=_loaner_sort_key)]: the key of each element is computed
    first, in order, and the sort is stable; [None] when a key raises. *)
Fixpoint insert_by_key (kx : sort_key * pyval) (l : list (sort_key * pyval))
    : list (sort_key * pyval) :=
  match l with
  | [] => [kx]
  | ky :: l' =>
      if key_leb (fst kx) (fst ky)
      then kx :: l
      else ky :: insert_by_key kx l'
  end.

Definition sorted_by_key (max_str_digits : nat) (l : list pyval) : option (list pyval) :=
  match mapM (fun x => (fun k => (k, x)) <$> _loaner_sort_key max_str_digits x) l with
  | Some keyed => Some (List.map snd (List.fold_right insert_by_key [] keyed))
  | None => None
  end.

(** ** [app/main.py]: header mapping and upload *)

#[global] Instance spec_float_eq_dec : EqDecision spec_float.
Proof. solve_decision. Defined.

#[global] Instance pyval_eq_dec : EqDecision pyval.
Proof. solve_decision. Defined.

Section Main.

(** The order in which a [for] loop visits the alias set of a field: a
    [set] of strings has no fixed order. *)
Variable alias_order : ustr -> list ustr.

(** The file-ingestion collaborator, [pd.read_excel(BytesIO(b), header=h)]:
    a sheet, or the message of the exception it raises. *)
Variable read_excel : list Byte.byte -> header_arg -> DataFrame + ustr.

(** The storage collaborator: a session that answers an insertion made in
    its own nested transaction, and the ordered query of all records. *)
Variable DB : Type.
Variable db_add : DB -> pydict -> DB * add_outcome.
Variable db_commit : DB -> DB.
Variable db_rollback : DB -> DB.
Variable db_query : DB -> list pydict.

(** The first loop of [_resolve_field_mapping]. *)
Definition normalized_columns (cols : list pyval) : gmap ustr pyval :=
  List.fold_left
    (fun acc col =>
       let normalized := _normalize_column_name col in
       if negb (startswith (u "unnamed") normalized)
       then <[normalized := col]> acc
       else acc)
    cols ∅.

(** The loop over the aliases of one field: the column of the first alias
    that is a key, [None] when there is none. *)
Fixpoint match_column (normalized_to_actual : gmap ustr pyval) (candidates : list ustr) : pyval :=
  match candidates with
  | [] => VNone
  | alias :: rest =>
      match normalized_to_actual !! _normalize_column_name (VStr alias) with
      | Some col => col
      | None => match_column normalized_to_actual rest
      end
  end.

(** The loop over the required fields. *)
Fixpoint resolve_fields (normalized_to_actual : gmap ustr pyval) (fields : list ustr)
    (field_to_column : gmap ustr pyval) : option (gmap ustr pyval) :=
  match fields with
  | [] => Some field_to_column
  | field :: rest =>
      match match_column normalized_to_actual (alias_order field) with
      | VNone => None
      | matched_col =>
          resolve_fields normalized_to_actual rest (<[field := matched_col]> field_to_column)
      end
  end.

Definition _resolve_field_mapping (df : DataFrame) : option (gmap ustr pyval) :=
  resolve_fields (normalized_columns (columns df)) REQUIRED_FIELDS ∅.

Definition _build_alias_to_field : gmap ustr ustr :=
  List.fold_left
    (fun acc fa =>
       List.fold_left
         (fun acc alias => <[_normalize_column_name (VStr alias) := fst fa]> acc)
         (alias_order (fst fa)) acc)
    FIELD_ALIASES ∅.

Definition ALIAS_TO_FIELD : gmap ustr ustr := _build_alias_to_field.

(** The score of one row of the probe: the number of distinct fields its
    cells name. *)
Definition row_score (raw_cells : list pyval) : nat :=
  let normalized : gset ustr :=
    list_to_set
      (List.map _normalize_column_name
         (List.filter
            (fun cell => negb (is_none cell)
                         && match strip (py_str cell) with [] => false | _ => true end)
            raw_cells)) in
  let matched_fields : gset ustr :=
    list_to_set (omap (fun n => ALIAS_TO_FIELD !! n) (elements normalized)) in
  size matched_fields.

(** The loop of [_detect_header_row] from row [i] on. *)
Fixpoint detect_loop (probe : list (list pyval)) (i : nat)
    (best_idx : option nat) (best_score : nat) : option nat :=
  match probe with
  | [] => if (4 <=? best_score)%nat then best_idx else None
  | raw_cells :: rest =>
      let score := row_score raw_cells in
      let best_idx' := if (best_score <? score)%nat then Some i else best_idx in
      let best_score' := if (best_score <? score)%nat then score else best_score in
      if (score =? length REQUIRED_FIELDS)%nat
      then Some i
      else detect_loop rest (S i) best_idx' best_score'
  end.

(** The scan over the rows of an already parsed probe. *)
Definition detect_in (probe : list (list pyval)) (max_rows : nat) : option nat :=
  let check_rows := Nat.min (length probe) max_rows in
  detect_loop (List.firstn check_rows probe) 0 None 0.

Definition _detect_header_row (file_bytes : list Byte.byte) (max_rows : nat)
    : option nat + ustr :=
  match read_excel file_bytes HeaderNone with
  | inl probe_df => inl (detect_in (rows probe_df) max_rows)
  | inr e => inr e
  end.

Definition _load_excel_with_best_header (file_bytes : list Byte.byte) : DataFrame + ustr :=
  match read_excel file_bytes (HeaderRow 0) with
  | inr e => inr e
  | inl df =>
      match _resolve_field_mapping df with
      | Some _ => inl df
      | None =>
          match _detect_header_row file_bytes 15 with
          | inr e => inr e
          | inl (Some header_row) => read_excel file_bytes (HeaderRow header_row)
          | inl None => inl df
          end
      end
  end.

(** [record.get(col)] for the record of one row: the cell under the label
    [col] (the last one, should a label repeat). *)
Fixpoint record_get (cols : list pyval) (row : list pyval) (col : pyval) : pyval :=
  match cols, row with
  | c :: cols', v :: row' =>
      match record_get cols' row' col with
      | VNone => if bool_decide (c = col) then v else VNone
      | found => found
      end
  | _, _ => VNone
  end.

Definition _extract_direct_rows (df : DataFrame) : option (list pydict) :=
  let df := dropna_all df in
  match _resolve_field_mapping df with
  | None => None
  | Some field_to_column =>
      let selected_cols := List.map (dict_get field_to_column) REQUIRED_FIELDS in
      Some
        (List.map
           (fun row =>
              List.fold_left
                (fun direct_row fc =>
                   <[fst fc := _clean_nan (record_get (columns df) row (snd fc))]> direct_row)
                (List.combine REQUIRED_FIELDS selected_cols) ∅)
           (rows df))
  end.

(** The loop that inserts the cleaned rows, numbered from [i]: the rows
    with their identifiers set, the session, the three counters and the
    calls made. *)
Fixpoint persist_rows (batch_tag : ustr) (db : DB) (i : Z) (clean_data : list pydict)
    : list pydict * DB * (nat * nat * nat) * list db_event :=
  match clean_data with
  | [] => ([], db, (0, 0, 0)%nat, [])
  | row :: rest =>
      let row :=
        <[u "loaner_id" :=
            VStr (_ensure_loaner_id (dict_get row (u "loaner_id")) i batch_tag)]> row in
      let '(db, outcome) := db_add db row in
      let '(rows', db, (inserted, skipped, failed), evs) :=
        persist_rows batch_tag db (i + 1) rest in
      (row :: rows', db,
       match outcome with
       | Inserted => (S inserted, skipped, failed)
       | IntegrityError => (inserted, S skipped, failed)
       | OtherError => (inserted, skipped, S failed)
       end,
       EvAdd row :: evs)
  end.

Definition unmappable_detail (df : DataFrame) : ustr :=
  let available_columns := List.map _normalize_column_name (columns df) in
  u "Excel columns could not be mapped to required fields. "
  ++ u "Required fields: " ++ repr_str_list REQUIRED_FIELDS ++ u ". "
  ++ u "Detected columns: " ++ repr_str_list available_columns.

(** [upload_excel] for the bytes of the uploaded file and the batch tag
    drawn for this upload: the response, the session it leaves and the
    calls it made on the session. *)
Definition upload_excel (file_bytes : list Byte.byte) (batch_tag : ustr) (db : DB)
    : response * DB * list db_event :=
  match file_bytes with
  | [] => (HTTPException 400 (u "Uploaded file is empty"), db_rollback db, [EvRollback])
  | _ =>
      match _load_excel_with_best_header file_bytes with
      | inr e => (HTTPException 500 e, db_rollback db, [EvRollback])
      | inl df =>
          let mapped :=
            match _extract_direct_rows df with
            | Some direct_rows => Some (direct_rows, direct_header)
            | None =>
                match _extract_rows_by_content df with
                | Some mapped_rows => Some (mapped_rows, content_heuristic)
                | None => None
                end
            end in
          match mapped with
          | None => (HTTPException 400 (unmappable_detail df), db_rollback db, [EvRollback])
          | Some (mapped_rows, source) =>
              let clean_data := validate_and_clean mapped_rows in
              let '(clean_data, db, (inserted, skipped, failed), evs) :=
                persist_rows batch_tag db 1 clean_data in
              let db := db_commit db in
              (Success
                 {| ok_mapping_source := source;
                    rows_inserted := inserted;
                    duplicates_skipped := skipped;
                    failed_rows := failed;
                    total_processed := length clean_data;
                    preview := List.firstn 3 clean_data;
                    data := db_query db |},
               db, evs ++ [EvCommit; EvQuery])
          end
      end
  end.

End Main.

(** ** [app/llm_service.py]: the payload parser *)

Module Json.

(** The values [json.loads] builds. *)
Inductive json : Type :=
  | JNull
  | JBool (b : bool)
  | JInt (z : Z)
  | JFloat (f : spec_float)
  | JStr (s : ustr)
  | JList (l : list json)
  | JDict (d : list (ustr * json)).

(** The exceptions of the interpreter that [json.loads] lets through, and
    that the parser does not catch: [RecursionError], when arrays and
    objects are nested deeper than the call stack allows, and the plain
    [ValueError] of an integer with more digits than [int] reads. *)
Inductive exception : Type :=
  | RecursionError
  | ValueError.

(** The outcome of a scanner: a value and the text after it, a decoding
    error with its message, an exception of the interpreter, or the
    exhaustion of the recursion budget of the embedding. *)
Inductive scan (A : Type) : Type :=
  | Scanned (a : A) (rest : ustr)
  | DecodeError (msg : ustr)
  | Raised (e : exception)
  | OutOfFuel.
Arguments Scanned {A} a rest.
Arguments DecodeError {A} msg.
Arguments Raised {A} e.
Arguments OutOfFuel {A}.

Definition is_json_ws (c : N) : bool :=
  (c =? 32)%N || (c =? 9)%N || (c =? 10)%N || (c =? 13)%N.

Definition skip_ws (s : ustr) : ustr := drop_while is_json_ws s.

Definition hex_value (c : N) : option N :=
  if is_ascii_digit c then Some (c - 48)%N
  else if in_range 97 102 c then Some (c - 87)%N
  else if in_range 65 70 c then Some (c - 55)%N
  else None.

Definition hex4 (a b c d : N) : option N :=
  match hex_value a, hex_value b, hex_value c, hex_value d with
  | Some a, Some b, Some c, Some d => Some (((a * 16 + b) * 16 + c) * 16 + d)%N
  | _, _, _, _ => None
  end.

(** The character a backslash escape other than [\u] stands for. *)
Definition escape_char (c : N) : option N :=
  match c with
  | 34%N => Some 34%N
  | 92%N => Some 92%N
  | 47%N => Some 47%N
  | 98%N => Some 8%N
  | 102%N => Some 12%N
  | 110%N => Some 10%N
  | 114%N => Some 13%N
  | 116%N => Some 9%N
  | _ => None
  end.

Definition bad_unicode_escape : ustr := u "Invalid \uXXXX escape".

(** [scanstring], after the opening quote; [acc] holds the decoded
    characters so far, last first. *)
Fixpoint scanstring (s : ustr) (acc : ustr) : scan ustr :=
  match s with
  | [] => DecodeError (u "Unterminated string starting at")
  | c :: r =>
      if (c =? 34)%N then Scanned (List.rev acc) r
      else if (c =? 92)%N then
        match r with
        | [] => DecodeError (u "Unterminated string starting at")
        | e :: r1 =>
            if (e =? 117)%N then
              match r1 with
              | h1 :: h2 :: h3 :: h4 :: ((_ :: _) as r2) =>
                  match hex4 h1 h2 h3 h4 with
                  | None => DecodeError bad_unicode_escape
                  | Some cp =>
                      match r2 with
                      | b :: x :: g1 :: g2 :: g3 :: g4 :: ((_ :: _) as r3) =>
                          if (b =? 92)%N && (x =? 117)%N && in_range 55296 56319 cp
                          then
                            match hex4 g1 g2 g3 g4 with
                            | None => DecodeError bad_unicode_escape
                            | Some c2 =>
                                if in_range 56320 57343 c2
                                then scanstring r3
                                       ((65536 + (cp - 55296) * 1024 + (c2 - 56320))%N :: acc)
                                else scanstring r2 (cp :: acc)
                            end
                          else scanstring r2 (cp :: acc)
                      | _ => scanstring r2 (cp :: acc)
                      end
                  end
              | _ => DecodeError bad_unicode_escape
              end
            else
              match escape_char e with
              | Some ch => scanstring r1 (ch :: acc)
              | None => DecodeError (u "Invalid \escape")
              end
        end
      else if (c <? 32)%N then DecodeError (u "Invalid control character at")
      else scanstring r (c :: acc)
  end.

(** The rest of [s] after the character [c], when [s] starts with it. *)
Definition expect (c : N) (s : ustr) : option ustr :=
  match s with
  | x :: r => if (x =? c)%N then Some r else None
  | [] => None
  end.

(** The text matched at the start of [s] by [(\.[0-9]+)?]. *)
Definition match_frac (s : ustr) : ustr :=
  match s with
  | 46%N :: (d :: _) as r => if is_ascii_digit d then 46%N :: take_while is_ascii_digit r else []
  | _ => []
  end.

(** The text matched at the start of [s] by [([eE][-+]?[0-9]+)?]. *)
Definition match_exp (s : ustr) : ustr :=
  match s with
  | e :: r =>
      if (e =? 101)%N || (e =? 69)%N
      then
        match r with
        | sg :: (d :: _) as r1 =>
            if ((sg =? 45)%N || (sg =? 43)%N) && is_ascii_digit d
            then e :: sg :: take_while is_ascii_digit r1
            else if is_ascii_digit sg then e :: take_while is_ascii_digit r
            else []
        | [d] => if is_ascii_digit d then [e; d] else []
        | [] => []
        end
      else []
  | [] => []
  end.

(** The text matched at the start of [s] by the integer part of a number:
    an optional minus sign, then [0] or a digit from 1 to 9 and any digits. *)
Definition match_integer (s : ustr) : option ustr :=
  let '(sign, r) :=
    match expect 45 s with
    | Some r => ([45%N], r)
    | None => ([], s)
    end in
  match r with
  | c :: _ =>
      if (c =? 48)%N then Some (sign ++ [48%N])
      else if in_range 49 57 c then Some (sign ++ take_while is_ascii_digit r)
      else None
  | [] => None
  end.

(** A number at the start of [s]: an [int] unless it has a fraction or an
    exponent; [None] when no number starts here.  The digits of an [int]
    are read by [int], within its limit. *)
Definition scan_number (max_str_digits : nat) (s : ustr) : option (scan json) :=
  match match_integer s with
  | None => None
  | Some integer =>
      let r1 := List.skipn (length integer) s in
      let frac := match_frac r1 in
      let r2 := List.skipn (length frac) r1 in
      let exp := match_exp r2 in
      let r3 := List.skipn (length exp) r2 in
      match frac, exp with
      | [], [] =>
          let '(neg, ds) :=
            match expect 45 integer with
            | Some ds => (true, ds)
            | None => (false, integer)
            end in
          let n := Z.of_N (digits_value ds) in
          if int_digits_ok max_str_digits (length ds)
          then Some (Scanned (JInt (if neg then (- n)%Z else n)) r3)
          else Some (Raised ValueError)
      | _, _ =>
          match Float.of_str (integer ++ frac ++ exp) with
          | Some f => Some (Scanned (JFloat f) r3)
          | None => None
          end
      end
  end.

(** [dict(pairs)]: a later pair of the same key replaces the value. *)
Fixpoint dict_set (d : list (ustr * json)) (k : ustr) (v : json) : list (ustr * json) :=
  match d with
  | [] => [(k, v)]
  | (k', v') :: d' => if ustr_eqb k' k then (k, v) :: d' else (k', v') :: dict_set d' k v
  end.

Definition expecting_value : ustr := u "Expecting value".

(** The constants [null], [true] and [false]. *)
Definition scan_literal (s : ustr) : option (json * ustr) :=
  match strip_prefix (u "null") s, strip_prefix (u "true") s,
        strip_prefix (u "false") s with
  | Some rest, _, _ => Some (JNull, rest)
  | _, Some rest, _ => Some (JBool true, rest)
  | _, _, Some rest => Some (JBool false, rest)
  | None, None, None => None
  end.

(** The constants [NaN], [Infinity] and [-Infinity]. *)
Definition scan_constant (s : ustr) : option (json * ustr) :=
  match strip_prefix (u "NaN") s, strip_prefix (u "Infinity") s,
        strip_prefix (u "-Infinity") s with
  | Some rest, _, _ => Some (JFloat S754_nan, rest)
  | _, Some rest, _ => Some (JFloat (S754_infinity false), rest)
  | _, _, Some rest => Some (JFloat (S754_infinity true), rest)
  | None, None, None => None
  end.

(** A value that is neither a string, an object nor an array. *)
Definition scan_atom (max_str_digits : nat) (s : ustr) : scan json :=
  match scan_literal s with
  | Some (v, rest) => Scanned v rest
  | None =>
      match scan_number max_str_digits s with
      | Some res => res
      | None =>
          match scan_constant s with
          | Some (v, rest) => Scanned v rest
          | None => DecodeError expecting_value
          end
      end
  end.

(** The scanner and the two loops of objects and arrays, which re-enter it.
    [depth] is the number of nested arrays and objects the scanner can
    still enter: it raises [RecursionError] on the bracket that opens one
    more. *)
Fixpoint scan_once (fuel : nat) (max_str_digits depth : nat) (s : ustr) : scan json :=
  match fuel with
  | O => OutOfFuel
  | S fuel' =>
      match s with
      | [] => DecodeError expecting_value
      | c :: r =>
          if (c =? 34)%N then
            match scanstring r [] with
            | Scanned str rest => Scanned (JStr str) rest
            | DecodeError msg => DecodeError msg
            | Raised e => Raised e
            | OutOfFuel => OutOfFuel
            end
          else if (c =? 123)%N then
            match depth with
            | O => Raised RecursionError
            | S depth' =>
                match expect 125 (skip_ws r) with
                | Some rest => Scanned (JDict []) rest
                | None => parse_members fuel' max_str_digits depth' (skip_ws r) []
                end
            end
          else if (c =? 91)%N then
            match depth with
            | O => Raised RecursionError
            | S depth' =>
                match expect 93 (skip_ws r) with
                | Some rest => Scanned (JList []) rest
                | None => parse_items fuel' max_str_digits depth' (skip_ws r) []
                end
            end
          else scan_atom max_str_digits s
      end
  end
with parse_members (fuel : nat) (max_str_digits depth : nat) (s : ustr)
    (pairs : list (ustr * json)) : scan json :=
  match fuel with
  | O => OutOfFuel
  | S fuel' =>
      match expect 34 s with
      | None => DecodeError (u "Expecting property name enclosed in double quotes")
      | Some r =>
          match scanstring r [] with
          | Scanned key r1 =>
              match expect 58 (skip_ws r1) with
              | None => DecodeError (u "Expecting ':' delimiter")
              | Some r2 =>
                  match scan_once fuel' max_str_digits depth (skip_ws r2) with
                  | Scanned value r3 =>
                      match expect 125 (skip_ws r3) with
                      | Some rest => Scanned (JDict (dict_set pairs key value)) rest
                      | None =>
                          match expect 44 (skip_ws r3) with
                          | Some r4 =>
                              parse_members fuel' max_str_digits depth (skip_ws r4)
                                (dict_set pairs key value)
                          | None => DecodeError (u "Expecting ',' delimiter")
                          end
                      end
                  | DecodeError msg => DecodeError msg
                  | Raised e => Raised e
                  | OutOfFuel => OutOfFuel
                  end
              end
          | DecodeError msg => DecodeError msg
          | Raised e => Raised e
          | OutOfFuel => OutOfFuel
          end
      end
  end
with parse_items (fuel : nat) (max_str_digits depth : nat) (s : ustr)
    (values : list json) : scan json :=
  match fuel with
  | O => OutOfFuel
  | S fuel' =>
      match scan_once fuel' max_str_digits depth s with
      | Scanned value r1 =>
          match expect 93 (skip_ws r1) with
          | Some rest => Scanned (JList (values ++ [value])) rest
          | None =>
              match expect 44 (skip_ws r1) with
              | Some r2 => parse_items fuel' max_str_digits depth (skip_ws r2) (values ++ [value])
              | None => DecodeError (u "Expecting ',' delimiter")
              end
          end
      | DecodeError msg => DecodeError msg
      | Raised e => Raised e
      | OutOfFuel => OutOfFuel
      end
  end.

(** The outcome of [json.loads]. *)
Inductive loads_result : Type :=
  | Loaded (v : json)
  | JSONDecodeError (msg : ustr)
  | LoadsRaised (e : exception)
  | LoadsOutOfFuel.

Definition loads_fuel (fuel : nat) (max_str_digits max_nesting : nat) (s : ustr)
    : loads_result :=
  if startswith [65279%N] s
  then JSONDecodeError (u "Unexpected UTF-8 BOM (decode using utf-8-sig)")
  else
    match scan_once fuel max_str_digits max_nesting (skip_ws s) with
    | Scanned obj rest =>
        match skip_ws rest with
        | [] => Loaded obj
        | _ => JSONDecodeError (u "Extra data")
        end
    | DecodeError msg => JSONDecodeError msg
    | Raised e => LoadsRaised e
    | OutOfFuel => LoadsOutOfFuel
    end.

(** [json.loads(s)], for an interpreter that reads integers of at most
    [max_str_digits] digits (0 for any number) and whose stack lets the
    decoder enter [max_nesting] nested arrays and objects. *)
Definition loads (max_str_digits max_nesting : nat) (s : ustr) : loads_result :=
  loads_fuel (2 * length s + 2) max_str_digits max_nesting s.

End Json.
Export Json.

Definition _strip_code_fences (text : ustr) : ustr :=
  let text := strip text in
  let text :=
    if startswith (u "```") text
    then
      let text := strip_with (N.eqb 96) text in
      if startswith (u "json") (lower text) then List.skipn 4 text else text
    else text in
  strip text.

(** The outcome of [_parse_mapped_payload]: the rows, the [HTTPException]
    it raises, or an exception of [json.loads] that it does not catch. *)
Inductive payload_result : Type :=
  | Rows (rows : list json)
  | Raise (status_code : nat) (detail : ustr)
  | Uncaught (e : exception)
  | PayloadOutOfFuel.

Definition is_dict (v : json) : bool :=
  match v with JDict _ => true | _ => false end.

(** The parser at the level [level] of its own recursion, that is, after
    [level] strings have been decoded.  [max_nesting k] is the nesting the
    decoder can enter when it is called at level [k]: it depends on the
    interpreter and on the stack of calls, which is one call deeper at each
    level. *)
Fixpoint parse_mapped_payload_fuel (fuel : nat) (max_str_digits : nat)
    (max_nesting : nat -> nat) (level : nat) (mapped : json) : payload_result :=
  match mapped with
  | JDict _ => Rows [mapped]
  | JList items =>
      if List.forallb is_dict items
      then Rows items
      else Raise 502 (u "LLM returned a list with non-object items")
  | JStr s =>
      match fuel with
      | O => PayloadOutOfFuel
      | S fuel' =>
          let raw := _strip_code_fences s in
          match loads max_str_digits (max_nesting level) raw with
          | Loaded parsed =>
              parse_mapped_payload_fuel fuel' max_str_digits max_nesting (S level) parsed
          | JSONDecodeError msg => Raise 502 (u "LLM returned invalid JSON string: " ++ msg)
          | LoadsRaised e => Uncaught e
          | LoadsOutOfFuel => PayloadOutOfFuel
          end
      end
  | _ => Raise 502 (u "Unsupported LLM response format")
  end.

(** The text a payload still holds to decode. *)
Definition payload_size (mapped : json) : nat :=
  match mapped with JStr s => length s | _ => 0%nat end.

Definition _parse_mapped_payload (max_str_digits : nat) (max_nesting : nat -> nat)
    (mapped : json) : payload_result :=
  parse_mapped_payload_fuel (S (payload_size mapped)) max_str_digits max_nesting 0 mapped.

(** ** Notions used to state the properties *)

(** An iteration order is admissible when it visits each alias set as
    declared, in any order. *)
Definition valid_alias_order (alias_order : ustr -> list ustr) : Prop :=
  forall field, alias_order field ≡ₚ aliases_of field.

(** The pairs (normalized alias, field) in the order the index is built. *)
Definition alias_pairs (alias_order : ustr -> list ustr) : list (ustr * ustr) :=
  List.flat_map
    (fun fa => List.map (fun alias => (_normalize_column_name (VStr alias), fst fa))
                        (alias_order (fst fa)))
    FIELD_ALIASES.

(** One step of building a [dict] from pairs. *)
Definition insert_pair {V : Type} (acc : gmap ustr V) (kv : ustr * V) : gmap ustr V :=
  <[kv.1 := kv.2]> acc.

(** A field has a matching column when some column label and some declared
    alias of the field have the same normalized form. *)
Definition has_matching_column (df : DataFrame) (field : ustr) : Prop :=
  exists col alias,
    col ∈ columns df /\ alias ∈ aliases_of field
    /\ _normalize_column_name col = _normalize_column_name (VStr alias).

(** A sheet whose headers use one alias per field. *)
Definition aliased_sheet : DataFrame :=
  {| columns :=
       [ VStr (u "Loaner ID"); VStr (u "Full Name"); VStr (u "Phone");
         VStr (u "Aadhaar"); VStr (u "Loan Amount"); VStr (u "Land-Area");
         VStr (u "Purpose") ];
     rows := [] |}.

(** The index of the first element of a list that passes a test. *)
Fixpoint first_index (P : nat -> bool) (l : list nat) : option nat :=
  match l with
  | [] => None
  | x :: l' => if P x then Some 0%nat else S <$> first_index P l'
  end.

(** The locator in the words of the specification, on the scores of the
    rows scanned: the first row that matches all the fields if there is
    one; otherwise the first row with the highest score, provided that
    score is at least 4. *)
Definition locate_spec (scores : list nat) : option nat :=
  match first_index (Nat.eqb (length REQUIRED_FIELDS)) scores with
  | Some i => Some i
  | None =>
      let best := max_list scores in
      if (4 <=? best)%nat then first_index (Nat.eqb best) scores else None
  end.

(** A cell the locator looks at: not [None], and not blank as text. *)
Definition header_cell (cell : pyval) : Prop :=
  cell ≠ VNone /\ strip (py_str cell) ≠ [].

(** The example of the specification: 15 rows, the eighth (index 7) holding
    a header for each field, the others none. *)
Definition title_row : list pyval :=
  [VStr (u "Quarterly report"); VNone; VFloat S754_nan; VInt 2024].

Definition header_row : list pyval :=
  [ VStr (u "Loaner ID"); VStr (u "Full Name"); VStr (u "Phone");
    VStr (u "Aadhaar"); VStr (u "Loan Amount"); VStr (u "Land-Area");
    VStr (u "Purpose") ].

Definition example_probe : list (list pyval) :=
  List.repeat title_row 7 ++ header_row :: List.repeat title_row 7.

Definition example_row : list pyval :=
  [ VStr (u "LN-102"); VStr (u "Jane Q Public"); VStr (u "9876543210");
    VStr (u "123456789012"); VStr (u "50000"); VStr (u "2 acres");
    VStr (u "tractor purchase") ].

Definition example_mapping : pydict :=
  {[ u "loaner_id" := VStr (u "LN-102");
     u "fullname" := VStr (u "Jane Q Public");
     u "mobile_no" := VStr (u "9876543210");
     u "loaner_adhar" := VStr (u "123456789012");
     u "total_amount" := VFloat (Float.of_Z 50000);
     u "total_land" := VStr (u "2 acres");
     u "descrition" := VStr (u "tractor purchase") ]}.

(** The copy of the 7 fields a cleaned row starts from. *)
Definition copy_fields (row : pydict) : pydict :=
  List.fold_left (fun acc field => <[field := dict_get row field]> acc) REQUIRED_FIELDS ∅.

(** What the validator does with the amount, a mobile number and an
    identity number. *)
Definition clean_amount (v : pyval) : pyval :=
  if is_none v then VNone
  else match py_float v with Some f => VFloat f | None => VNone end.

Definition clean_mobile (v : pyval) : pyval :=
  if py_truthy v && negb (match_mobile (py_str v)) then VNone else v.

Definition clean_adhar (v : pyval) : pyval :=
  if py_truthy v && negb (match_adhar (py_str v)) then VNone else v.

(** The claim as the specification words it, for the mobile number alone:
    the value is kept when its text matches the pattern and nulled
    otherwise. *)
Definition nulls_unless_mobile (row : pydict) : Prop :=
  dict_get (clean_row row) (u "mobile_no") =
    if match_mobile (py_str (dict_get row (u "mobile_no")))
    then dict_get row (u "mobile_no")
    else VNone.

(** A row whose mobile number is the empty text, and one where it is the
    number 0. *)
Definition row_blank_mobile : pydict := {[ u "mobile_no" := VStr [] ]}.
Definition row_zero_mobile : pydict := {[ u "mobile_no" := VInt 0 ]}.

(** The claim as the specification words it, for a text made of digits
    followed by [.0]: the result is the integer the text writes. *)
Definition integer_form_claim (digits : ustr) : Prop :=
  _ensure_loaner_id (VStr (digits ++ u ".0")) 1 (u "X") = str_of_N (digits_value digits).

(** The text the key is computed from. *)
Definition id_text (loaner_id : pyval) : ustr :=
  match loaner_id with VNone => [] | _ => strip (py_str loaner_id) end.

(** A text made of letters (possibly none) followed by digits (at least
    one). *)
Definition prefixed_number (text pre digits : ustr) : Prop :=
  text = pre ++ digits
  /\ List.forallb is_ascii_alpha pre = true
  /\ digits ≠ []
  /\ List.forallb is_ascii_digit digits = true.

(** An identifier made of 4301 digits. *)
Definition long_digit_id : ustr := List.repeat 49%N 4301.

(** A sheet without a usable header whose rows hold blanks only. *)
Definition blank_sheet : DataFrame :=
  {| columns := [VStr (u "Unnamed: 0"); VStr (u "Notes")];
     rows := [[VNone; VFloat S754_nan]; [VStr (u "  "); VNone]] |}.

(** What the classifier can store as a mobile number: [None], or 10
    decimal digits in the sense of [\d], the first one of 6, 7, 8, 9. *)
Definition stored_mobile (v : pyval) : Prop :=
  v = VNone
  \/ exists c ds, v = VStr (c :: ds) /\ length (c :: ds) = 10%nat
       /\ List.forallb is_decimal (c :: ds) = true /\ in_range 54 57 c = true.

(** What it can store as an identity number: [None], or 12 decimal digits
    in the sense of [\d]. *)
Definition stored_adhar (v : pyval) : Prop :=
  v = VNone
  \/ exists ds, v = VStr ds /\ length ds = 12%nat /\ List.forallb is_decimal ds = true.

(** A value that is [None] or a text of digits 0 to 9 only. *)
Definition ascii_digit_text (v : pyval) : Prop :=
  v = VNone \/ exists ds, v = VStr ds /\ List.forallb is_ascii_digit ds = true.

Definition str_or_none (v : pyval) : Prop := v = VNone \/ exists s, v = VStr s.

(** The invariant of the row being inferred. *)
Definition row_inv (d : pydict) : Prop :=
  dom d = list_to_set REQUIRED_FIELDS
  /\ stored_mobile (dict_get d (u "mobile_no"))
  /\ stored_adhar (dict_get d (u "loaner_adhar"))
  /\ str_or_none (dict_get d (u "loaner_id")).

(** The claim in its own words, for one row: the validator changes neither
    the mobile number nor the identity number. *)
Definition validator_keeps (r : pydict) : Prop :=
  dict_get (clean_row r) (u "mobile_no") = dict_get r (u "mobile_no")
  /\ dict_get (clean_row r) (u "loaner_adhar") = dict_get r (u "loaner_adhar").

(** Twelve Devanagari digits, and a sheet whose only cell holds them. *)
Definition devanagari_number : ustr :=
  [2407; 2408; 2409; 2410; 2411; 2412; 2413; 2414; 2415; 2406; 2407; 2408]%N.

Definition devanagari_sheet : DataFrame :=
  {| columns := [VInt 0]; rows := [[VStr devanagari_number]] |}.

Definition devanagari_row : pydict :=
  {[ u "loaner_id" := VStr (u "TEMP1");
     u "fullname" := VNone;
     u "mobile_no" := VNone;
     u "loaner_adhar" := VStr devanagari_number;
     u "total_amount" := VNone;
     u "total_land" := VNone;
     u "descrition" := VNone ]}.

(** What a scanner owes: it does not exhaust the budget, and the text it
    leaves is shorter than [bound]. *)
Definition scan_within {A : Type} (bound : nat) (res : scan A) : Prop :=
  match res with
  | Scanned _ rest => (length rest < bound)%nat
  | DecodeError _ => True
  | Raised _ => True
  | OutOfFuel => False
  end.

(** For a string: moreover the decoded text is no longer than what was
    read, quotes excluded. *)
Definition string_within (bound : nat) (res : scan ustr) : Prop :=
  match res with
  | Scanned str rest => (length str + length rest < bound)%nat
  | DecodeError _ => True
  | Raised _ => False
  | OutOfFuel => False
  end.

Definition is_str (v : json) : bool := match v with JStr _ => true | _ => false end.

(** A scanned value that is no string, with a shorter text left. *)
Definition atom_within (bound : nat) (res : option (json * ustr)) : Prop :=
  match res with
  | Some (v, rest) => is_str v = false /\ (length rest < bound)%nat
  | None => True
  end.

(** The same for a scanner that can raise. *)
Definition value_within (bound : nat) (res : scan json) : Prop :=
  match res with
  | Scanned v rest => is_str v = false /\ (length rest < bound)%nat
  | DecodeError _ => True
  | Raised _ => True
  | OutOfFuel => False
  end.

(** The payloads the parser accepts at a level of its recursion, with the
    rows it returns: an object; an array of objects; a string that, once
    its code fence is stripped, decodes into a payload that is accepted in
    turn, one level further. *)
Inductive accepts (max_str_digits : nat) (max_nesting : nat -> nat)
    : nat -> json -> list json -> Prop :=
  | accepts_dict (level : nat) (d : list (ustr * json)) :
      accepts max_str_digits max_nesting level (JDict d) [JDict d]
  | accepts_list (level : nat) (items : list json) :
      List.forallb is_dict items = true ->
      accepts max_str_digits max_nesting level (JList items) items
  | accepts_str (level : nat) (s : ustr) (parsed : json) (rows : list json) :
      loads max_str_digits (max_nesting level) (_strip_code_fences s) = Loaded parsed ->
      accepts max_str_digits max_nesting (S level) parsed rows ->
      accepts max_str_digits max_nesting level (JStr s) rows.

(** The payloads on which an exception of the decoder passes through the
    parser: a string whose text, once its code fence is stripped, makes
    [json.loads] raise it, or decodes into such a payload. *)
Inductive lets_through (max_str_digits : nat) (max_nesting : nat -> nat)
    : nat -> json -> exception -> Prop :=
  | through_loads (level : nat) (s : ustr) (e : exception) :
      loads max_str_digits (max_nesting level) (_strip_code_fences s) = LoadsRaised e ->
      lets_through max_str_digits max_nesting level (JStr s) e
  | through_parsed (level : nat) (s : ustr) (parsed : json) (e : exception) :
      loads max_str_digits (max_nesting level) (_strip_code_fences s) = Loaded parsed ->
      lets_through max_str_digits max_nesting (S level) parsed e ->
      lets_through max_str_digits max_nesting level (JStr s) e.

(** The two forms the specification names. *)
Definition object_or_objects (v : json) : bool :=
  match v with
  | JDict _ => true
  | JList items => List.forallb is_dict items
  | _ => false
  end.

(** The payloads the specification says are accepted: one of the two
    forms, or a string that decodes into one of them. *)
Definition claimed_accepted (max_str_digits max_nesting : nat) (mapped : json) : bool :=
  object_or_objects mapped
  || match mapped with
     | JStr s =>
         match loads max_str_digits max_nesting (_strip_code_fences s) with
         | Loaded parsed => object_or_objects parsed
         | _ => false
         end
     | _ => false
     end.

(** The number of brackets that open an array or an object in a text. *)
Definition opening_brackets (s : ustr) : nat :=
  length (List.filter (fun c => (c =? 91)%N || (c =? 123)%N) s).

(** The number of digits 0 to 9 in a text. *)
Definition digit_count (s : ustr) : nat := length (List.filter is_ascii_digit s).

(** What a text must hold for the decoder to raise on it: more opening
    brackets than the decoder can nest, for [RecursionError]; more digits
    than [int] reads, for [ValueError]. *)
Definition raise_condition (max_str_digits depth : nat) (s : ustr) (e : exception) : Prop :=
  match e with
  | RecursionError => (depth < opening_brackets s)%nat
  | ValueError =>
      (0 < max_str_digits)%nat /\ (640 < digit_count s)%nat
      /\ (max_str_digits < digit_count s)%nat
  end.

(** What a scanner owes for that: the text it leaves is an end of the
    text it was given, and it raises only under the condition above. *)
Definition scan_sound {A : Type} (max_str_digits depth : nat) (s : ustr) (res : scan A)
    : Prop :=
  match res with
  | Scanned _ rest => rest `suffix_of` s
  | Raised e => raise_condition max_str_digits depth s e
  | _ => True
  end.

(** The limits of an interpreter as it is installed: integers of at most
    4300 digits, and room for 900 nested arrays or objects at each
    level. *)
Definition default_max_str_digits : nat := 4300.
Definition example_max_nesting (level : nat) : nat := 900.

(** A text of 1000 nested empty arrays, and one that holds an integer of
    4301 digits. *)
Definition deep_text : ustr := List.repeat 91%N 1000 ++ List.repeat 93%N 1000.
Definition long_int_text : ustr := u "[" ++ List.repeat 57%N 4301 ++ u "]".

(** The JSON text of a string whose content is the JSON text of an
    object: a payload encoded twice. *)
Definition twice_encoded : ustr :=
  [34%N] ++ u "{" ++ [92%N; 34%N] ++ u "a" ++ [92%N; 34%N] ++ u ": 1}" ++ [34%N].

(** ** Notions used to state further properties of the code *)

(** The characters of a normalized name. *)
Definition is_name_char (c : N) : bool :=
  is_ascii_lower c || is_ascii_digit c || (c =? 95)%N.

(** No two underscores in a row. *)
Fixpoint single_underscores (s : ustr) : bool :=
  match s with
  | a :: s' =>
      match s' with
      | b :: _ => negb ((a =? 95)%N && (b =? 95)%N)
      | [] => true
      end
      && single_underscores s'
  | [] => true
  end.

(** A name in normal form: letters a to z, digits and underscores, no two
    underscores in a row and none at either end. *)
Definition normal_name (s : ustr) : Prop :=
  List.forallb is_name_char s = true
  /\ single_underscores s = true
  /\ startswith (u "_") s = false
  /\ endswith (u "_") s = false.

(** A fenced block: the body between two lines of three backticks, the
    first one followed by the name of a language. *)
Definition fenced (lang body : ustr) : ustr :=
  u "```" ++ lang ++ [10%N] ++ body ++ [10%N] ++ u "```".

(** The row of a sheet built for one record by the direct mapper: under
    each field, the cleaned cell of the column mapped to it. *)
Definition direct_row_of (cols : list pyval) (field_to_column : gmap ustr pyval)
    (row : list pyval) (r : pydict) : Prop :=
  forall field col, field_to_column !! field = Some col ->
    r !! field = Some (_clean_nan (record_get cols row col)).

(** A value [_clean_nan] leaves as it is. *)
Definition cleaned (v : pyval) : Prop := _clean_nan v = v.

(** The row the insertion loop hands to the session for the cleaned row
    [row] at index [i]: the row with its identifier reconciled. *)
Definition with_id (batch_tag : ustr) (i : Z) (row : pydict) : pydict :=
  <[u "loaner_id" := VStr (_ensure_loaner_id (dict_get row (u "loaner_id")) i batch_tag)]> row.

(** A row without a usable identifier: [None], or blank as text. *)
Definition missing_id (row : pydict) : Prop :=
  dict_get row (u "loaner_id") = VNone
  \/ strip (py_str (dict_get row (u "loaner_id"))) = [].

(** What the session is asked to store: the 7 fields; a trimmed text that
    is not empty as identifier; an amount that is [None] or a float; a
    mobile number and an identity number that, unless false as a
    condition, match their patterns. *)
Definition persisted_row (row : pydict) : Prop :=
  dom row = list_to_set REQUIRED_FIELDS
  /\ (exists s, row !! u "loaner_id" = Some (VStr s) /\ s ≠ [] /\ strip s = s)
  /\ (dict_get row (u "total_amount") = VNone
      \/ exists f, dict_get row (u "total_amount") = VFloat f)
  /\ (py_truthy (dict_get row (u "mobile_no")) = true ->
      match_mobile (py_str (dict_get row (u "mobile_no"))) = true)
  /\ (py_truthy (dict_get row (u "loaner_adhar")) = true ->
      match_adhar (py_str (dict_get row (u "loaner_adhar"))) = true).

(** A sheet with a header for each field, whose only row is entirely
    empty. *)
Definition header_only_sheet : DataFrame :=
  {| columns := columns aliased_sheet;
     rows := [[VNone; VFloat S754_nan; VNone; VNone; VNone; VNone; VNone]] |}.

(** An amount the classifier can store: [None], or a float that is at
    least 1000. *)
Definition inferred_amount (v : pyval) : Prop :=
  v = VNone \/ exists n, v = VFloat n /\ Float.geb_Z n 1000 = true.

(** A name the classifier can store: [None], or a text of at most 4 words
    that differs from the description and is not longer than it. *)
Definition inferred_name (d : pydict) : Prop :=
  dict_get d (u "fullname") = VNone
  \/ exists name text,
       dict_get d (u "fullname") = VStr name
       /\ dict_get d (u "descrition") = VStr text
       /\ name ≠ text
       /\ (length name <= length text)%nat
       /\ (length (split_ws name) <= 4)%nat.

(** The types of the values the classifier infers for the land, the
    description, the amount and the name. *)
Definition typed_row (d : pydict) : Prop :=
  str_or_none (dict_get d (u "total_land"))
  /\ str_or_none (dict_get d (u "descrition"))
  /\ inferred_amount (dict_get d (u "total_amount"))
  /\ inferred_name d.

(** The row being inferred, while the values are classified: nothing is
    stored yet as name, description or amount. *)
Definition untouched_row (d : pydict) : Prop :=
  dict_get d (u "fullname") = VNone
  /\ dict_get d (u "descrition") = VNone
  /\ dict_get d (u "total_amount") = VNone
  /\ str_or_none (dict_get d (u "total_land")).

(** A text that ends here or with one last line feed, as [$] allows. *)
Definition up_to_newline (s body : ustr) : Prop := s = body \/ s = body ++ [10%N].

(** A row that looks empty without being missing: every cell is [None],
    NaN or a blank text. *)
Definition blank_row (row : list pyval) : Prop :=
  Forall (fun v => _clean_nan v = VNone) row.

(** A sheet with a header for each field, whose only row holds a blank
    text. *)
Definition blank_text_sheet : DataFrame :=
  {| columns := columns aliased_sheet;
     rows := [[VStr (u "  "); VNone; VNone; VNone; VNone; VNone; VNone]] |}.

(** A sheet with a header for each field and the example row under them. *)
Definition example_sheet : DataFrame :=
  {| columns := columns aliased_sheet; rows := [example_row] |}.

(** The rows the direct mapper reads from it. *)
Definition example_direct_rows : list pydict :=
  default [] (_extract_direct_rows aliases_of example_sheet).

(** A sheet in which two columns have the same normalized label. *)
Definition duplicate_sheet : DataFrame :=
  {| columns :=
       [ VStr (u "Loaner ID"); VStr (u "Full Name"); VStr (u "phone "); VStr (u "Phone");
         VStr (u "Aadhaar"); VStr (u "Loan Amount"); VStr (u "Land-Area");
         VStr (u "Purpose") ];
     rows := [] |}.

(** The mapping of its headers. *)
Definition duplicate_sheet_mapping : gmap ustr pyval :=
  default ∅ (_resolve_field_mapping aliases_of duplicate_sheet).

(** The mapping of the headers of the sheet with a blank text. *)
Definition blank_text_mapping : gmap ustr pyval :=
  default ∅ (_resolve_field_mapping aliases_of blank_text_sheet).

(** A storage session kept as the list of the rows added, which accepts
    every row. *)
Definition list_add (db : list pydict) (row : pydict) : list pydict * add_outcome :=
  (db ++ [row], Inserted).

(** The first bytes of a file that is not empty. *)
Definition example_bytes : list Byte.byte := [Byte.x50; Byte.x4b].

(** The report of the upload of a sheet without headers that holds the
    example row. *)
Definition example_report : upload_ok :=
  {| ok_mapping_source := content_heuristic;
     rows_inserted := 1;
     duplicates_skipped := 0;
     failed_rows := 0;
     total_processed := 1;
     preview := [example_mapping];
     data := [example_mapping] |}.

(** Two rows without identifier, and what the loop adds for them. *)
Definition rows_without_id : list pydict := [∅; ∅].

Definition rows_with_auto_id : list pydict :=
  [ {[ u "loaner_id" := VStr (u "AUTOX0001") ]};
    {[ u "loaner_id" := VStr (u "AUTOX0002") ]} ].

(** * Part II: properties *)

(** A decidable closed proposition, settled by evaluation. *)
Ltac by_compute := apply (bool_decide_unpack _); vm_compute; exact I.

(** ** Generic lemmas on folds and maps *)

Lemma fold_insert_notin {V : Type} (kvs : list (ustr * V)) (m : gmap ustr V) (k : ustr) :
  k ∉ kvs.*1 -> List.fold_left insert_pair kvs m !! k = m !! k.
Proof.
  revert m. induction kvs as [|[k' v'] kvs IH]; intros m Hk; simpl; [done|].
  rewrite fmap_cons in Hk. apply not_elem_of_cons in Hk as [Hne Hk].
  rewrite IH by done. unfold insert_pair. simpl.
  by rewrite lookup_insert_ne.
Qed.

Lemma fold_insert_lookup {V : Type} (kvs : list (ustr * V)) (m : gmap ustr V) (k : ustr) (v : V) :
  NoDup kvs.*1 -> (k, v) ∈ kvs -> List.fold_left insert_pair kvs m !! k = Some v.
Proof.
  revert m. induction kvs as [|[k' v'] kvs IH]; intros m Hnd Hin; simpl.
  - by apply elem_of_nil in Hin.
  - rewrite fmap_cons in Hnd. apply NoDup_cons in Hnd as [Hk' Hnd].
    apply elem_of_cons in Hin as [Heq | Hin].
    + inversion Heq; subst k' v'.
      rewrite fold_insert_notin by done.
      unfold insert_pair. simpl. by rewrite lookup_insert_eq.
    + by apply IH.
Qed.

Lemma fold_insert_inv {V : Type} (kvs : list (ustr * V)) (m : gmap ustr V) (k : ustr) (v : V) :
  List.fold_left insert_pair kvs m !! k = Some v -> (k, v) ∈ kvs \/ m !! k = Some v.
Proof.
  revert m. induction kvs as [|[k' v'] kvs IH]; intros m H; simpl in *; [by right|].
  apply IH in H as [H | H]; [left; apply elem_of_cons; by right|].
  unfold insert_pair in H. simpl in H.
  destruct (decide (k' = k)) as [->|Hne].
  - rewrite lookup_insert_eq in H. inversion H; subst. left. apply elem_of_cons; by left.
  - rewrite lookup_insert_ne in H by done. by right.
Qed.

Lemma fold_left_flat_map {A B C : Type} (f : A -> C -> A) (g : B -> list C) (l : list B) (a : A) :
  List.fold_left f (List.flat_map g l) a
  = List.fold_left (fun acc x => List.fold_left f (g x) acc) l a.
Proof.
  revert a. induction l as [|x l IH]; intros a; simpl; [done|].
  by rewrite List.fold_left_app, IH.
Qed.

Lemma fold_left_ext {A B : Type} (f g : A -> B -> A) (l : list B) (a : A) :
  (forall acc x, f acc x = g acc x) -> List.fold_left f l a = List.fold_left g l a.
Proof.
  intros Hfg. revert a. induction l as [|x l IH]; intros a; simpl; [done|].
  by rewrite Hfg, IH.
Qed.

Lemma fold_left_map {A B C : Type} (f : A -> C -> A) (g : B -> C) (l : list B) (a : A) :
  List.fold_left f (List.map g l) a = List.fold_left (fun acc x => f acc (g x)) l a.
Proof. revert a. induction l as [|x l IH]; intros a; simpl; [done|]. by rewrite IH. Qed.

Lemma flat_map_Permutation {A B : Type} (g h : A -> list B) (l : list A) :
  (forall x, g x ≡ₚ h x) -> List.flat_map g l ≡ₚ List.flat_map h l.
Proof.
  intros Hgh. induction l as [|x l IH]; simpl; [done|].
  by rewrite (Hgh x), IH.
Qed.

(** ** Generic lemmas on texts *)

Lemma take_drop_while (p : N -> bool) (s : ustr) :
  take_while p s ++ drop_while p s = s.
Proof. induction s as [|c s IH]; simpl; [done|]. destruct (p c); simpl; by rewrite ?IH. Qed.

Lemma take_while_forallb (p : N -> bool) (s : ustr) :
  List.forallb p (take_while p s) = true.
Proof. induction s as [|c s IH]; simpl; [done|]. destruct (p c) eqn:E; simpl; by rewrite ?E. Qed.

Lemma drop_while_head (p : N -> bool) (s r : ustr) (c : N) :
  drop_while p s = c :: r -> p c = false.
Proof.
  induction s as [|x s IH]; simpl; [done|].
  destruct (p x) eqn:E; [done|]. intros H. by inversion H; subst.
Qed.

Lemma take_while_app (p : N -> bool) (a b : ustr) :
  List.forallb p a = true ->
  match b with [] => True | c :: _ => p c = false end ->
  take_while p (a ++ b) = a /\ drop_while p (a ++ b) = b.
Proof.
  intros Ha Hb. induction a as [|x a IH]; simpl in *.
  - destruct b as [|c b]; simpl in *; [done|]. by rewrite Hb.
  - apply andb_true_iff in Ha as [Hx Ha]. rewrite Hx.
    destruct (IH Ha) as [-> ->]. done.
Qed.

Lemma digit_not_alpha (c : N) : is_ascii_digit c = true -> is_ascii_alpha c = false.
Proof.
  unfold is_ascii_digit, is_ascii_alpha, is_ascii_upper, is_ascii_lower, in_range.
  intros H. apply andb_true_iff in H as [H1 H2].
  apply N.leb_le in H1, H2.
  apply orb_false_iff. split; apply andb_false_iff; left; apply N.leb_gt; lia.
Qed.

Lemma strip_with_last (p : N -> bool) (s l : ustr) (c : N) :
  strip_with p s = l ++ [c] -> p c = false.
Proof.
  unfold strip_with. intros H.
  apply (f_equal (@List.rev N)) in H.
  rewrite List.rev_involutive, List.rev_app_distr in H. simpl in H.
  by apply drop_while_head in H.
Qed.

Lemma ascii_digit_value (c : N) :
  is_ascii_digit c = true -> decimal_value c = Some (c - 48)%N.
Proof.
  unfold is_ascii_digit, in_range. intros H. apply andb_true_iff in H as [H1 H2].
  unfold decimal_value, UnicodeData.nd_zeros. cbn [List.find].
  unfold in_range at 1. change (48 + 9)%N with 57%N. by rewrite H1, H2.
Qed.

Lemma drop_while_fixed (p : N -> bool) (s : ustr) :
  match s with c :: _ => p c = false | [] => True end -> drop_while p s = s.
Proof. destruct s as [|c r]; simpl; [done|]. by intros ->. Qed.

Lemma strip_with_fixed (p : N -> bool) (s : ustr) :
  match s with c :: _ => p c = false | [] => True end ->
  match List.rev s with c :: _ => p c = false | [] => True end ->
  strip_with p s = s.
Proof.
  intros Hh Hl. unfold strip_with.
  rewrite (drop_while_fixed p s Hh), (drop_while_fixed p (List.rev s) Hl).
  apply List.rev_involutive.
Qed.

(** What is trimmed on the right of a text already trimmed on the left. *)
Lemma strip_with_prefix (p : N -> bool) (s : ustr) :
  drop_while p s
  = strip_with p s ++ List.rev (take_while p (List.rev (drop_while p s))).
Proof.
  unfold strip_with. rewrite <- List.rev_app_distr, take_drop_while.
  by rewrite List.rev_involutive.
Qed.

(** Trimming removes a run of the characters at each end. *)
Lemma strip_with_infix (p : N -> bool) (s : ustr) :
  exists a b, s = a ++ strip_with p s ++ b
    /\ List.forallb p a = true /\ List.forallb p b = true.
Proof.
  exists (take_while p s), (List.rev (take_while p (List.rev (drop_while p s)))).
  split; [by rewrite <- strip_with_prefix, take_drop_while|].
  split; [apply take_while_forallb|].
  apply List.forallb_forall. intros x Hx. apply List.in_rev in Hx.
  pose proof (take_while_forallb p (List.rev (drop_while p s))) as H.
  rewrite List.forallb_forall in H. by apply H.
Qed.

Lemma strip_with_first (p : N -> bool) (s r : ustr) (c : N) :
  strip_with p s = c :: r -> p c = false.
Proof.
  intros H. pose proof (strip_with_prefix p s) as E. rewrite H in E.
  by apply drop_while_head in E.
Qed.

Lemma strip_with_ends (p : N -> bool) (s : ustr) :
  match strip_with p s with c :: _ => p c = false | [] => True end
  /\ match List.rev (strip_with p s) with c :: _ => p c = false | [] => True end.
Proof.
  split.
  - destruct (strip_with p s) as [|c r] eqn:E; [done|]. by apply strip_with_first in E.
  - destruct (List.rev (strip_with p s)) as [|c r] eqn:E; [done|].
    apply (f_equal (@List.rev N)) in E. rewrite List.rev_involutive in E. simpl in E.
    by apply strip_with_last in E.
Qed.

Lemma strip_with_idemp (p : N -> bool) (s : ustr) :
  strip_with p (strip_with p s) = strip_with p s.
Proof. destruct (strip_with_ends p s). by apply strip_with_fixed. Qed.

Lemma strip_with_In (p : N -> bool) (s : ustr) (c : N) :
  List.In c (strip_with p s) -> List.In c s.
Proof.
  intros H. destruct (strip_with_infix p s) as (a & b & E & _ & _). rewrite E.
  apply List.in_or_app. right. apply List.in_or_app. by left.
Qed.

Lemma drop_while_all (p : N -> bool) (s : ustr) :
  List.forallb p s = true -> drop_while p s = [].
Proof.
  induction s as [|c s IH]; simpl; [done|].
  intros H. apply andb_true_iff in H as [-> H]. by apply IH.
Qed.

Lemma drop_while_app (p : N -> bool) (s b : ustr) :
  drop_while p (s ++ b)
  = match drop_while p s with [] => drop_while p b | d => d ++ b end.
Proof.
  induction s as [|c s IH]; simpl; [by destruct (drop_while p b)|].
  by destruct (p c).
Qed.

(** Trimming ignores what it would remove anyway. *)
Lemma strip_with_pad (p : N -> bool) (a s b : ustr) :
  List.forallb p a = true -> List.forallb p b = true ->
  strip_with p (a ++ s ++ b) = strip_with p s.
Proof.
  intros Ha Hb. unfold strip_with.
  rewrite (drop_while_app p a), (drop_while_all p a Ha).
  assert (E : drop_while p (s ++ b) = match drop_while p s with [] => [] | d => d ++ b end).
  { rewrite drop_while_app. by rewrite (drop_while_all p b Hb). }
  assert (E' : List.rev (drop_while p (List.rev (drop_while p (s ++ b))))
               = List.rev (drop_while p (List.rev (drop_while p s)))).
  { rewrite E. destruct (drop_while p s) as [|c d] eqn:Ed; [done|].
    rewrite List.rev_app_distr, drop_while_app.
    rewrite (drop_while_all p (List.rev b)); [done|].
    rewrite List.forallb_forall in Hb |- *. intros x Hx. apply Hb. by apply List.in_rev. }
  destruct (drop_while p (s ++ b)) as [|c d] eqn:Ed.
  - rewrite <- E'. by destruct (drop_while p s).
  - exact E'.
Qed.

(** A property of the 128 ASCII characters, checked on each of them. *)
Lemma ascii_forall (P : N -> bool) :
  List.forallb P (List.map N.of_nat (List.seq 0 128)) = true ->
  forall c, (c < 128)%N -> P c = true.
Proof.
  intros H c Hc. rewrite List.forallb_forall in H. apply H.
  apply List.in_map_iff. exists (N.to_nat c). split; [apply N2Nat.id|].
  apply List.in_seq. lia.
Qed.

(** ** Conversions of floating-point numbers *)

Section FloatLemmas.
Local Open Scope Z_scope.

Lemma digits2_size (p : positive) : digits2_pos p = Pos.size p.
Proof. induction p as [p IH|p IH|]; simpl; by rewrite ?IH. Qed.

(** The number of binary digits of a positive number, from its bounds. *)
Lemma digits2_bounds (p : positive) :
  2 ^ (Zpos (digits2_pos p) - 1) <= Zpos p < 2 ^ Zpos (digits2_pos p).
Proof.
  rewrite digits2_size. split.
  - pose proof (Pos.size_le p) as H.
    assert (H' : (2 ^ Zpos (Pos.size p) <= 2 * Zpos p)).
    { change (2 * Zpos p) with (Zpos p~0). rewrite <- Pos2Z.inj_pow. lia. }
    replace (Zpos (Pos.size p)) with (Z.succ (Zpos (Pos.size p) - 1)) in H' by lia.
    rewrite Z.pow_succ_r in H' by lia. lia.
  - pose proof (Pos.size_gt p) as H. rewrite <- Pos2Z.inj_pow. lia.
Qed.

Lemma digits2_unique (p : positive) (d : Z) :
  2 ^ (d - 1) <= Zpos p < 2 ^ d -> Zpos (digits2_pos p) = d.
Proof.
  intros [Hlo Hhi]. pose proof (digits2_bounds p) as [Blo Bhi].
  set (k := Zpos (digits2_pos p)) in *.
  assert (Hk : 0 < k) by (unfold k; lia).
  assert (Hd : 0 < d).
  { destruct (Z.lt_ge_cases 0 d) as [H|H]; [done|].
    assert (2 ^ d <= 2 ^ 0) by (destruct (Z.eq_dec d 0) as [->|]; [lia|rewrite Z.pow_neg_r by lia; lia]).
    simpl in *. lia. }
  destruct (Z.lt_trichotomy k d) as [H | [H | H]]; [|done|].
  - assert (2 ^ k <= 2 ^ (d - 1)) by (apply Z.pow_le_mono_r; lia). lia.
  - assert (2 ^ d <= 2 ^ (k - 1)) by (apply Z.pow_le_mono_r; lia). lia.
Qed.

Lemma fexp_normal (x : Z) : -1021 <= x -> fexp Float.prec Float.emax x = x - 53.
Proof. intros H. unfold fexp, emin, Float.prec, Float.emax. lia. Qed.

(** Rounding a mantissa that already has its canonical exponent. *)
Lemma round_canonical (sx : bool) (m : positive) (e : Z) :
  fexp Float.prec Float.emax (Zpos (digits2_pos m) + e) = e -> e <= 971 ->
  binary_round_aux Float.prec Float.emax sx (Zpos m) e loc_Exact = S754_finite sx m e.
Proof.
  intros Hc He. unfold binary_round_aux, shr_fexp.
  cbn [Zdigits2 shr_record_of_loc]. rewrite Hc, Z.sub_diag. cbn [shr shr_m loc_of_shr_record
    round_nearest_even Zdigits2 shr_record_of_loc].
  rewrite Hc, Z.sub_diag. cbn [shr shr_m].
  unfold Float.emax, Float.prec. change (1024 - 53) with 971.
  by rewrite (proj2 (Z.leb_le e 971)).
Qed.

(** Rounding an even mantissa whose canonical exponent is one more. *)
Lemma round_one_shift (sx : bool) (m : positive) (e : Z) :
  fexp Float.prec Float.emax (Zpos (digits2_pos m~0) + e) = e + 1 -> e + 1 <= 971 ->
  binary_round_aux Float.prec Float.emax sx (Zpos m~0) e loc_Exact = S754_finite sx m (e + 1).
Proof.
  intros Hc He. unfold binary_round_aux, shr_fexp.
  cbn [Zdigits2 shr_record_of_loc]. rewrite Hc.
  replace (e + 1 - e) with 1 by lia.
  cbn [shr].
  change (SpecFloat.iter_pos shr_1 1 {| shr_m := Z.pos m~0; shr_r := false; shr_s := false |})
    with {| shr_m := Z.pos m; shr_r := false; shr_s := false |}.
  cbn [shr_m loc_of_shr_record round_nearest_even Zdigits2 shr_record_of_loc].
  assert (Hc' : fexp Float.prec Float.emax (Zpos (digits2_pos m) + (e + 1)) = e + 1).
  { assert (Ha : Zpos (digits2_pos m) + (e + 1) = Zpos (digits2_pos m~0) + e)
      by (cbn [digits2_pos]; rewrite Pos2Z.inj_succ; lia).
    by rewrite Ha. }
  rewrite Hc', Z.sub_diag. cbn [shr shr_m].
  unfold Float.emax, Float.prec. change (1024 - 53) with 971.
  by rewrite (proj2 (Z.leb_le (e + 1) 971)).
Qed.

(** A number of tenths that is a whole number below [2^53] is read as that
    number. *)
Lemma of_decimal_tenths (neg : bool) (n : positive) :
  Zpos n < 2 ^ 53 ->
  Float.to_int (Float.of_decimal neg (Npos (10 * n)) (-1))
  = Some (if neg then - Zpos n else Zpos n).
Proof.
  intros Hn. unfold Float.of_decimal.
  change (0 <=? -1) with false. cbv iota.
  change (10 ^ (- -1)) with 10.
  unfold SFdiv_core_binary.
  change (Zdigits2 10) with 4.
  cbn [Zdigits2]. rewrite !Z.add_0_r, Z.sub_diag.
  pose proof (digits2_bounds n) as [Nlo Nhi].
  set (dn := Zpos (digits2_pos n)) in *.
  assert (Hdn : 1 <= dn <= 53).
  { split; [unfold dn; lia|].
    destruct (Z.le_gt_cases dn 53) as [H|H]; [done|].
    assert (2 ^ 53 <= 2 ^ (dn - 1)) by (apply Z.pow_le_mono_r; lia). lia. }
  pose proof (digits2_bounds (10 * n)) as [Dlo Dhi].
  set (D := Zpos (digits2_pos (10 * n))) in *.
  assert (E10 : Zpos (10 * n) = 10 * Zpos n) by lia.
  assert (HD : D = dn + 3 \/ D = dn + 4).
  { assert (P1 : 2 ^ (dn + 2) = 8 * 2 ^ (dn - 1)).
    { replace (dn + 2) with (3 + (dn - 1)) by lia. rewrite Z.pow_add_r by lia. lia. }
    assert (P2 : 2 ^ (dn + 4) = 16 * 2 ^ dn) by (rewrite Z.pow_add_r by lia; lia).
    assert (P0 : 0 < 2 ^ (dn - 1)) by (apply Z.pow_pos_nonneg; lia).
    destruct (Z.lt_trichotomy D (dn + 3)) as [H | [H | H]]; [|by left|].
    - assert (2 ^ D <= 2 ^ (dn + 2)) by (apply Z.pow_le_mono_r; lia). lia.
    - destruct (Z.eq_dec D (dn + 4)) as [|Hne]; [by right|].
      assert (2 ^ (dn + 4) <= 2 ^ (D - 1)) by (apply Z.pow_le_mono_r; lia). lia. }
  rewrite (fexp_normal (D - 4)) by lia.
  rewrite Z.min_l by lia.
  replace (0 - (D - 4 - 53)) with (57 - D) by lia.
  set (s := 57 - D) in *.
  assert (Hs : 0 <= s) by (unfold s; lia).
  assert (Hm' : match s with
                | Z0 => Zpos (10 * n)
                | Zpos _ => Z.shiftl (Zpos (10 * n)) s
                | Zneg _ => 0
                end = 10 * (Zpos n * 2 ^ s)).
  { destruct s as [|ps|ps] eqn:Es; [lia | | lia].
    rewrite Z.shiftl_mul_pow2 by lia. lia. }
  rewrite Hm'.
  assert (Hq : Z.div_eucl (10 * (Zpos n * 2 ^ s)) 10 = (Zpos n * 2 ^ s, 0)).
  { pose proof (Z.div_eucl_eq (10 * (Zpos n * 2 ^ s)) 10) as H.
    destruct (Z.div_eucl (10 * (Zpos n * 2 ^ s)) 10) as [q r] eqn:Eq.
    assert (Hq : q = 10 * (Zpos n * 2 ^ s) / 10) by (unfold Z.div; by rewrite Eq).
    assert (Hr : r = (10 * (Zpos n * 2 ^ s)) mod 10) by (unfold Z.modulo; by rewrite Eq).
    rewrite Z.mul_comm, Z.div_mul in Hq by lia.
    rewrite Z.mul_comm, Z.mod_mul in Hr by lia. by subst. }
  rewrite Hq. change (new_location 10 0) with loc_Exact.
  assert (P2s : 0 < 2 ^ s) by (apply Z.pow_pos_nonneg; lia).
  destruct (Zpos n * 2 ^ s) as [|p|p] eqn:Ep; [lia| |lia].
  assert (Hdp : Zpos (digits2_pos p) = dn + s).
  { apply digits2_unique. rewrite <- Ep.
    replace (dn + s - 1) with (dn - 1 + s) by lia.
    rewrite !Z.pow_add_r by lia. nia. }
  assert (Hint : forall m e, e <= 0 -> Zpos m = Zpos n * 2 ^ (- e) ->
            Float.to_int (S754_finite neg m e) = Some (if neg then - Zpos n else Zpos n)).
  { intros m e He Hme. unfold Float.to_int. f_equal.
    assert (Hv : (if 0 <=? e then Zpos m * 2 ^ e else Zpos m / 2 ^ (- e)) = Zpos n);
      [|by rewrite Hv].
    assert (Pe : 0 < 2 ^ (- e)) by (apply Z.pow_pos_nonneg; lia).
    destruct (Z.leb_spec 0 e) as [H0|H0].
    - assert (e = 0) by lia. subst e. simpl in *. lia.
    - rewrite Hme. apply Z.div_mul. lia. }
  destruct HD as [HD | HD].
  - (* one shift *)
    assert (Hs1 : 1 <= s) by (unfold s; lia).
    assert (E2 : Zpos p = 2 * (Zpos n * 2 ^ (s - 1))).
    { rewrite <- Ep. replace s with (1 + (s - 1)) at 1 by lia.
      rewrite Z.pow_add_r by lia. lia. }
    destruct p as [p'|p'|]; [lia| |lia].
    rewrite round_one_shift.
    + apply Hint; [lia|]. replace (- (D - 4 - 53 + 1)) with (s - 1) by (unfold s; lia). lia.
    + rewrite Hdp. replace (dn + s + (D - 4 - 53)) with dn by (unfold s; lia).
      rewrite fexp_normal by lia. lia.
    + lia.
  - (* no shift *)
    rewrite round_canonical.
    + apply Hint; [lia|]. replace (- (D - 4 - 53)) with s by (unfold s; lia). lia.
    + rewrite Hdp. replace (dn + s + (D - 4 - 53)) with dn by (unfold s; lia).
      rewrite fexp_normal by lia. lia.
    + lia.
Qed.

(** The same up to [2^53] included. *)
Lemma of_decimal_tenths_le (neg : bool) (n : positive) :
  Zpos n <= 2 ^ 53 ->
  Float.to_int (Float.of_decimal neg (Npos (10 * n)) (-1))
  = Some (if neg then - Zpos n else Zpos n).
Proof.
  intros Hn. destruct (Z.eq_dec (Zpos n) (2 ^ 53)) as [E | Hne].
  - assert (En : n = 9007199254740992%positive) by (change (2 ^ 53) with 9007199254740992 in E; lia).
    subst n. destruct neg; vm_compute; reflexivity.
  - apply of_decimal_tenths. lia.
Qed.

End FloatLemmas.

(** ** The alias table *)

Lemma build_alias_to_field_pairs (ao : ustr -> list ustr) :
  _build_alias_to_field ao = List.fold_left insert_pair (alias_pairs ao) ∅.
Proof.
  unfold _build_alias_to_field, alias_pairs.
  rewrite fold_left_flat_map.
  apply fold_left_ext. intros acc fa.
  by rewrite fold_left_map.
Qed.

Lemma alias_pairs_Permutation (ao : ustr -> list ustr) :
  valid_alias_order ao -> alias_pairs ao ≡ₚ alias_pairs aliases_of.
Proof.
  intros Hao. unfold alias_pairs. apply flat_map_Permutation.
  intros fa. apply Permutation_map, Hao.
Qed.

Lemma alias_keys_NoDup : NoDup (alias_pairs aliases_of).*1.
Proof. by_compute. Qed.

Lemma alias_pairs_NoDup (ao : ustr -> list ustr) :
  valid_alias_order ao -> NoDup (alias_pairs ao).*1.
Proof.
  intros Hao. rewrite (alias_pairs_Permutation ao Hao). apply alias_keys_NoDup.
Qed.

Lemma aliases_of_declared (field : ustr) (aliases : list ustr) :
  (field, aliases) ∈ FIELD_ALIASES -> aliases_of field = aliases.
Proof.
  unfold FIELD_ALIASES. rewrite !elem_of_cons, elem_of_nil.
  intros H. repeat destruct H as [H | H]; try done; by inversion H.
Qed.

Lemma alias_pair_elem (ao : ustr -> list ustr) (field : ustr) (aliases : list ustr) (alias : ustr) :
  valid_alias_order ao -> (field, aliases) ∈ FIELD_ALIASES -> alias ∈ aliases ->
  (_normalize_column_name (VStr alias), field) ∈ alias_pairs ao.
Proof.
  intros Hao Hf Ha.
  rewrite (alias_pairs_Permutation ao Hao).
  apply list_elem_of_In, List.in_flat_map. exists (field, aliases). split.
  - by apply list_elem_of_In.
  - simpl. rewrite (aliases_of_declared _ _ Hf).
    apply List.in_map_iff. exists alias. split; [done | by apply list_elem_of_In].
Qed.

(** The index does not depend on the order in which the sets are visited. *)
Lemma alias_to_field_order (ao : ustr -> list ustr) :
  valid_alias_order ao -> ALIAS_TO_FIELD ao = ALIAS_TO_FIELD aliases_of.
Proof.
  intros Hao. unfold ALIAS_TO_FIELD. rewrite !build_alias_to_field_pairs.
  apply map_eq. intros k.
  destruct (List.fold_left insert_pair (alias_pairs aliases_of) ∅ !! k) as [f|] eqn:E.
  - apply fold_insert_inv in E as [E | E]; [|by rewrite lookup_empty in E].
    apply fold_insert_lookup; [by apply alias_pairs_NoDup|].
    by rewrite (alias_pairs_Permutation ao Hao).
  - destruct (List.fold_left insert_pair (alias_pairs ao) ∅ !! k) as [f|] eqn:E'; [|done].
    apply fold_insert_inv in E' as [E' | E']; [|by rewrite lookup_empty in E'].
    rewrite (alias_pairs_Permutation ao Hao) in E'.
    apply (fold_insert_lookup _ ∅) in E'; [congruence | apply alias_keys_NoDup].
Qed.

(** C8. For every canonical field and every alias declared for it, the
    alias-to-field index built from the declarations sends the normalized
    alias to that field, in whatever order the alias sets are visited; the
    fields of the table are the 7 required ones, and two aliases with the
    same normalized form belong to the same field. *)
Theorem alias_index_resolves (ao : ustr -> list ustr) (field : ustr)
    (aliases : list ustr) (alias : ustr) :
  valid_alias_order ao ->
  (field, aliases) ∈ FIELD_ALIASES ->
  alias ∈ aliases ->
  ALIAS_TO_FIELD ao !! _normalize_column_name (VStr alias) = Some field
  /\ FIELD_ALIASES.*1 = REQUIRED_FIELDS
  /\ (forall field' aliases' alias',
        (field', aliases') ∈ FIELD_ALIASES -> alias' ∈ aliases' ->
        _normalize_column_name (VStr alias') = _normalize_column_name (VStr alias) ->
        field' = field).
Proof.
  intros Hao Hf Ha.
  assert (Hres : forall f als a, (f, als) ∈ FIELD_ALIASES -> a ∈ als ->
             ALIAS_TO_FIELD ao !! _normalize_column_name (VStr a) = Some f).
  { intros f als a Hf' Ha'. unfold ALIAS_TO_FIELD.
    rewrite build_alias_to_field_pairs.
    apply fold_insert_lookup; [by apply alias_pairs_NoDup|].
    by apply (alias_pair_elem ao f als a). }
  split; [by apply (Hres field aliases alias)|]. split; [reflexivity|].
  intros f' als' a' Hf' Ha' Heq.
  pose proof (Hres f' als' a' Hf' Ha') as H1.
  pose proof (Hres field aliases alias Hf Ha) as H2.
  rewrite Heq in H1. congruence.
Qed.

Lemma alias_index_resolves_witness :
  ALIAS_TO_FIELD aliases_of !! _normalize_column_name (VStr (u "phone")) = Some (u "mobile_no").
Proof.
  refine (proj1 (alias_index_resolves aliases_of (u "mobile_no")
    [u "mobile_no"; u "mobile"; u "mobile_number"; u "phone"; u "phone_no"]
    (u "phone") _ _ _)).
  - intros f. reflexivity.
  - by_compute.
  - by_compute.
Defined.


(** ** The direct mapper *)

Lemma normalized_columns_acc (cols : list pyval) (acc : gmap ustr pyval) (k : ustr) (col : pyval) :
  List.fold_left
    (fun acc col =>
       let normalized := _normalize_column_name col in
       if negb (startswith (u "unnamed") normalized)
       then <[normalized := col]> acc
       else acc)
    cols acc !! k = Some col ->
  (col ∈ cols /\ _normalize_column_name col = k /\ startswith (u "unnamed") k = false)
  \/ acc !! k = Some col.
Proof.
  revert acc. induction cols as [|c cols IH]; intros acc H; simpl in H; [by right|].
  apply IH in H as [(Hin & Hk & Hu) | H].
  - left. split; [apply elem_of_cons; by right | done].
  - destruct (startswith (u "unnamed") (_normalize_column_name c)) eqn:Hu; simpl in H;
      [by right|].
    destruct (decide (_normalize_column_name c = k)) as [<-|Hne].
    + rewrite lookup_insert_eq in H. inversion H; subst c. left.
      split; [apply elem_of_cons; by left | done].
    + rewrite lookup_insert_ne in H by done. by right.
Qed.

Lemma normalized_columns_sound (cols : list pyval) (k : ustr) (col : pyval) :
  normalized_columns cols !! k = Some col ->
  col ∈ cols /\ _normalize_column_name col = k /\ startswith (u "unnamed") k = false.
Proof.
  intros H. apply normalized_columns_acc in H as [H | H]; [done|].
  by rewrite lookup_empty in H.
Qed.

Lemma normalized_columns_keep (cols : list pyval) (acc : gmap ustr pyval) (k : ustr) :
  is_Some (acc !! k) ->
  is_Some (List.fold_left
    (fun acc col =>
       let normalized := _normalize_column_name col in
       if negb (startswith (u "unnamed") normalized)
       then <[normalized := col]> acc
       else acc)
    cols acc !! k).
Proof.
  revert acc. induction cols as [|c cols IH]; intros acc H; simpl; [done|].
  apply IH.
  destruct (negb (startswith (u "unnamed") (_normalize_column_name c))); [|done].
  destruct (decide (_normalize_column_name c = k)) as [<-|Hne].
  - rewrite lookup_insert_eq. by eexists.
  - by rewrite lookup_insert_ne.
Qed.

Lemma normalized_columns_complete (cols : list pyval) (col : pyval) :
  col ∈ cols ->
  startswith (u "unnamed") (_normalize_column_name col) = false ->
  is_Some (normalized_columns cols !! _normalize_column_name col).
Proof.
  unfold normalized_columns. generalize (∅ : gmap ustr pyval).
  induction cols as [|c cols IH]; intros acc Hin Hu; [by apply elem_of_nil in Hin|].
  apply elem_of_cons in Hin as [<- | Hin]; simpl.
  - apply normalized_columns_keep. rewrite Hu. simpl.
    rewrite lookup_insert_eq. by eexists.
  - by apply IH.
Qed.

(** No declared alias normalizes to the text of [None] or to a label the
    reader gives a column without header. *)
Lemma declared_alias_shape :
  Forall (fun fa : ustr * list ustr =>
            Forall (fun alias =>
                      _normalize_column_name (VStr alias) ≠ _normalize_column_name VNone
                      /\ startswith (u "unnamed") (_normalize_column_name (VStr alias)) = false)
                   (aliases_of fa.1))
         FIELD_ALIASES.
Proof. by_compute. Qed.

Lemma required_field_declared (field : ustr) :
  field ∈ REQUIRED_FIELDS -> exists aliases, (field, aliases) ∈ FIELD_ALIASES.
Proof.
  unfold REQUIRED_FIELDS, FIELD_ALIASES. rewrite !elem_of_cons, elem_of_nil.
  intros H. repeat destruct H as [H | H]; try done; subst field;
    eexists; rewrite !elem_of_cons; eauto 10.
Qed.

Lemma alias_shape (field alias : ustr) :
  field ∈ REQUIRED_FIELDS -> alias ∈ aliases_of field ->
  _normalize_column_name (VStr alias) ≠ _normalize_column_name VNone
  /\ startswith (u "unnamed") (_normalize_column_name (VStr alias)) = false.
Proof.
  intros Hf Ha. apply required_field_declared in Hf as [aliases Hf].
  pose proof declared_alias_shape as H.
  rewrite Forall_forall in H. specialize (H _ Hf). simpl in H.
  rewrite Forall_forall in H. by apply H.
Qed.

Lemma match_column_miss (m : gmap ustr pyval) (candidates : list ustr) :
  (forall alias, alias ∈ candidates -> m !! _normalize_column_name (VStr alias) = None) ->
  match_column m candidates = VNone.
Proof.
  induction candidates as [|a candidates IH]; intros H; simpl; [done|].
  rewrite (H a) by (apply elem_of_cons; by left).
  apply IH. intros alias Hin. apply H, elem_of_cons. by right.
Qed.

Lemma match_column_hit (m : gmap ustr pyval) (candidates : list ustr) :
  (exists alias, alias ∈ candidates /\ is_Some (m !! _normalize_column_name (VStr alias))) ->
  exists alias, alias ∈ candidates
    /\ m !! _normalize_column_name (VStr alias) = Some (match_column m candidates).
Proof.
  induction candidates as [|a candidates IH]; intros (alias & Hin & Hs).
  - by apply elem_of_nil in Hin.
  - simpl. destruct (m !! _normalize_column_name (VStr a)) as [col|] eqn:E.
    + exists a. split; [apply elem_of_cons; by left | done].
    + apply elem_of_cons in Hin as [-> | Hin]; [rewrite E in Hs; by destruct Hs|].
      destruct IH as (a' & Hin' & H'); [by exists alias|].
      exists a'. split; [apply elem_of_cons; by right | done].
Qed.

Section DirectMapper.
Variable ao : ustr -> list ustr.
Hypothesis ao_valid : valid_alias_order ao.

Lemma alias_order_elem (field alias : ustr) : alias ∈ ao field <-> alias ∈ aliases_of field.
Proof. by rewrite (ao_valid field). Qed.

(** The column found for a field is [None] exactly when no column matches. *)
Lemma match_column_matches (df : DataFrame) (field : ustr) :
  field ∈ REQUIRED_FIELDS ->
  has_matching_column df field ->
  match_column (normalized_columns (columns df)) (ao field) ≠ VNone
  /\ match_column (normalized_columns (columns df)) (ao field) ∈ columns df
  /\ exists alias, alias ∈ aliases_of field
       /\ _normalize_column_name (match_column (normalized_columns (columns df)) (ao field))
          = _normalize_column_name (VStr alias).
Proof.
  intros Hf (col & alias & Hcol & Halias & Heq).
  destruct (alias_shape field alias Hf Halias) as [_ Hu].
  destruct (match_column_hit (normalized_columns (columns df)) (ao field))
    as (a & Ha & Hm).
  { exists alias. split; [by apply alias_order_elem|].
    rewrite <- Heq. apply normalized_columns_complete; [done | by rewrite Heq]. }
  apply normalized_columns_sound in Hm as (Hin & Hn & _).
  apply alias_order_elem in Ha.
  destruct (alias_shape field a Hf Ha) as [Hnone _].
  split; [|split; [done | by exists a]].
  intros E. rewrite E in Hn. by rewrite Hn in Hnone.
Qed.

Lemma match_column_no_match (df : DataFrame) (field : ustr) :
  ~ has_matching_column df field ->
  match_column (normalized_columns (columns df)) (ao field) = VNone.
Proof.
  intros Hno. apply match_column_miss. intros alias Ha.
  destruct (normalized_columns (columns df) !! _normalize_column_name (VStr alias))
    as [col|] eqn:E; [|done].
  apply normalized_columns_sound in E as (Hin & Hn & _).
  exfalso. apply Hno. exists col, alias. by rewrite <- alias_order_elem.
Qed.

Lemma resolve_fields_None (m : gmap ustr pyval) (fields : list ustr) (acc : gmap ustr pyval) :
  (exists field, field ∈ fields /\ match_column m (ao field) = VNone) ->
  resolve_fields ao m fields acc = None.
Proof.
  revert acc. induction fields as [|f fields IH]; intros acc (field & Hin & Hm).
  - by apply elem_of_nil in Hin.
  - simpl. apply elem_of_cons in Hin as [-> | Hin]; [by rewrite Hm|].
    destruct (match_column m (ao f)); try done; apply IH; by exists field.
Qed.

Lemma resolve_fields_Some (m : gmap ustr pyval) (fields : list ustr)
    (acc res : gmap ustr pyval) :
  resolve_fields ao m fields acc = Some res ->
  (forall field, field ∈ fields ->
     match_column m (ao field) ≠ VNone /\ res !! field = Some (match_column m (ao field)))
  /\ (forall field, field ∉ fields -> res !! field = acc !! field).
Proof.
  revert acc. induction fields as [|f fields IH]; intros acc H; simpl in H.
  - inversion H; subst. split; [intros ? Hin; by apply elem_of_nil in Hin | done].
  - destruct (match_column m (ao f)) eqn:E; try done;
      apply IH in H as [H1 H2]; (split;
        [ intros field Hin;
          destruct (decide (field ∈ fields)) as [Hin' | Hnin];
            [ by apply H1
            | apply elem_of_cons in Hin as [-> | Hin]; [|done];
              rewrite E; split; [done|];
              rewrite (H2 _ Hnin); by rewrite lookup_insert_eq ]
        | intros field Hnin; apply not_elem_of_cons in Hnin as [Hne Hnin];
          rewrite (H2 _ Hnin); by rewrite lookup_insert_ne ]).
Qed.

Lemma resolve_fields_total (m : gmap ustr pyval) (fields : list ustr) (acc : gmap ustr pyval) :
  (forall field, field ∈ fields -> match_column m (ao field) ≠ VNone) ->
  is_Some (resolve_fields ao m fields acc).
Proof.
  revert acc. induction fields as [|f fields IH]; intros acc H; simpl; [by eexists|].
  assert (Hf : match_column m (ao f) ≠ VNone) by (apply H, elem_of_cons; by left).
  destruct (match_column m (ao f)); try done;
    apply IH; intros field Hin; apply H, elem_of_cons; by right.
Qed.

Lemma resolve_mapping_dom (df : DataFrame) (m : gmap ustr pyval) :
  _resolve_field_mapping ao df = Some m -> dom m = list_to_set REQUIRED_FIELDS.
Proof.
  intros H. apply resolve_fields_Some in H as [H1 H2].
  apply set_eq. intros field. rewrite elem_of_dom, elem_of_list_to_set.
  split.
  - intros Hs. destruct (decide (field ∈ REQUIRED_FIELDS)) as [|Hn]; [done|].
    rewrite (H2 _ Hn), lookup_empty in Hs. by destruct Hs.
  - intros Hin. destruct (H1 _ Hin) as [_ ->]. by eexists.
Qed.

End DirectMapper.

(** C3. The direct mapper is all-or-nothing.  Whatever the order in which
    the alias sets are visited: when every one of the 7 fields has a column
    whose normalized header equals a normalized alias of the field, the
    mapper returns a mapping that gives each of the 7 fields such a column
    of the table; when some field has no such column it returns nothing;
    and any mapping it returns has exactly the 7 fields as keys. *)
Theorem direct_mapper_all_or_nothing (ao : ustr -> list ustr) (df : DataFrame) :
  valid_alias_order ao ->
  ((forall field, field ∈ REQUIRED_FIELDS -> has_matching_column df field) ->
   exists m, _resolve_field_mapping ao df = Some m
     /\ forall field, field ∈ REQUIRED_FIELDS ->
          exists col alias, m !! field = Some col /\ col ∈ columns df
            /\ alias ∈ aliases_of field
            /\ _normalize_column_name col = _normalize_column_name (VStr alias))
  /\ ((exists field, field ∈ REQUIRED_FIELDS /\ ~ has_matching_column df field) ->
      _resolve_field_mapping ao df = None)
  /\ (forall m, _resolve_field_mapping ao df = Some m ->
      dom m = list_to_set REQUIRED_FIELDS).
Proof.
  intros Hao. split; [|split].
  - intros Hall.
    destruct (resolve_fields_total ao (normalized_columns (columns df)) REQUIRED_FIELDS ∅)
      as [m Hm].
    { intros field Hin. by apply match_column_matches, Hall. }
    exists m. split; [done|]. intros field Hin.
    apply resolve_fields_Some in Hm as [H1 _].
    destruct (H1 _ Hin) as [_ Hl].
    destruct (match_column_matches ao Hao df field Hin (Hall _ Hin)) as (_ & Hc & a & Ha & Hn).
    by exists (match_column (normalized_columns (columns df)) (ao field)), a.
  - intros (field & Hin & Hno). apply resolve_fields_None.
    exists field. split; [done | by apply match_column_no_match].
  - intros m. by apply resolve_mapping_dom.
Qed.

Lemma direct_mapper_all_or_nothing_witness :
  exists m, _resolve_field_mapping aliases_of aliased_sheet = Some m
    /\ forall field, field ∈ REQUIRED_FIELDS ->
         exists col alias, m !! field = Some col /\ col ∈ columns aliased_sheet
           /\ alias ∈ aliases_of field
           /\ _normalize_column_name col = _normalize_column_name (VStr alias).
Proof.
  refine (proj1 (direct_mapper_all_or_nothing aliases_of aliased_sheet _) _).
  - intros f. reflexivity.
  - intros field Hin. unfold REQUIRED_FIELDS in Hin.
    rewrite !elem_of_cons, elem_of_nil in Hin.
    destruct Hin as [-> | [-> | [-> | [-> | [-> | [-> | [-> | []]]]]]]].
    + exists (VStr (u "Loaner ID")), (u "loaner_id").
      split; [by_compute | split; [by_compute | vm_compute; reflexivity]].
    + exists (VStr (u "Full Name")), (u "full_name").
      split; [by_compute | split; [by_compute | vm_compute; reflexivity]].
    + exists (VStr (u "Phone")), (u "phone").
      split; [by_compute | split; [by_compute | vm_compute; reflexivity]].
    + exists (VStr (u "Aadhaar")), (u "aadhaar").
      split; [by_compute | split; [by_compute | vm_compute; reflexivity]].
    + exists (VStr (u "Loan Amount")), (u "loan_amount").
      split; [by_compute | split; [by_compute | vm_compute; reflexivity]].
    + exists (VStr (u "Land-Area")), (u "land_area").
      split; [by_compute | split; [by_compute | vm_compute; reflexivity]].
    + exists (VStr (u "Purpose")), (u "purpose").
      split; [by_compute | split; [by_compute | vm_compute; reflexivity]].
Defined.

(** ** The header locator *)

Lemma firstn_min_length {A : Type} (n : nat) (l : list A) :
  List.firstn (Nat.min (length l) n) l = List.firstn n l.
Proof.
  destruct (Nat.le_ge_cases n (length l)) as [H | H].
  - by rewrite Nat.min_r.
  - rewrite Nat.min_l by done. rewrite !List.firstn_all2; [done | done | lia].
Qed.

Lemma first_index_lt (P : nat -> bool) (l : list nat) (i : nat) :
  first_index P l = Some i -> (i < length l)%nat.
Proof.
  revert i. induction l as [|x l IH]; intros i H; simpl in *; [done|].
  destruct (P x); [inversion H; lia|].
  destruct (first_index P l) as [j|]; [|done].
  inversion H. specialize (IH j eq_refl). lia.
Qed.

Lemma first_index_none (P : nat -> bool) (l : list nat) :
  Forall (fun y => P y = false) l -> first_index P l = None.
Proof.
  induction 1 as [|y l Hy Hl IH]; cbn [first_index]; [done|]. by rewrite Hy, IH.
Qed.

Lemma first_index_app (P : nat -> bool) (pre post : list nat) (x : nat) :
  Forall (fun y => P y = false) pre -> P x = true ->
  first_index P (pre ++ x :: post) = Some (length pre).
Proof.
  induction 1 as [|y pre Hy Hpre IH]; intros Hx; simpl; [by rewrite Hx|].
  by rewrite Hy, IH.
Qed.

(** The loop, started in any state, against the scores of the rows left. *)
Lemma detect_loop_scores (ao : ustr -> list ustr) (probe : list (list pyval))
    (i : nat) (best_idx : option nat) (best_score : nat) :
  let scores := List.map (row_score ao) probe in
  detect_loop ao probe i best_idx best_score =
    match first_index (Nat.eqb (length REQUIRED_FIELDS)) scores with
    | Some j => Some (i + j)%nat
    | None =>
        if (best_score <? max_list scores)%nat
        then if (4 <=? max_list scores)%nat
             then Nat.add i <$> first_index (Nat.eqb (max_list scores)) scores
             else None
        else if (4 <=? best_score)%nat then best_idx else None
    end.
Proof.
  cbv zeta. revert i best_idx best_score.
  set (n := length REQUIRED_FIELDS).
  induction probe as [|r probe IH]; intros i bi bs;
    cbn [detect_loop List.map first_index max_list].
  { fold n. by rewrite (proj2 (Nat.ltb_ge bs 0)) by lia. }
  fold n. set (s := row_score ao r). set (scores := List.map (row_score ao) probe) in *.
  rewrite (Nat.eqb_sym s n).
  destruct (Nat.eqb_spec n s) as [E7 | N7].
  { f_equal. lia. }
  rewrite IH.
  destruct (first_index (Nat.eqb n) scores) as [j|] eqn:F7; cbn [fmap option_fmap option_map].
  { f_equal. lia. }
  change (id s) with s.
  destruct (Nat.ltb_spec bs s) as [Hlt | Hge].
  - (* the row becomes the best one *)
    rewrite (proj2 (Nat.ltb_lt bs (s `max` max_list scores))) by lia.
    destruct (Nat.ltb_spec s (max_list scores)) as [Hs | Hs].
    + rewrite Nat.max_r by lia.
      rewrite (proj2 (Nat.eqb_neq (max_list scores) s)) by lia.
      destruct (4 <=? max_list scores)%nat; [|done].
      destruct (first_index (Nat.eqb (max_list scores)) scores) as [k|];
        cbn [fmap option_fmap option_map]; [|done].
      f_equal. lia.
    + rewrite Nat.max_l by lia. rewrite Nat.eqb_refl.
      destruct (4 <=? s)%nat; cbn [fmap option_fmap option_map]; [f_equal; lia | done].
  - (* the best row so far stays *)
    destruct (Nat.ltb_spec bs (max_list scores)) as [Hs | Hs].
    + rewrite (proj2 (Nat.ltb_lt bs (s `max` max_list scores))) by lia.
      rewrite Nat.max_r by lia.
      rewrite (proj2 (Nat.eqb_neq (max_list scores) s)) by lia.
      destruct (4 <=? max_list scores)%nat; [|done].
      destruct (first_index (Nat.eqb (max_list scores)) scores) as [k|];
        cbn [fmap option_fmap option_map]; [|done].
      f_equal. lia.
    + by rewrite (proj2 (Nat.ltb_ge bs (s `max` max_list scores))) by lia.
Qed.

Lemma detect_in_spec (ao : ustr -> list ustr) (probe : list (list pyval)) (max_rows : nat) :
  detect_in ao probe max_rows
  = locate_spec (List.map (row_score ao) (List.firstn max_rows probe)).
Proof.
  unfold detect_in, locate_spec. rewrite firstn_min_length, detect_loop_scores.
  cbv zeta.
  set (scores := List.map (row_score ao) (List.firstn max_rows probe)).
  destruct (first_index (Nat.eqb (length REQUIRED_FIELDS)) scores) as [j|];
    [f_equal; lia|].
  destruct (Nat.ltb_spec 0 (max_list scores)) as [H | H].
  - destruct (4 <=? max_list scores)%nat; [|done].
    by destruct (first_index (Nat.eqb (max_list scores)) scores).
  - assert (E : max_list scores = 0%nat) by lia. by rewrite E.
Qed.

Lemma row_score_distinct (ao : ustr -> list ustr) (raw_cells : list pyval) :
  exists matched : gset ustr,
    row_score ao raw_cells = size matched
    /\ forall field, field ∈ matched <->
         exists cell, cell ∈ raw_cells /\ header_cell cell
           /\ ALIAS_TO_FIELD ao !! _normalize_column_name cell = Some field.
Proof.
  unfold row_score. eexists. split; [reflexivity|].
  intros field. rewrite elem_of_list_to_set, list_elem_of_omap.
  split.
  - intros (n & Hn & Hf). apply elem_of_elements, elem_of_list_to_set in Hn.
    apply list_elem_of_In, List.in_map_iff in Hn as (cell & <- & Hc).
    apply List.filter_In in Hc as [Hc Hp].
    apply andb_true_iff in Hp as [Hp1 Hp2].
    exists cell. split; [by apply list_elem_of_In|]. split; [|done].
    split; [by destruct cell | by destruct (strip (py_str cell))].
  - intros (cell & Hc & [Hnn Hne] & Hf).
    exists (_normalize_column_name cell). split; [|done].
    apply elem_of_elements, elem_of_list_to_set, list_elem_of_In, List.in_map.
    apply List.filter_In. split; [by apply list_elem_of_In|].
    apply andb_true_iff. split; [by destruct cell | by destruct (strip (py_str cell))].
Qed.

(** C2.  The header locator reads the file without a header row and scans
    the first [max_rows] rows of that parse, 15 in the call the loader
    makes, so that its result depends on those rows only and is the index
    of one of them.  The score of a row is the number of distinct fields
    that its cells (not [None], not blank), once normalized, name in the
    alias index.  The result is the first row whose score is 7 if there is
    one among the rows scanned, whatever follows it; otherwise it is the
    first row of highest score when that score is at least 4, and nothing
    when it is below 4. *)
Theorem header_locator_spec (ao : ustr -> list ustr)
    (read_excel : list Byte.byte -> header_arg -> DataFrame + ustr)
    (file_bytes : list Byte.byte) (max_rows : nat) (probe_df : DataFrame) :
  read_excel file_bytes HeaderNone = inl probe_df ->
  let probe := rows probe_df in
  let located := _detect_header_row ao read_excel file_bytes max_rows in
  located = inl (locate_spec (List.map (row_score ao) (List.firstn max_rows probe)))
  /\ (forall i, located = inl (Some i) -> (i < max_rows)%nat /\ (i < length probe)%nat)
  /\ (forall raw_cells, exists matched : gset ustr,
        row_score ao raw_cells = size matched
        /\ forall field, field ∈ matched <->
             exists cell, cell ∈ raw_cells /\ header_cell cell
               /\ ALIAS_TO_FIELD ao !! _normalize_column_name cell = Some field)
  /\ (forall pre row post,
        probe = pre ++ row :: post ->
        (length pre < max_rows)%nat ->
        Forall (fun r => row_score ao r ≠ 7%nat) pre ->
        row_score ao row = 7%nat ->
        located = inl (Some (length pre)))
  /\ (Forall (fun r => row_score ao r < 4)%nat (List.firstn max_rows probe) ->
      located = inl None)
  /\ (forall df, read_excel file_bytes (HeaderRow 0) = inl df ->
        _resolve_field_mapping ao df = None ->
        _load_excel_with_best_header ao read_excel file_bytes
        = match _detect_header_row ao read_excel file_bytes 15 with
          | inl (Some header_row) => read_excel file_bytes (HeaderRow header_row)
          | inl None => inl df
          | inr e => inr e
          end).
Proof.
  intros Hread. cbv zeta. unfold _detect_header_row. rewrite Hread.
  split; [by rewrite detect_in_spec|].
  split; [|split; [apply row_score_distinct|split; [|split]]].
  - intros i Hi. assert (Hi' : detect_in ao (rows probe_df) max_rows = Some i) by congruence.
    clear Hi. rewrite detect_in_spec in Hi'. unfold locate_spec in Hi'.
    assert (Hlt : (i < length (List.map (row_score ao)
                                  (List.firstn max_rows (rows probe_df))))%nat).
    { destruct (first_index _ _) as [j|] eqn:E in Hi'.
      - inversion Hi'; subst. by apply first_index_lt in E.
      - destruct (4 <=? _)%nat in Hi'; [|done]. by apply first_index_lt in Hi'. }
    rewrite List.length_map, List.length_firstn in Hlt. lia.
  - intros pre row post Hp Hlen Hpre Hrow. f_equal.
    rewrite detect_in_spec, Hp. unfold locate_spec.
    rewrite List.firstn_app.
    rewrite List.firstn_all2 by lia.
    replace (max_rows - length pre)%nat with (S (max_rows - S (length pre))) by lia.
    rewrite List.firstn_cons, List.map_app, List.map_cons.
    rewrite (first_index_app _ _ _ (row_score ao row)).
    + by rewrite List.length_map.
    + apply Forall_forall. intros y Hy.
      apply list_elem_of_In, List.in_map_iff in Hy as (r & <- & Hr).
      rewrite Forall_forall in Hpre. apply list_elem_of_In in Hr.
      specialize (Hpre _ Hr). apply Nat.eqb_neq. simpl. lia.
    + rewrite Hrow. reflexivity.
  - intros Hlow. f_equal. rewrite detect_in_spec. unfold locate_spec.
    set (scores := List.map (row_score ao) (List.firstn max_rows (rows probe_df))).
    assert (Hall : Forall (fun s => s < 4)%nat scores).
    { apply Forall_forall. intros s Hs.
      apply list_elem_of_In, List.in_map_iff in Hs as (r & <- & Hr).
      rewrite Forall_forall in Hlow. by apply Hlow, list_elem_of_In. }
    assert (Hmax : (max_list scores < 4)%nat).
    { clear -Hall. induction Hall as [|s l Hs Hl IH]; simpl; lia. }
    rewrite first_index_none.
    2:{ apply Forall_forall. intros y Hy. rewrite Forall_forall in Hall.
        specialize (Hall _ Hy). apply Nat.eqb_neq. change (length REQUIRED_FIELDS) with 7%nat.
        lia. }
    destruct (Nat.leb_spec 4 (max_list scores)); [lia | done].
  - intros df Hdf Hmap. unfold _load_excel_with_best_header, _detect_header_row.
    rewrite Hdf, Hmap, Hread. by destruct (detect_in ao (rows probe_df) 15).
Qed.

Lemma header_locator_spec_witness :
  _detect_header_row aliases_of
    (fun _ _ => inl {| columns := [VInt 0]; rows := example_probe |}) example_bytes 15
  = inl (Some 7%nat).
Proof.
  refine (proj1 (proj2 (proj2 (proj2
            (header_locator_spec aliases_of
               (fun _ _ => inl {| columns := [VInt 0]; rows := example_probe |})
               example_bytes 15 {| columns := [VInt 0]; rows := example_probe |} eq_refl))))
            (List.repeat title_row 7) header_row (List.repeat title_row 7) eq_refl _ _ _).
  - vm_compute. lia.
  - by_compute.
  - vm_compute. reflexivity.
Defined.

(** When the reader raises on the file, so does the locator. *)
Lemma header_locator_read_error (ao : ustr -> list ustr)
    (read_excel : list Byte.byte -> header_arg -> DataFrame + ustr)
    (file_bytes : list Byte.byte) (max_rows : nat) (e : ustr) :
  read_excel file_bytes HeaderNone = inr e ->
  _detect_header_row ao read_excel file_bytes max_rows = inr e.
Proof. intros H. unfold _detect_header_row. by rewrite H. Qed.

(** ** The content classifier on the example row *)

(** C1. On a sheet whose only row is the example row, whatever its column
    labels, the content classifier returns exactly the example mapping;
    the amount it stores is the float equal to 50000. *)
Theorem classifier_example (cols : list pyval) :
  _extract_rows_by_content {| columns := cols; rows := [example_row] |}
    = Some [example_mapping]
  /\ Float.compare_Z (Float.of_Z 50000) 50000 = Some Eq
  /\ Float.repr (Float.of_Z 50000) = u "50000.0".
Proof.
  split; [|split]; vm_compute; reflexivity.
Qed.

(** ** The row validator *)

Lemma dict_get_insert_eq (d : pydict) (k : ustr) (v : pyval) :
  dict_get (<[k := v]> d) k = v.
Proof. unfold dict_get. by rewrite lookup_insert_eq. Qed.

Lemma dict_get_insert_ne (d : pydict) (k k' : ustr) (v : pyval) :
  k ≠ k' -> dict_get (<[k := v]> d) k' = dict_get d k'.
Proof. intros H. unfold dict_get. by rewrite lookup_insert_ne. Qed.

(** Two different literal keys. *)
Ltac key_neq := let H := fresh in intros H; vm_compute in H; discriminate H.

Ltac dict_step :=
  match goal with
  | |- context [ dict_get (<[?k := ?v]> ?m) ?k' ] =>
      first [ constr_eq k k'; rewrite (dict_get_insert_eq m k v)
            | rewrite (dict_get_insert_ne m k k' v) by key_neq ]
  | |- context [ <[?k := ?v]> ?m !! ?k' ] =>
      first [ constr_eq k k'; rewrite (lookup_insert_eq m k v)
            | rewrite (lookup_insert_ne m k k' v) by key_neq ]
  end.

Ltac dict_simpl := repeat dict_step.

Lemma copy_fields_lookup (row : pydict) (field : ustr) :
  field ∈ REQUIRED_FIELDS -> copy_fields row !! field = Some (dict_get row field).
Proof.
  unfold REQUIRED_FIELDS. rewrite !elem_of_cons, elem_of_nil.
  intros H. repeat destruct H as [H | H]; try done; subst field;
    unfold copy_fields; cbn [List.fold_left REQUIRED_FIELDS]; by dict_simpl.
Qed.

Lemma copy_fields_dom (row : pydict) : dom (copy_fields row) = list_to_set REQUIRED_FIELDS.
Proof.
  unfold copy_fields. cbn [List.fold_left REQUIRED_FIELDS list_to_set].
  rewrite !dom_insert_L, dom_empty_L. set_solver.
Qed.

Lemma clean_row_unfold (row : pydict) :
  clean_row row =
    <[u "loaner_adhar" := clean_adhar (dict_get row (u "loaner_adhar"))]>
      (<[u "mobile_no" := clean_mobile (dict_get row (u "mobile_no"))]>
         (<[u "total_amount" := clean_amount (dict_get row (u "total_amount"))]>
            (copy_fields row))).
Proof.
  unfold clean_row. cbv zeta. fold (copy_fields row).
  assert (Ha : dict_get (copy_fields row) (u "total_amount") = dict_get row (u "total_amount")).
  { unfold dict_get at 1. by rewrite copy_fields_lookup by by_compute. }
  assert (Hm : copy_fields row !! u "mobile_no" = Some (dict_get row (u "mobile_no")))
    by (apply copy_fields_lookup; by_compute).
  assert (Hd : copy_fields row !! u "loaner_adhar" = Some (dict_get row (u "loaner_adhar")))
    by (apply copy_fields_lookup; by_compute).
  assert (Ht : copy_fields row !! u "total_amount" = Some (dict_get row (u "total_amount")))
    by (apply copy_fields_lookup; by_compute).
  rewrite Ha.
  set (base := copy_fields row) in *.
  set (a := dict_get row (u "total_amount")) in *.
  set (m := dict_get row (u "mobile_no")) in *.
  set (d := dict_get row (u "loaner_adhar")) in *.
  assert (E1 : (if negb (is_none a)
                then match py_float a with
                     | Some f => <[u "total_amount" := VFloat f]> base
                     | None => <[u "total_amount" := VNone]> base
                     end
                else base) = <[u "total_amount" := clean_amount a]> base).
  { unfold clean_amount. destruct (is_none a) eqn:En; simpl.
    - destruct a; try done. symmetry. by apply insert_id.
    - by destruct (py_float a). }
  rewrite E1. clear E1.
  set (b1 := <[u "total_amount" := clean_amount a]> base).
  assert (Hm1 : dict_get b1 (u "mobile_no") = m).
  { unfold b1, dict_get. rewrite lookup_insert_ne by key_neq. by rewrite Hm. }
  rewrite Hm1.
  assert (E2 : (if py_truthy m
                then if negb (match_mobile (py_str m))
                     then <[u "mobile_no" := VNone]> b1 else b1
                else b1) = <[u "mobile_no" := clean_mobile m]> b1).
  { unfold clean_mobile.
    assert (Hid : <[u "mobile_no" := m]> b1 = b1).
    { apply insert_id. unfold b1. by rewrite lookup_insert_ne by key_neq. }
    destruct (py_truthy m), (match_mobile (py_str m)); simpl; by rewrite ?Hid. }
  rewrite E2. clear E2.
  set (b2 := <[u "mobile_no" := clean_mobile m]> b1).
  assert (Hd2 : b2 !! u "loaner_adhar" = Some d).
  { unfold b2, b1. by rewrite !lookup_insert_ne by key_neq. }
  assert (Hd1 : dict_get b2 (u "loaner_adhar") = d) by (unfold dict_get; by rewrite Hd2).
  rewrite Hd1.
  unfold clean_adhar.
  assert (Hid : <[u "loaner_adhar" := d]> b2 = b2) by by apply insert_id.
  destruct (py_truthy d), (match_adhar (py_str d)); simpl; by rewrite ?Hid.
Qed.

Lemma validator_keeps_falsy_mobile :
  ~ nulls_unless_mobile row_blank_mobile
  /\ ~ nulls_unless_mobile row_zero_mobile
  /\ dict_get (clean_row row_blank_mobile) (u "mobile_no") = VStr []
  /\ dict_get (clean_row row_zero_mobile) (u "mobile_no") = VInt 0.
Proof.
  unfold nulls_unless_mobile.
  repeat split; try (vm_compute; reflexivity); intros H; vm_compute in H; discriminate H.
Qed.

Lemma clean_row_mobile (row : pydict) :
  dict_get (clean_row row) (u "mobile_no") = clean_mobile (dict_get row (u "mobile_no")).
Proof. rewrite clean_row_unfold. by dict_simpl. Qed.

Lemma clean_row_adhar (row : pydict) :
  dict_get (clean_row row) (u "loaner_adhar") = clean_adhar (dict_get row (u "loaner_adhar")).
Proof. rewrite clean_row_unfold. by dict_simpl. Qed.

(** C4, amended.  The validator is a total function of the row.  A cleaned
    row has exactly the 7 fields as keys.  Its amount is [None] when the
    amount of the row is [None] or absent, the float [float(v)] when that
    conversion succeeds, and [None] when it fails.  Its mobile number is
    [None] when the value of the row is true as a condition and its text
    does not match [^[6-9][0-9]{9}$]; a value that is false as a condition
    ([None], the empty text, 0, 0.0, [False]) or whose text matches is kept
    unchanged; likewise for the identity number and [^[0-9]{12}$].  Every
    other field holds the value of the row, [None] when absent. *)
Theorem validator_spec (row : pydict) :
  dom (clean_row row) = list_to_set REQUIRED_FIELDS
  /\ dict_get (clean_row row) (u "total_amount")
       = clean_amount (dict_get row (u "total_amount"))
  /\ dict_get (clean_row row) (u "mobile_no")
       = clean_mobile (dict_get row (u "mobile_no"))
  /\ dict_get (clean_row row) (u "loaner_adhar")
       = clean_adhar (dict_get row (u "loaner_adhar"))
  /\ (forall field, field ∈ [u "loaner_id"; u "fullname"; u "total_land"; u "descrition"] ->
        clean_row row !! field = Some (dict_get row field))
  /\ (forall data_list, validate_and_clean data_list = clean_row <$> data_list).
Proof.
  rewrite clean_row_unfold. split; [|split; [|split; [|split; [|split]]]].
  - rewrite !dom_insert_L, copy_fields_dom.
    cbn [REQUIRED_FIELDS list_to_set]. set_solver.
  - by dict_simpl.
  - by dict_simpl.
  - by dict_simpl.
  - intros field. rewrite !elem_of_cons, elem_of_nil.
    intros H. repeat destruct H as [H | H]; try done; subst field;
      dict_simpl; apply copy_fields_lookup; by_compute.
  - reflexivity.
Qed.

(** The examples of the specification; and an amount with blanks around
    it, one that ends with a separator that [float] does not ignore, and a
    timestamp. *)
Example validator_examples :
  clean_mobile (VStr (u "12345")) = VNone
  /\ clean_mobile (VStr (u "9123456789")) = VStr (u "9123456789")
  /\ clean_adhar (VStr (u "123")) = VNone
  /\ clean_amount (VStr (u "abc")) = VNone
  /\ clean_amount (VStr (u "50000")) = VFloat (Float.of_Z 50000)
  /\ clean_amount (VStr (u " 50000 ")) = VFloat (Float.of_Z 50000)
  /\ clean_amount (VStr (u "1" ++ [31%N])) = VNone
  /\ clean_amount (VOther (u "2024-01-05 00:00:00") true false) = VNone.
Proof. repeat split; vm_compute; reflexivity. Qed.

Lemma validator_spec_witness :
  clean_row row_zero_mobile !! u "fullname" = Some (dict_get row_zero_mobile (u "fullname")).
Proof.
  refine (proj1 (proj2 (proj2 (proj2 (proj2 (validator_spec row_zero_mobile)))))
            (u "fullname") _).
  by_compute.
Defined.

(** ** The identifier reconciler *)

Lemma ustr_of_uint_inj (d d' : Decimal.uint) :
  ustr_of_uint d = ustr_of_uint d' -> d = d'.
Proof.
  revert d'. induction d; intros d' H; destruct d'; simpl in H;
    try discriminate H; try reflexivity; f_equal; apply IHd; by inversion H.
Qed.

Lemma zero_pad_uint (k : nat) (d : Decimal.uint) :
  List.repeat 48%N k ++ ustr_of_uint d = ustr_of_uint (Nat.iter k Decimal.D0 d).
Proof. induction k as [|k IH]; simpl; [done|]. by rewrite IH. Qed.

Lemma of_uint_leading_zeros (k : nat) (d : Decimal.uint) :
  N.of_uint (Nat.iter k Decimal.D0 d) = N.of_uint d.
Proof. induction k as [|k IH]; simpl; [done|]. exact IH. Qed.

Lemma zero_pad_inj (width : nat) (n m : N) :
  zero_pad width (str_of_N n) = zero_pad width (str_of_N m) -> n = m.
Proof.
  unfold zero_pad, str_of_N. rewrite !zero_pad_uint. intros H.
  apply ustr_of_uint_inj in H.
  apply (f_equal N.of_uint) in H.
  by rewrite !of_uint_leading_zeros, !DecimalN.Unsigned.of_to in H.
Qed.

Lemma zero_pad_length (width : nat) (s : ustr) :
  length (zero_pad width s) = Nat.max width (length s).
Proof. unfold zero_pad. rewrite List.length_app, List.repeat_length. lia. Qed.

Lemma format_04d_nonneg (z : Z) :
  (0 <= z)%Z -> format_04d z = zero_pad 4 (str_of_Z z).
Proof. intros Hz. destruct z; [done | done | lia]. Qed.

Lemma auto_id_inj (tag : ustr) (i j : Z) :
  (0 <= i)%Z -> (0 <= j)%Z -> auto_id i tag = auto_id j tag -> i = j.
Proof.
  intros Hi Hj H. unfold auto_id in H.
  apply app_inv_head, app_inv_head in H.
  rewrite !format_04d_nonneg in H by done.
  assert (Hs : forall z, (0 <= z)%Z -> str_of_Z z = str_of_N (Z.to_N z))
    by (intros z Hz; destruct z; [done | done | lia]).
  rewrite !Hs in H by done. apply zero_pad_inj in H. lia.
Qed.

(** What the conversions ask of a digit 0 to 9. *)
Lemma ascii_digit_facts (c : N) :
  is_ascii_digit c = true ->
  is_space c = false /\ Float.is_float_space c = false
  /\ is_ascii_upper c = false /\ c ≠ 45%N /\ c ≠ 43%N /\ c ≠ 105%N /\ c ≠ 110%N.
Proof.
  intros H.
  assert (Hc : (c < 128)%N).
  { unfold is_ascii_digit, in_range in H. apply andb_true_iff in H as [_ H].
    apply N.leb_le in H. lia. }
  assert (A : implb (is_ascii_digit c)
                (negb (is_space c) && negb (Float.is_float_space c)
                 && negb (is_ascii_upper c) && negb (c =? 45)%N && negb (c =? 43)%N
                 && negb (c =? 105)%N && negb (c =? 110)%N) = true).
  { clear H. revert c Hc. apply ascii_forall. vm_compute. reflexivity. }
  rewrite H in A. cbn [implb] in A.
  repeat (apply andb_true_iff in A as [A ?]).
  repeat match goal with
         | H : negb _ = true |- _ => apply negb_true_iff in H
         | H : (_ =? _)%N = false |- _ => apply N.eqb_neq in H
         end.
  done.
Qed.

Lemma parse_sign_digit (c : N) (r : ustr) :
  is_ascii_digit c = true -> Float.parse_sign (c :: r) = (false, c :: r).
Proof.
  intros H. destruct (ascii_digit_facts c H) as (_ & _ & _ & H45 & H43 & _).
  unfold Float.parse_sign.
  destruct c as [|p]; [done|].
  do 6 (destruct p as [p|p|]; try done).
Qed.

(** A run of digits 0 to 9 is read as such up to a dot or the end. *)
Lemma digitpart_digits (ds rest : ustr) (b : bool) :
  List.forallb is_ascii_digit ds = true ->
  match rest with [] => True | c :: _ => c = 46%N end ->
  Float.digitpart b (ds ++ rest) = (List.map (fun c => (c - 48)%N) ds, rest).
Proof.
  intros Hd Hr. revert b. induction ds as [|c ds IH]; intros b.
  - destruct rest as [|x rest]; [done|]. subst x. reflexivity.
  - cbn [List.forallb] in Hd. apply andb_true_iff in Hd as [Hc Hd].
    change ((c :: ds) ++ rest) with (c :: (ds ++ rest)). cbn [Float.digitpart].
    rewrite (ascii_digit_value c Hc). by rewrite (IH Hd).
Qed.

Lemma digits_to_N_app (a b : list N) (acc : N) :
  List.fold_left (fun acc d => (10 * acc + d)%N) (a ++ b) acc
  = List.fold_left (fun acc d => (10 * acc + d)%N) b
      (List.fold_left (fun acc d => (10 * acc + d)%N) a acc).
Proof. apply List.fold_left_app. Qed.

Lemma digits_to_N_value (ds : ustr) :
  List.forallb is_ascii_digit ds = true ->
  Float.digits_to_N (List.map (fun c => (c - 48)%N) ds) = digits_value ds.
Proof.
  unfold Float.digits_to_N, digits_value.
  assert (H : forall acc, List.forallb is_ascii_digit ds = true ->
            List.fold_left (fun acc d => (10 * acc + d)%N)
              (List.map (fun c => (c - 48)%N) ds) acc
            = List.fold_left (fun acc c => (10 * acc + default 0 (decimal_value c))%N) ds acc);
    [|apply H].
  induction ds as [|c ds IH]; intros acc Hd; [done|].
  cbn [List.forallb] in Hd. apply andb_true_iff in Hd as [Hc Hd].
  cbn [List.map List.fold_left]. rewrite (ascii_digit_value c Hc). cbn [default].
  by apply IH.
Qed.

(** [float] of a run of digits followed by [.0]. *)
Lemma of_str_digits_dot0 (ds : ustr) :
  ds ≠ [] -> List.forallb is_ascii_digit ds = true ->
  Float.of_str (ds ++ u ".0")
  = Some (Float.of_decimal false (10 * digits_value ds) (-1))
  /\ Float.of_str (45%N :: ds ++ u ".0")
     = Some (Float.of_decimal true (10 * digits_value ds) (-1)).
Proof.
  intros Hne Hd.
  destruct ds as [|c ds]; [done|]. clear Hne.
  assert (Hc : is_ascii_digit c = true) by (by apply andb_true_iff in Hd as [Hc _]).
  destruct (ascii_digit_facts c Hc) as (_ & Hfs & Hup & _ & _ & Hi & Hn).
  set (text := (c :: ds) ++ u ".0").
  assert (Hnum : forall neg, Float.parse_number neg text
                 = Some (Float.of_decimal neg (10 * digits_value (c :: ds)) (-1))).
  { intros neg. unfold Float.parse_number, text.
    rewrite (digitpart_digits (c :: ds) (u ".0") false Hd eq_refl).
    change (u ".0") with (46%N :: [48%N]).
    change (Float.digitpart false [48%N]) with ([0%N], @nil N).
    cbn [List.map]. cbn [Float.parse_exponent].
    change (Z.of_nat (length [0%N])) with 1%Z. change (0 - 1)%Z with (-1)%Z.
    do 2 f_equal.
    change ((c - 48)%N :: List.map (fun c0 => (c0 - 48)%N) ds)
      with (List.map (fun c0 => (c0 - 48)%N) (c :: ds)).
    unfold Float.digits_to_N. rewrite digits_to_N_app. cbn [List.fold_left].
    fold (Float.digits_to_N (List.map (fun c0 => (c0 - 48)%N) (c :: ds))).
    rewrite (digits_to_N_value (c :: ds) Hd). lia. }
  assert (Hname : forall name, match name with x :: _ => x = 105%N \/ x = 110%N | [] => True end ->
            name ≠ [] -> ustr_eqb (Float.lower_ascii text) name = false).
  { intros name Hx Hne. unfold ustr_eqb. apply bool_decide_eq_false.
    unfold text. cbn [app List.map Float.lower_ascii]. rewrite Hup.
    destruct name as [|x name]; [done|]. intros E. inversion E; subst x.
    destruct Hx; done. }
  assert (Hlast : match List.rev text with x :: _ => Float.is_float_space x = false | [] => True end).
  { unfold text. rewrite List.rev_app_distr. reflexivity. }
  assert (Hinf : ustr_eqb (Float.lower_ascii text) (u "inf") = false)
    by (apply Hname; [left; reflexivity | discriminate]).
  assert (Hinfinity : ustr_eqb (Float.lower_ascii text) (u "infinity") = false)
    by (apply Hname; [left; reflexivity | discriminate]).
  assert (Hnan : ustr_eqb (Float.lower_ascii text) (u "nan") = false)
    by (apply Hname; [right; reflexivity | discriminate]).
  split.
  - unfold Float.of_str.
    rewrite (strip_with_fixed Float.is_float_space text); [|exact Hfs | exact Hlast].
    unfold text at 1. change ((c :: ds) ++ u ".0") with (c :: (ds ++ u ".0")).
    rewrite (parse_sign_digit c _ Hc). change (c :: ds ++ u ".0") with text.
    rewrite Hinf, Hinfinity, Hnan. exact (Hnum false).
  - unfold Float.of_str.
    rewrite (strip_with_fixed Float.is_float_space (45%N :: text)); [|done|].
    2:{ cbn [List.rev]. destruct (List.rev text) as [|x r] eqn:E; [|exact Hlast].
        apply (f_equal (@length N)) in E. rewrite List.length_rev in E. done. }
    cbn [Float.parse_sign].
    rewrite Hinf, Hinfinity, Hnan. exact (Hnum true).
Qed.

(** The reconciler on a whole number written with a trailing [.0]: up to
    [2^53] the result is the number itself, written without leading zeros
    (and with its sign, when it is not zero). *)
Lemma ensure_id_whole_number (ds : ustr) (index : Z) (batch_tag : ustr) :
  ds ≠ [] -> List.forallb is_ascii_digit ds = true ->
  (digits_value ds <= 2 ^ 53)%N ->
  _ensure_loaner_id (VStr (ds ++ u ".0")) index batch_tag = str_of_N (digits_value ds)
  /\ _ensure_loaner_id (VStr (45%N :: ds ++ u ".0")) index batch_tag
     = if (digits_value ds =? 0)%N then u "0" else 45%N :: str_of_N (digits_value ds).
Proof.
  intros Hne Hd Hn.
  destruct (of_str_digits_dot0 ds Hne Hd) as [Hpos Hneg].
  assert (Hend : forall pre, endswith (u ".0") (pre ++ ds ++ u ".0") = true).
  { intros pre. unfold endswith, startswith. rewrite !List.rev_app_distr. reflexivity. }
  assert (Hc : exists c r, ds = c :: r /\ is_ascii_digit c = true).
  { destruct ds as [|c r]; [done|]. exists c, r. split; [done|].
    by apply andb_true_iff in Hd as [Hc _]. }
  destruct Hc as (c & r & Eds & Hc).
  destruct (ascii_digit_facts c Hc) as (Hsp & _).
  assert (Hlast : forall pre, match List.rev (pre ++ ds ++ u ".0") with
                              | x :: _ => is_space x = false | [] => True end).
  { intros pre. rewrite !List.rev_app_distr. reflexivity. }
  assert (Hint : forall neg, Float.to_int (Float.of_decimal neg (10 * digits_value ds) (-1))
            = Some (if neg then (- Z.of_N (digits_value ds))%Z else Z.of_N (digits_value ds))).
  { intros neg. destruct (digits_value ds) as [|p] eqn:Ev.
    - by destruct neg.
    - change (10 * N.pos p)%N with (N.pos (10 * p)).
      rewrite of_decimal_tenths_le; [done|].
      change (2 ^ 53)%Z with (Z.of_N (2 ^ 53)). lia. }
  assert (Hs1 : strip (ds ++ u ".0") = ds ++ u ".0").
  { apply strip_with_fixed; [rewrite Eds; exact Hsp | exact (Hlast [])]. }
  assert (Hs2 : strip (45%N :: ds ++ u ".0") = 45%N :: ds ++ u ".0").
  { apply strip_with_fixed; [reflexivity | exact (Hlast [45%N])]. }
  split.
  - unfold _ensure_loaner_id. cbn [py_str].
    rewrite Hs1. pose proof (Hend []) as He. cbn [app] in He. rewrite He, Hpos, (Hint false).
    rewrite Eds at 1. cbn [app].
    destruct (digits_value ds); reflexivity.
  - unfold _ensure_loaner_id. cbn [py_str].
    rewrite Hs2. pose proof (Hend [45%N]) as He. cbn [app] in He.
    rewrite He, Hneg, (Hint true).
    destruct (digits_value ds); reflexivity.
Qed.

(** The text of 9007199254740993 followed by [.0] is given back as
    9007199254740992: the float nearest to the number is another whole
    number. *)
Lemma ensure_id_rounds_large_integer :
  ~ integer_form_claim (u "9007199254740993")
  /\ _ensure_loaner_id (VStr (u "9007199254740993.0")) 1 (u "X") = u "9007199254740992"
  /\ str_of_N (digits_value (u "9007199254740993")) = u "9007199254740993".
Proof.
  unfold integer_form_claim.
  split; [intros H; vm_compute in H; discriminate H|].
  split; vm_compute; reflexivity.
Qed.

(** C5, amended.  [_ensure_loaner_id]: when the raw identifier is [None], or
    blank once it is written as text and trimmed, the result is ["AUTO"],
    the batch tag and the row index padded with zeros to 4 digits at least
    (for an index that is not negative).  When the trimmed text ends in
    [".0"] the result is the whole part of the float nearest to the number
    the text writes, in decimal, and the trimmed text itself when [float]
    or [int] raises; for a run of digits followed by [".0"] that writes a
    whole number up to [2^53], it is that number without leading zeros,
    with its sign when the text has a minus sign and the number is not
    zero.  Otherwise the result is the trimmed text.  So
    [ensureId("42.0", 1, "X") = "42"], and two synthesized identifiers of
    one batch with different indices differ, in particular for indices
    from 1 to 9999. *)
Theorem ensure_id_spec (value : pyval) (index : Z) (batch_tag : ustr) :
  let text := strip (py_str value) in
  (value = VNone \/ text = [] ->
   _ensure_loaner_id value index batch_tag = u "AUTO" ++ batch_tag ++ format_04d index)
  /\ ((0 <= index)%Z ->
      format_04d index = zero_pad 4 (str_of_Z index)
      /\ (4 <= length (format_04d index))%nat)
  /\ (value ≠ VNone -> text ≠ [] -> endswith (u ".0") text = true ->
      _ensure_loaner_id value index batch_tag =
        match Float.of_str text with
        | Some f => match Float.to_int f with Some z => str_of_Z z | None => text end
        | None => text
        end)
  /\ (forall ds, ds ≠ [] -> List.forallb is_ascii_digit ds = true ->
        (digits_value ds <= 2 ^ 53)%N ->
        _ensure_loaner_id (VStr (ds ++ u ".0")) index batch_tag = str_of_N (digits_value ds)
        /\ _ensure_loaner_id (VStr (45%N :: ds ++ u ".0")) index batch_tag
           = if (digits_value ds =? 0)%N then u "0"
             else 45%N :: str_of_N (digits_value ds))
  /\ (value ≠ VNone -> text ≠ [] -> endswith (u ".0") text = false ->
      _ensure_loaner_id value index batch_tag = text)
  /\ _ensure_loaner_id (VStr (u "42.0")) 1 (u "X") = u "42"
  /\ (forall i j : Z, (1 <= i <= 9999)%Z -> (1 <= j <= 9999)%Z ->
        _ensure_loaner_id VNone i batch_tag = _ensure_loaner_id VNone j batch_tag -> i = j)
  /\ (forall i j : Z, (0 <= i)%Z -> (0 <= j)%Z ->
        auto_id i batch_tag = auto_id j batch_tag -> i = j).
Proof.
  cbv zeta. split; [|split; [|split; [|split; [|split; [|split; [|split]]]]]].
  - intros [-> | Ht]; [done|].
    unfold _ensure_loaner_id. rewrite Ht. by destruct value.
  - intros Hi. split; [by apply format_04d_nonneg|].
    rewrite format_04d_nonneg, zero_pad_length by done. lia.
  - intros Hv Ht He. unfold _ensure_loaner_id. rewrite He.
    destruct value; [done| | | | |]; by destruct (strip _).
  - intros ds. apply ensure_id_whole_number.
  - intros Hv Ht He. unfold _ensure_loaner_id. rewrite He.
    destruct value; [done| | | | |]; by destruct (strip _).
  - vm_compute. reflexivity.
  - intros i j Hi Hj H. apply (auto_id_inj batch_tag); [lia | lia | exact H].
  - apply auto_id_inj.
Qed.

Lemma ensure_id_spec_witness :
  _ensure_loaner_id (VStr (u "   ")) 3 (u "AB12CD34") = u "AUTO" ++ u "AB12CD34" ++ format_04d 3.
Proof.
  refine (proj1 (ensure_id_spec (VStr (u "   ")) 3 (u "AB12CD34")) _).
  right. vm_compute. reflexivity.
Defined.

(** Further values of the reconciler: the example of the specification, a
    float cell, leading zeros, a sign, a text that is no number, an
    integer too large for a float to hold exactly, the last one a float
    holds, a number too large for a float (for which [int] raises), and a
    missing timestamp. *)
Example ensure_id_examples :
  _ensure_loaner_id VNone 3 (u "AB12CD34") = u "AUTOAB12CD340003"
  /\ _ensure_loaner_id (VFloat (Float.of_Z 42)) 1 (u "X") = u "42"
  /\ _ensure_loaner_id (VStr (u " 007.0 ")) 1 (u "X") = u "7"
  /\ _ensure_loaner_id (VStr (u "-3.0")) 1 (u "X") = u "-3"
  /\ _ensure_loaner_id (VStr (u "LN-7.0")) 1 (u "X") = u "LN-7.0"
  /\ _ensure_loaner_id (VStr (u "LN-102")) 1 (u "X") = u "LN-102"
  /\ _ensure_loaner_id (VStr (u "9007199254740993.0")) 1 (u "X") = u "9007199254740992"
  /\ _ensure_loaner_id (VStr (u "9007199254740992.0")) 1 (u "X") = u "9007199254740992"
  /\ _ensure_loaner_id (VStr (u "-0.0")) 1 (u "X") = u "0"
  /\ _ensure_loaner_id (VStr (List.repeat 57%N 400 ++ u ".0")) 1 (u "X")
     = List.repeat 57%N 400 ++ u ".0"
  /\ _ensure_loaner_id (VOther (u "NaT") true true) 1 (u "X") = u "NaT"
  /\ _ensure_loaner_id VNone 12345 (u "X") = u "AUTOX12345".
Proof. repeat split; vm_compute; reflexivity. Qed.

Lemma ensure_id_text_only (s : ustr) (index index' : Z) (batch_tag batch_tag' : ustr) :
  strip s ≠ [] ->
  _ensure_loaner_id (VStr s) index batch_tag = _ensure_loaner_id (VStr s) index' batch_tag'.
Proof. intros H. unfold _ensure_loaner_id. cbn [py_str]. by destruct (strip s). Qed.

(** ** The sort key *)

Lemma group2_value (ds : ustr) : digits_value (group2 ds) = digits_value ds.
Proof.
  induction ds as [|c ds IH]; [done|].
  destruct (decide (c = 48%N)) as [->|Hne].
  - destruct ds as [|d ds]; [done|].
    change (group2 (48%N :: d :: ds)) with (group2 (d :: ds)).
    rewrite IH. reflexivity.
  - assert (E : group2 (c :: ds) = c :: ds).
    { destruct c as [|p]; [done|].
      do 6 (destruct p as [p|p|]; try done). }
    by rewrite E.
Qed.

Lemma match_sort_pattern_complete (text pre digits : ustr) :
  prefixed_number text pre digits ->
  match_sort_pattern text = Some (pre, group2 digits).
Proof.
  intros (-> & Hp & Hne & Hd). unfold match_sort_pattern.
  destruct (take_while_app is_ascii_alpha pre digits Hp) as [-> ->].
  { destruct digits as [|c ds]; [done|]. simpl in Hd.
    apply andb_true_iff in Hd as [Hc _]. by apply digit_not_alpha. }
  destruct (take_while_app is_ascii_digit digits [] Hd I) as [Ht Hr].
  rewrite List.app_nil_r in Ht, Hr. rewrite Ht, Hr.
  by destruct digits.
Qed.

Lemma match_sort_pattern_sound (loaner_id : pyval) (g1 g2 : ustr) :
  match_sort_pattern (id_text loaner_id) = Some (g1, g2) ->
  exists digits, prefixed_number (id_text loaner_id) g1 digits /\ g2 = group2 digits.
Proof.
  unfold match_sort_pattern.
  set (text := id_text loaner_id).
  set (rest := drop_while is_ascii_alpha text).
  assert (Htext : text = take_while is_ascii_alpha text ++ rest)
    by (symmetry; apply take_drop_while).
  assert (Hrest : rest = take_while is_ascii_digit rest ++ drop_while is_ascii_digit rest)
    by (symmetry; apply take_drop_while).
  assert (Hdig : List.forallb is_ascii_digit (take_while is_ascii_digit rest) = true)
    by apply take_while_forallb.
  destruct (take_while is_ascii_digit rest) as [|d ds] eqn:Ed; [done|].
  destruct (drop_while is_ascii_digit rest) as [|x tail] eqn:Et.
  - cbn [at_dollar]. intros H. inversion H; subst g1 g2. exists (d :: ds).
    split; [|done]. rewrite List.app_nil_r in Hrest.
    split; [by rewrite <- Hrest|].
    split; [apply take_while_forallb|]. by split.
  - destruct (at_dollar (x :: tail)) eqn:Hd; [|done]. intros _. exfalso.
    assert (Hx : x :: tail = [10%N]).
    { destruct x as [|px]; [done|].
      do 4 (destruct px as [px|px|]; try done). by destruct tail. }
    rewrite Hx in Hrest. rewrite Hrest in Htext.
    rewrite List.app_assoc in Htext.
    unfold text, id_text in Htext. destruct loaner_id.
    + by destruct (take_while _ _).
    + by apply strip_with_last in Htext.
    + by apply strip_with_last in Htext.
    + by apply strip_with_last in Htext.
    + by apply strip_with_last in Htext.
    + by apply strip_with_last in Htext.
Qed.

Lemma group2_length (ds : ustr) : (length (group2 ds) <= length ds)%nat.
Proof.
  induction ds as [|c ds IH]; [done|].
  destruct (decide (c = 48%N)) as [->|Hne].
  - destruct ds as [|d ds]; [done|].
    change (group2 (48%N :: d :: ds)) with (group2 (d :: ds)). simpl in *. lia.
  - assert (E : group2 (c :: ds) = c :: ds).
    { destruct c as [|p]; [done|].
      do 6 (destruct p as [p|p|]; try done). }
    by rewrite E.
Qed.

Lemma int_digits_ok_small (max_str_digits ndigits : nat) :
  (ndigits <= 640)%nat \/ max_str_digits = 0%nat \/ (ndigits <= max_str_digits)%nat ->
  int_digits_ok max_str_digits ndigits = true.
Proof.
  intros H. unfold int_digits_ok. apply negb_true_iff.
  destruct (Nat.ltb_spec 640 ndigits); [|done].
  destruct (Nat.ltb_spec 0 max_str_digits); [|done].
  destruct (Nat.ltb_spec max_str_digits ndigits); [lia | done].
Qed.

(** An identifier of 4301 digits is of the form the claim speaks of, and
    has no key when [int] reads 4300 digits at most: [int] raises. *)
Lemma sort_key_digit_limit :
  prefixed_number (id_text (VStr long_digit_id)) [] long_digit_id
  /\ _loaner_sort_key default_max_str_digits (VStr long_digit_id) = None.
Proof.
  split; [|vm_compute; reflexivity].
  split; [vm_compute; reflexivity|]. split; [done|].
  split; [discriminate | vm_compute; reflexivity].
Qed.

(** C6, amended.  The sort key is computed from the identifier written as
    text and trimmed (the empty text for [None]).  When that text is a run
    of letters, possibly empty, followed by a run of at least one digit,
    and the digits left after the leading zeros are within what [int]
    reads, the key is (0, the letters in lower case, the number the digits
    write, leading zeros ignored, the text in lower case); beyond that
    limit [int] raises and there is no key.  The limit is never met by 640
    digits or fewer, nor when no limit is set.  For any other text the
    key is (1, the text in lower case, 0, the text in lower case).  Sorting
    the example list by the key gives 2, 10, A2, B2, TEMP1: the
    identifiers are grouped by prefix and ordered by number, and TEMP1
    comes last. *)
Theorem sort_key_spec (max_str_digits : nat) (loaner_id : pyval) :
  let text := id_text loaner_id in
  (forall pre digits, prefixed_number text pre digits ->
     _loaner_sort_key max_str_digits loaner_id =
       if int_digits_ok max_str_digits (length (group2 digits))
       then Some {| key_class := 0; key_prefix := lower pre;
                    key_num := Z.of_N (digits_value digits); key_text := lower text |}
       else None)
  /\ (forall digits,
        (length digits <= 640)%nat \/ max_str_digits = 0%nat
        \/ (length digits <= max_str_digits)%nat ->
        int_digits_ok max_str_digits (length (group2 digits)) = true)
  /\ ((~ exists pre digits, prefixed_number text pre digits) ->
      _loaner_sort_key max_str_digits loaner_id =
        Some {| key_class := 1; key_prefix := lower text; key_num := 0;
                key_text := lower text |})
  /\ sorted_by_key max_str_digits
       [VStr (u "B2"); VStr (u "10"); VStr (u "A2"); VStr (u "2"); VStr (u "TEMP1")]
     = Some [VStr (u "2"); VStr (u "10"); VStr (u "A2"); VStr (u "B2"); VStr (u "TEMP1")].
Proof.
  cbv zeta. split; [|split; [|split]].
  - intros pre digits H. unfold _loaner_sort_key. fold (id_text loaner_id).
    rewrite (match_sort_pattern_complete _ _ _ H). by rewrite group2_value.
  - intros digits H. apply int_digits_ok_small.
    pose proof (group2_length digits). lia.
  - intros Hno. unfold _loaner_sort_key. fold (id_text loaner_id).
    destruct (match_sort_pattern (id_text loaner_id)) as [[g1 g2]|] eqn:E; [|done].
    exfalso. apply Hno. apply match_sort_pattern_sound in E as (digits & H & _).
    by exists g1, digits.
  - vm_compute. reflexivity.
Qed.

Lemma sort_key_spec_witness :
  _loaner_sort_key default_max_str_digits (VStr (u " Ab007 ")) =
    Some {| key_class := 0; key_prefix := u "ab"; key_num := 7; key_text := u "ab007" |}.
Proof.
  refine (proj1 (sort_key_spec default_max_str_digits (VStr (u " Ab007 ")))
            (u "Ab") (u "007") _).
  vm_compute. repeat split. discriminate.
Defined.

(** The keys of the example list, and of an identifier whose letters are
    not all ASCII. *)
Example sort_key_examples :
  _loaner_sort_key default_max_str_digits (VStr (u "TEMP1")) =
    Some {| key_class := 0; key_prefix := u "temp"; key_num := 1; key_text := u "temp1" |}
  /\ _loaner_sort_key default_max_str_digits (VStr (u "10")) =
    Some {| key_class := 0; key_prefix := []; key_num := 10; key_text := u "10" |}
  /\ _loaner_sort_key default_max_str_digits (VStr (u "LN-102")) =
    Some {| key_class := 1; key_prefix := u "ln-102"; key_num := 0; key_text := u "ln-102" |}
  /\ _loaner_sort_key default_max_str_digits VNone =
    Some {| key_class := 1; key_prefix := []; key_num := 0; key_text := [] |}
  /\ _loaner_sort_key default_max_str_digits (VStr [196%N; 49%N]) =
    Some {| key_class := 1; key_prefix := [228%N; 49%N]; key_num := 0;
            key_text := [228%N; 49%N] |}
  /\ _loaner_sort_key 0 (VStr long_digit_id) =
    Some {| key_class := 0; key_prefix := [];
            key_num := Z.of_N (digits_value long_digit_id);
            key_text := long_digit_id |}.
Proof. repeat split; vm_compute; reflexivity. Qed.

(** ** Rejection of an upload that cannot be mapped *)

Lemma classify_row_None (idx : nat) (row : list pyval) :
  classify_row idx row = None <-> row_values row = [].
Proof. unfold classify_row. by destruct (row_values row). Qed.

Lemma classify_rows_nil (idx : nat) (rows : list (list pyval)) :
  classify_rows idx rows = [] <-> Forall (fun row => row_values row = []) rows.
Proof.
  revert idx. induction rows as [|row rows IH]; intros idx; cbn [classify_rows].
  - split; [constructor | done].
  - destruct (classify_row idx row) as [inf|] eqn:E.
    + split; [done|]. intros H. apply Forall_cons in H as [H _].
      apply (classify_row_None idx) in H. congruence.
    + rewrite IH. apply classify_row_None in E. split.
      * intros H. by constructor.
      * intros H. by apply Forall_cons in H as [_ H].
Qed.

Lemma extract_rows_by_content_None (df : DataFrame) :
  _extract_rows_by_content df = None
  <-> Forall (fun row => row_values row = []) (rows (dropna_all df)).
Proof.
  unfold _extract_rows_by_content. rewrite <- (classify_rows_nil 1).
  by destruct (classify_rows 1 (rows (dropna_all df))).
Qed.

Lemma extract_rows_by_content_nonempty (df : DataFrame) :
  _extract_rows_by_content df ≠ Some [].
Proof.
  unfold _extract_rows_by_content.
  by destruct (classify_rows 1 (rows (dropna_all df))).
Qed.

(** C7.  When the direct mapper returns nothing for the loaded sheet and
    the content classifier, which drops the rows that are entirely empty,
    yields no row, the upload answers with the HTTP error 400 whose detail
    lists the 7 required fields and the normalized labels of the columns
    found; the only call made on the storage session is the rollback, so
    no row is added.  The classifier yields no row exactly when every row
    left after dropping the empty ones has only blank values, and it then
    returns nothing, never an empty list. *)
Theorem unmappable_upload_rejected
    (ao : ustr -> list ustr) (read_excel : list Byte.byte -> header_arg -> DataFrame + ustr)
    (DB : Type) (db_add : DB -> pydict -> DB * add_outcome)
    (db_commit db_rollback : DB -> DB) (db_query : DB -> list pydict)
    (file_bytes : list Byte.byte) (batch_tag : ustr) (db : DB) (df : DataFrame) :
  file_bytes ≠ [] ->
  _load_excel_with_best_header ao read_excel file_bytes = inl df ->
  _extract_direct_rows ao df = None ->
  _extract_rows_by_content df = None ->
  upload_excel ao read_excel DB db_add db_commit db_rollback db_query file_bytes batch_tag db
    = (HTTPException 400 (unmappable_detail df), db_rollback db, [EvRollback])
  /\ unmappable_detail df =
       u "Excel columns could not be mapped to required fields. "
       ++ u "Required fields: ['loaner_id', 'fullname', 'mobile_no', 'loaner_adhar', "
       ++ u "'total_amount', 'total_land', 'descrition']. "
       ++ u "Detected columns: "
       ++ repr_str_list (List.map _normalize_column_name (columns df))
  /\ Forall (fun row => row_values row = []) (rows (dropna_all df))
  /\ (forall df', _extract_rows_by_content df' ≠ Some []).
Proof.
  intros Hb Hload Hdirect Hcontent. split; [|split; [|split]].
  - unfold upload_excel. destruct file_bytes as [|b bs]; [done|].
    by rewrite Hload, Hdirect, Hcontent.
  - unfold unmappable_detail. cbv zeta.
    generalize (repr_str_list (List.map _normalize_column_name (columns df))).
    intros x. rewrite !List.app_assoc. f_equal.
  - by apply extract_rows_by_content_None.
  - apply extract_rows_by_content_nonempty.
Qed.

Lemma unmappable_upload_rejected_witness :
  upload_excel aliases_of (fun _ _ => inl blank_sheet) unit
      (fun db _ => (db, Inserted)) (fun db => db) (fun db => db) (fun _ => [])
      [Byte.x50; Byte.x4b] (u "AB12CD34") tt
    = (HTTPException 400 (unmappable_detail blank_sheet), tt, [EvRollback]).
Proof.
  refine (proj1 (unmappable_upload_rejected aliases_of (fun _ _ => inl blank_sheet) unit
            (fun db _ => (db, Inserted)) (fun db => db) (fun db => db) (fun _ => [])
            [Byte.x50; Byte.x4b] (u "AB12CD34") tt blank_sheet _ _ _ _)).
  - discriminate.
  - vm_compute. reflexivity.
  - vm_compute. reflexivity.
  - vm_compute. reflexivity.
Defined.

Example unmappable_detail_example :
  unmappable_detail blank_sheet =
    u "Excel columns could not be mapped to required fields. "
    ++ u "Required fields: ['loaner_id', 'fullname', 'mobile_no', 'loaner_adhar', "
    ++ u "'total_amount', 'total_land', 'descrition']. "
    ++ u "Detected columns: ['unnamed_0', 'notes']".
Proof. vm_compute. reflexivity. Qed.

(** ** Rows emitted by the content classifier *)

Lemma validator_nulls_classifier_output :
  _extract_rows_by_content devanagari_sheet = Some [devanagari_row]
  /\ dict_get (clean_row devanagari_row) (u "loaner_adhar") = VNone
  /\ ~ validator_keeps devanagari_row.
Proof.
  split; [vm_compute; reflexivity|]. split; [vm_compute; reflexivity|].
  intros [_ H]. vm_compute in H. discriminate H.
Qed.

Lemma row_inv_insert (d : pydict) (k : ustr) (v : pyval) :
  row_inv d ->
  k ∈ REQUIRED_FIELDS ->
  (k = u "mobile_no" -> stored_mobile v) ->
  (k = u "loaner_adhar" -> stored_adhar v) ->
  (k = u "loaner_id" -> str_or_none v) ->
  row_inv (<[k := v]> d).
Proof.
  intros (Hdom & Hm & Ha & Hi) Hk Hkm Hka Hki. split; [|split; [|split]].
  - rewrite dom_insert_L, Hdom.
    apply subseteq_union_1_L, singleton_subseteq_l. by apply elem_of_list_to_set.
  - destruct (decide (k = u "mobile_no")) as [->|Hne].
    + rewrite dict_get_insert_eq. by apply Hkm.
    + by rewrite dict_get_insert_ne.
  - destruct (decide (k = u "loaner_adhar")) as [->|Hne].
    + rewrite dict_get_insert_eq. by apply Hka.
    + by rewrite dict_get_insert_ne.
  - destruct (decide (k = u "loaner_id")) as [->|Hne].
    + rewrite dict_get_insert_eq. by apply Hki.
    + by rewrite dict_get_insert_ne.
Qed.

(** The side conditions of [row_inv_insert] for a literal key. *)
Ltac other_key := let H := fresh in intros H; vm_compute in H; discriminate H.

Lemma digits_of_decimal (text : ustr) : List.forallb is_decimal (digits_of text) = true.
Proof.
  unfold digits_of. induction text as [|c text IH]; simpl; [done|].
  destruct (is_decimal c) eqn:E; simpl; by rewrite ?E.
Qed.

Lemma row_inv_init :
  row_inv (List.fold_left (fun acc field => <[field := VNone]> acc) REQUIRED_FIELDS ∅).
Proof.
  split; [|split; [|split]].
  - cbn [List.fold_left REQUIRED_FIELDS list_to_set].
    rewrite !dom_insert_L, dom_empty_L. set_solver.
  - left. vm_compute. reflexivity.
  - left. vm_compute. reflexivity.
  - left. vm_compute. reflexivity.
Qed.

Lemma classify_value_inv (st : row_state) (value : pyval) :
  row_inv (inferred st) -> row_inv (inferred (classify_value st value)).
Proof.
  intros Hinv. unfold classify_value.
  set (text := strip (py_str value)).
  repeat match goal with
         | |- context [ if ?b then _ else _ ] => destruct b eqn:?
         end; cbn [inferred set_inferred]; try done.
  - apply row_inv_insert; [done | by_compute | other_key | other_key | other_key].
  - apply row_inv_insert; [done | by_compute | other_key | | other_key].
    intros _. right. exists (digits_of text).
    match goal with H : _ && (_ =? 12)%nat = true |- _ =>
      apply andb_true_iff in H as [_ H]; apply Nat.eqb_eq in H end.
    split; [done|]. split; [done | apply digits_of_decimal].
  - apply row_inv_insert; [done | by_compute | | other_key | other_key].
    intros _. right.
    match goal with H : _ && _ && _ = true |- _ =>
      apply andb_true_iff in H as [H Hc]; apply andb_true_iff in H as [_ Hl];
      apply Nat.eqb_eq in Hl end.
    pose proof (digits_of_decimal text) as Hd.
    destruct (digits_of text) as [|c ds]; [done|].
    by exists c, ds.
  - apply row_inv_insert; [done | by_compute | other_key | other_key |].
    intros _. right. by eexists.
Qed.

Lemma classify_values_inv (values : list pyval) (st : row_state) :
  row_inv (inferred st) -> row_inv (inferred (List.fold_left classify_value values st)).
Proof.
  revert st. induction values as [|v values IH]; intros st H; simpl; [done|].
  by apply IH, classify_value_inv.
Qed.

Lemma assign_text_inv (inf : pydict) (cands : list ustr) :
  row_inv inf -> row_inv (assign_text inf cands).
Proof.
  intros H. unfold assign_text. destruct cands as [|c rest]; [done|].
  assert (H1 : row_inv (<[u "descrition" := VStr (max_by_len c rest)]> inf))
    by (apply row_inv_insert; [done | by_compute | other_key | other_key | other_key]).
  destruct (pick_fullname _ _); [|done].
  apply row_inv_insert; [done | by_compute | other_key | other_key | other_key].
Qed.

Lemma assign_numeric_inv (inf : pydict) (candidate : ustr) :
  row_inv inf -> row_inv (assign_numeric inf candidate).
Proof.
  intros H. unfold assign_numeric.
  destruct (Float.of_str candidate) as [n|]; [|done].
  set (inf1 := if is_none (dict_get inf (u "total_amount")) && Float.geb_Z n 1000
               then <[u "total_amount" := VFloat n]> inf else inf).
  assert (H1 : row_inv inf1).
  { unfold inf1. destruct (_ && _); [|done].
    apply row_inv_insert; [done | by_compute | other_key | other_key | other_key]. }
  destruct (_ && _ && _ && _); [|done].
  destruct (Float.to_int n) as [z|]; [|done].
  apply row_inv_insert; [done | by_compute | other_key | other_key |].
  intros _. right. by eexists.
Qed.

Lemma assign_numerics_inv (cands : list ustr) (inf : pydict) :
  row_inv inf -> row_inv (List.fold_left assign_numeric cands inf).
Proof.
  revert inf. induction cands as [|c cands IH]; intros inf H; simpl; [done|].
  by apply IH, assign_numeric_inv.
Qed.

Lemma classify_row_inv (idx : nat) (row : list pyval) (r : pydict) :
  classify_row idx row = Some r ->
  row_inv r /\ exists s, dict_get r (u "loaner_id") = VStr s.
Proof.
  unfold classify_row. destruct (row_values row) as [|v values]; [done|].
  set (st := List.fold_left classify_value (v :: values) _).
  set (inf := List.fold_left assign_numeric _ _).
  assert (Hinf : row_inv inf).
  { apply assign_numerics_inv, assign_text_inv, classify_values_inv. cbn [inferred].
    apply row_inv_init. }
  intros H. inversion H as [Hr]. clear H.
  destruct (is_none (dict_get inf (u "loaner_id"))) eqn:E.
  - split.
    + apply row_inv_insert; [done | by_compute | other_key | other_key |].
      intros _. right. by eexists.
    + rewrite dict_get_insert_eq. by eexists.
  - split; [done|]. destruct Hinf as (_ & _ & _ & [Hn | Hs]); [|done].
    by rewrite Hn in E.
Qed.

Lemma classify_rows_elem (idx : nat) (rows : list (list pyval)) (r : pydict) :
  r ∈ classify_rows idx rows -> exists i row, classify_row i row = Some r.
Proof.
  revert idx. induction rows as [|row rows IH]; intros idx H; cbn [classify_rows] in H.
  - by apply elem_of_nil in H.
  - destruct (classify_row idx row) as [inf|] eqn:E; [|by eapply IH].
    apply elem_of_cons in H as [-> | H]; [by exists idx, row | by eapply IH].
Qed.

Lemma match_mobile_ascii (c : N) (ds : ustr) :
  length (c :: ds) = 10%nat -> in_range 54 57 c = true ->
  List.forallb is_ascii_digit (c :: ds) = true ->
  match_mobile (c :: ds) = true.
Proof.
  intros Hl Hc Hd. unfold match_mobile. rewrite Hc.
  do 9 (destruct ds as [|? ds]; [discriminate Hl|]).
  destruct ds; [|discriminate Hl].
  cbn [List.forallb] in Hd. repeat (apply andb_true_iff in Hd as [? Hd]).
  cbn [ascii_digits].
  repeat match goal with H : is_ascii_digit _ = true |- _ => rewrite H; clear H end.
  done.
Qed.

Lemma match_adhar_ascii (ds : ustr) :
  length ds = 12%nat -> List.forallb is_ascii_digit ds = true -> match_adhar ds = true.
Proof.
  intros Hl Hd. unfold match_adhar.
  do 12 (destruct ds as [|? ds]; [discriminate Hl|]).
  destruct ds; [|discriminate Hl].
  cbn [List.forallb] in Hd. repeat (apply andb_true_iff in Hd as [? Hd]).
  cbn [ascii_digits].
  repeat match goal with H : is_ascii_digit _ = true |- _ => rewrite H; clear H end.
  done.
Qed.

(** C10, amended.  Every row the content classifier emits has exactly the
    7 fields as keys and a text as [loaner_id], never [None].  Its mobile
    number is [None] or a text of 10 decimal digits in the sense of [\d]
    whose first character is one of 6, 7, 8, 9; its identity number is
    [None] or a text of 12 such digits.  When the stored digits are all
    among 0 to 9 the validator leaves the value unchanged. *)
Theorem classifier_rows_invariant (df : DataFrame) (inferred_rows : list pydict) (r : pydict) :
  _extract_rows_by_content df = Some inferred_rows ->
  r ∈ inferred_rows ->
  dom r = list_to_set REQUIRED_FIELDS
  /\ (exists s, dict_get r (u "loaner_id") = VStr s)
  /\ stored_mobile (dict_get r (u "mobile_no"))
  /\ stored_adhar (dict_get r (u "loaner_adhar"))
  /\ (ascii_digit_text (dict_get r (u "mobile_no")) ->
      dict_get (clean_row r) (u "mobile_no") = dict_get r (u "mobile_no"))
  /\ (ascii_digit_text (dict_get r (u "loaner_adhar")) ->
      dict_get (clean_row r) (u "loaner_adhar") = dict_get r (u "loaner_adhar")).
Proof.
  intros Hrows Hr. unfold _extract_rows_by_content in Hrows.
  assert (Hin : r ∈ classify_rows 1 (rows (dropna_all df))).
  { destruct (classify_rows 1 (rows (dropna_all df))); [done|].
    by inversion Hrows; subst. }
  apply classify_rows_elem in Hin as (i & row & Hc).
  apply classify_row_inv in Hc as [(Hdom & Hm & Ha & _) Hid].
  pose proof (clean_row_mobile r) as Vm. pose proof (clean_row_adhar r) as Va.
  split; [done|]. split; [done|]. split; [done|]. split; [done|]. split.
  - intros Hascii. rewrite Vm. unfold clean_mobile.
    destruct Hm as [Em | (c & ds & Em & Hl & _ & Hc)]; rewrite Em in *; [done|].
    destruct Hascii as [? | (ds' & E & Hd)]; [done|]. inversion E; subst ds'.
    cbn [py_str]. by rewrite (match_mobile_ascii c ds Hl Hc Hd).
  - intros Hascii. rewrite Va. unfold clean_adhar.
    destruct Ha as [Ea | (ds & Ea & Hl & _)]; rewrite Ea in *; [done|].
    destruct Hascii as [? | (ds' & E & Hd)]; [done|]. inversion E; subst ds'.
    cbn [py_str]. rewrite (match_adhar_ascii ds Hl Hd). by destruct (py_truthy _).
Qed.

Lemma classifier_rows_invariant_witness :
  dom example_mapping = list_to_set REQUIRED_FIELDS
  /\ (exists s, dict_get example_mapping (u "loaner_id") = VStr s)
  /\ stored_mobile (dict_get example_mapping (u "mobile_no"))
  /\ stored_adhar (dict_get example_mapping (u "loaner_adhar"))
  /\ (ascii_digit_text (dict_get example_mapping (u "mobile_no")) ->
      dict_get (clean_row example_mapping) (u "mobile_no")
      = dict_get example_mapping (u "mobile_no"))
  /\ (ascii_digit_text (dict_get example_mapping (u "loaner_adhar")) ->
      dict_get (clean_row example_mapping) (u "loaner_adhar")
      = dict_get example_mapping (u "loaner_adhar")).
Proof.
  refine (classifier_rows_invariant {| columns := []; rows := [example_row] |}
            [example_mapping] example_mapping _ _).
  - vm_compute. reflexivity.
  - by_compute.
Defined.

(** ** The payload parser *)

Lemma drop_while_length (p : N -> bool) (s : ustr) :
  (length (drop_while p s) <= length s)%nat.
Proof. induction s as [|c s IH]; simpl; [done|]. destruct (p c); simpl; lia. Qed.

Lemma skip_ws_length (s : ustr) : (length (skip_ws s) <= length s)%nat.
Proof. apply drop_while_length. Qed.

Lemma strip_with_length (p : N -> bool) (s : ustr) :
  (length (strip_with p s) <= length s)%nat.
Proof.
  unfold strip_with. rewrite List.length_rev.
  etransitivity; [apply drop_while_length|]. rewrite List.length_rev.
  apply drop_while_length.
Qed.

Lemma expect_length (c : N) (s r : ustr) :
  expect c s = Some r -> length s = S (length r).
Proof.
  destruct s as [|x s]; simpl; [done|]. destruct (x =? c)%N; [|done].
  intros H. by inversion H.
Qed.

Lemma strip_prefix_length (p s r : ustr) :
  strip_prefix p s = Some r -> length s = (length p + length r)%nat.
Proof.
  revert s. induction p as [|a p IH]; intros s H; simpl in *.
  - by inversion H.
  - destruct s as [|b s]; [done|]. destruct (a =? b)%N; [|done].
    simpl. by rewrite (IH _ H).
Qed.

Lemma string_within_mono (n m : nat) (res : scan ustr) :
  (n <= m)%nat -> string_within n res -> string_within m res.
Proof. intros Hnm. destruct res; simpl; [lia | done | done | done]. Qed.

Lemma scan_within_mono {A : Type} (n m : nat) (res : scan A) :
  (n <= m)%nat -> scan_within n res -> scan_within m res.
Proof. intros Hnm. destruct res; simpl; [lia | done | done | done]. Qed.

Ltac split_string_cases :=
  repeat match goal with
         | |- string_within _ (if ?b then _ else _) => destruct b eqn:?
         | |- string_within _ (match ?l with [] => _ | _ :: _ => _ end) => destruct l eqn:?
         | |- string_within _ (match ?o with Some _ => _ | None => _ end) => destruct o eqn:?
         end.

Lemma scanstring_within (n : nat) :
  forall s acc, (length s <= n)%nat ->
    string_within (length acc + length s) (scanstring s acc).
Proof.
  induction n as [|n IH]; intros s acc Hn.
  - destruct s; [simpl; done | simpl in Hn; lia].
  - destruct s as [|c r]; [simpl; done|].
    cbn [scanstring]. simpl in Hn.
    split_string_cases; subst; try exact I;
      try (cbn [string_within]; rewrite ?List.length_rev; simpl; lia);
      (eapply string_within_mono; [|apply IH]; simpl in *; lia).
Qed.

Lemma scanstring_length (s str rest : ustr) :
  scanstring s [] = Scanned str rest -> (length str + length rest < length s)%nat.
Proof.
  intros H. pose proof (scanstring_within (length s) s [] (le_n _)) as Hw.
  rewrite H in Hw. exact Hw.
Qed.

(** The scanner of strings raises nothing but decoding errors. *)
Lemma scanstring_outcome (s : ustr) :
  match scanstring s [] with
  | Scanned str rest => (length str + length rest < length s)%nat
  | DecodeError _ => True
  | Raised _ | OutOfFuel => False
  end.
Proof. exact (scanstring_within (length s) s [] (le_n _)). Qed.

Lemma scan_literal_within (s : ustr) : atom_within (length s) (scan_literal s).
Proof.
  unfold scan_literal.
  destruct (strip_prefix (u "null") s) eqn:E1;
    [apply strip_prefix_length in E1; simpl in *; split; [done | lia]|].
  destruct (strip_prefix (u "true") s) eqn:E2;
    [apply strip_prefix_length in E2; simpl in *; split; [done | lia]|].
  destruct (strip_prefix (u "false") s) eqn:E3;
    [apply strip_prefix_length in E3; simpl in *; split; [done | lia]|].
  exact I.
Qed.

Lemma scan_constant_within (s : ustr) : atom_within (length s) (scan_constant s).
Proof.
  unfold scan_constant.
  destruct (strip_prefix (u "NaN") s) eqn:E1;
    [apply strip_prefix_length in E1; simpl in *; split; [done | lia]|].
  destruct (strip_prefix (u "Infinity") s) eqn:E2;
    [apply strip_prefix_length in E2; simpl in *; split; [done | lia]|].
  destruct (strip_prefix (u "-Infinity") s) eqn:E3;
    [apply strip_prefix_length in E3; simpl in *; split; [done | lia]|].
  exact I.
Qed.

Lemma match_integer_length (s integer : ustr) :
  match_integer s = Some integer -> (1 <= length integer)%nat /\ (1 <= length s)%nat.
Proof.
  unfold match_integer.
  destruct (expect 45 s) as [r|] eqn:E.
  - apply expect_length in E. destruct r as [|c r]; [done|].
    destruct (c =? 48)%N; [intros H; inversion H; simpl; lia|].
    destruct (in_range 49 57 c); [|done]. intros H; inversion H; simpl; lia.
  - destruct s as [|c r]; [done|].
    destruct (c =? 48)%N; [intros H; inversion H; simpl; lia|].
    destruct (in_range 49 57 c) eqn:Ec; [|done]. intros H; inversion H.
    assert (Hd : is_ascii_digit c = true).
    { unfold in_range, is_ascii_digit in *. apply andb_true_iff in Ec as [Hlo Hhi].
      apply N.leb_le in Hlo, Hhi. unfold in_range.
      apply andb_true_iff. split; apply N.leb_le; lia. }
    cbn [take_while]. rewrite Hd. simpl. lia.
Qed.

Lemma scan_number_within (max_str_digits : nat) (s : ustr) :
  match scan_number max_str_digits s with
  | Some res => value_within (length s) res
  | None => True
  end.
Proof.
  unfold scan_number.
  destruct (match_integer s) as [integer|] eqn:E; [|exact I].
  apply match_integer_length in E as [Hi Hs].
  set (r1 := List.skipn (length integer) s).
  set (frac := match_frac r1). set (r2 := List.skipn (length frac) r1).
  set (exp := match_exp r2). set (r3 := List.skipn (length exp) r2).
  assert (Hlen : (length r3 < length s)%nat).
  { unfold r3, r2, r1. rewrite !List.length_skipn. lia. }
  destruct frac, exp;
    try (destruct (expect 45 integer); cbv zeta iota beta;
         destruct (int_digits_ok _ _); [by split | exact I | by split | exact I]);
    destruct (Float.of_str _); try exact I; by split.
Qed.

Lemma scan_atom_within (max_str_digits : nat) (s : ustr) :
  value_within (length s) (scan_atom max_str_digits s).
Proof.
  unfold scan_atom.
  pose proof (scan_literal_within s) as H1.
  destruct (scan_literal s) as [[v rest]|]; [exact H1|].
  pose proof (scan_number_within max_str_digits s) as H2.
  destruct (scan_number max_str_digits s) as [res|]; [exact H2|].
  pose proof (scan_constant_within s) as H3.
  destruct (scan_constant s) as [[v rest]|]; [exact H3 | exact I].
Qed.

(** The budget suffices: started with more than twice the length of the
    text, the scanner and its two loops end within it and consume text. *)
Lemma scan_fuel_sufficient (max_str_digits : nat) (fuel : nat) :
  (forall depth s, (2 * length s + 1 <= fuel)%nat ->
     scan_within (length s) (scan_once fuel max_str_digits depth s))
  /\ (forall depth s pairs, (2 * length s + 1 <= fuel)%nat ->
        scan_within (length s) (parse_members fuel max_str_digits depth s pairs))
  /\ (forall depth s values, (2 * length s + 2 <= fuel)%nat ->
        scan_within (length s) (parse_items fuel max_str_digits depth s values)).
Proof.
  induction fuel as [|fuel (IHscan & IHmem & IHitems)].
  { split; [|split]; intros; lia. }
  split; [|split].
  - intros depth s Hf. cbn [scan_once]. destruct s as [|c r]; [exact I|]. simpl in Hf.
    destruct (c =? 34)%N.
    { pose proof (scanstring_outcome r) as Hw.
      destruct (scanstring r []); simpl in *; [lia | done | done | done]. }
    destruct (c =? 123)%N.
    { destruct depth as [|depth]; [exact I|].
      pose proof (skip_ws_length r) as Hws.
      destruct (expect 125 (skip_ws r)) as [rest|] eqn:E.
      - apply expect_length in E. simpl. lia.
      - eapply scan_within_mono; [|apply IHmem]; simpl; lia. }
    destruct (c =? 91)%N.
    { destruct depth as [|depth]; [exact I|].
      pose proof (skip_ws_length r) as Hws.
      destruct (expect 93 (skip_ws r)) as [rest|] eqn:E.
      - apply expect_length in E. simpl. lia.
      - eapply scan_within_mono; [|apply IHitems]; simpl; lia. }
    pose proof (scan_atom_within max_str_digits (c :: r)) as Ha.
    destruct (scan_atom max_str_digits (c :: r)); simpl in *; [lia | done | done | done].
  - intros depth s pairs Hf. cbn [parse_members].
    destruct (expect 34 s) as [r|] eqn:E; [|exact I].
    apply expect_length in E.
    pose proof (scanstring_outcome r) as Hw.
    destruct (scanstring r []) as [key r1| | |]; [|exact I|done|done].
    pose proof (skip_ws_length r1) as Hws1.
    destruct (expect 58 (skip_ws r1)) as [r2|] eqn:E2; [|exact I].
    apply expect_length in E2. pose proof (skip_ws_length r2) as Hws2.
    assert (Hs : scan_within (length (skip_ws r2))
                   (scan_once fuel max_str_digits depth (skip_ws r2)))
      by (apply IHscan; lia).
    destruct (scan_once fuel max_str_digits depth (skip_ws r2)) as [value r3| | |];
      [|exact I|exact I|done].
    simpl in Hs. pose proof (skip_ws_length r3) as Hws3.
    destruct (expect 125 (skip_ws r3)) as [rest|] eqn:E3.
    { apply expect_length in E3. simpl. lia. }
    destruct (expect 44 (skip_ws r3)) as [r4|] eqn:E4; [|exact I].
    apply expect_length in E4. pose proof (skip_ws_length r4) as Hws4.
    eapply scan_within_mono; [|apply IHmem]; lia.
  - intros depth s values Hf. cbn [parse_items].
    assert (Hs : scan_within (length s) (scan_once fuel max_str_digits depth s))
      by (apply IHscan; lia).
    destruct (scan_once fuel max_str_digits depth s) as [value r1| | |];
      [|exact I|exact I|done].
    simpl in Hs. pose proof (skip_ws_length r1) as Hws1.
    destruct (expect 93 (skip_ws r1)) as [rest|] eqn:E3.
    { apply expect_length in E3. simpl. lia. }
    destruct (expect 44 (skip_ws r1)) as [r2|] eqn:E4; [|exact I].
    apply expect_length in E4. pose proof (skip_ws_length r2) as Hws2.
    eapply scan_within_mono; [|apply IHitems]; lia.
Qed.

(** [json.loads] always ends within the budget it is given. *)
Lemma loads_total (max_str_digits max_nesting : nat) (s : ustr) :
  loads max_str_digits max_nesting s ≠ LoadsOutOfFuel.
Proof.
  unfold loads, loads_fuel. destruct (startswith _ s); [done|].
  pose proof (skip_ws_length s) as Hws.
  destruct (scan_fuel_sufficient max_str_digits (2 * length s + 2)) as [Hscan _].
  specialize (Hscan max_nesting (skip_ws s)).
  destruct (scan_once _ _ _ (skip_ws s)) as [obj rest| | |];
    [by destruct (skip_ws rest) | done | done |].
  simpl in Hscan. intros _. apply Hscan. lia.
Qed.

(** The loops of objects and arrays never yield a string. *)
Lemma loops_not_str (max_str_digits : nat) (fuel : nat) :
  (forall depth s pairs v rest,
     parse_members fuel max_str_digits depth s pairs = Scanned v rest -> is_str v = false)
  /\ (forall depth s values v rest,
        parse_items fuel max_str_digits depth s values = Scanned v rest -> is_str v = false).
Proof.
  induction fuel as [|fuel [IHm IHi]]; [split; intros; discriminate|].
  split.
  - intros depth s pairs v rest. cbn [parse_members].
    destruct (expect 34 s); [|done]. destruct (scanstring _ _); [|done|done|done].
    destruct (expect 58 _); [|done]. destruct (scan_once _ _ _ _); [|done|done|done].
    destruct (expect 125 _); [intros H; by inversion H|].
    destruct (expect 44 _); [|done]. apply IHm.
  - intros depth s values v rest. cbn [parse_items].
    destruct (scan_once _ _ _ _); [|done|done|done].
    destruct (expect 93 _); [intros H; by inversion H|].
    destruct (expect 44 _); [|done]. apply IHi.
Qed.

(** A decoded string is shorter than the text it was decoded from. *)
Lemma loads_str_shorter (max_str_digits max_nesting : nat) (s t : ustr) :
  loads max_str_digits max_nesting s = Loaded (JStr t) -> (length t < length s)%nat.
Proof.
  unfold loads, loads_fuel. destruct (startswith _ s); [done|].
  pose proof (skip_ws_length s) as Hws.
  set (fuel := (2 * length s + 2)%nat).
  destruct (scan_once fuel max_str_digits max_nesting (skip_ws s)) as [obj rest| | |] eqn:E;
    [|done|done|done].
  destruct (skip_ws rest); [|done]. intros H. inversion H; subst obj. clear H.
  unfold fuel in E. replace (2 * length s + 2)%nat with (S (2 * length s + 1)) in E by lia.
  cbn [scan_once] in E.
  destruct (skip_ws s) as [|c r]; [done|]. simpl in Hws.
  destruct (c =? 34)%N.
  { destruct (scanstring r []) as [str rest'| | |] eqn:Es; [|done|done|done].
    inversion E; subst. apply scanstring_length in Es. lia. }
  destruct (c =? 123)%N.
  { destruct max_nesting as [|depth]; [done|].
    destruct (expect 125 _); [done|].
    by apply (proj1 (loops_not_str _ _)) in E. }
  destruct (c =? 91)%N.
  { destruct max_nesting as [|depth]; [done|].
    destruct (expect 93 _); [done|].
    by apply (proj2 (loops_not_str _ _)) in E. }
  pose proof (scan_atom_within max_str_digits (c :: r)) as Ha. rewrite E in Ha. by destruct Ha.
Qed.

Lemma strip_code_fences_length (text : ustr) :
  (length (_strip_code_fences text) <= length text)%nat.
Proof.
  unfold _strip_code_fences.
  pose proof (strip_with_length is_space text) as H1. fold (strip text) in H1.
  destruct (startswith (u "```") (strip text)).
  - pose proof (strip_with_length (N.eqb 96) (strip text)) as H2.
    destruct (startswith (u "json") _).
    + etransitivity; [apply strip_with_length|]. rewrite List.length_skipn. lia.
    + etransitivity; [apply strip_with_length|]. lia.
  - etransitivity; [apply strip_with_length|]. done.
Qed.

Lemma suffix_counts (rest s : ustr) :
  rest `suffix_of` s ->
  (opening_brackets rest <= opening_brackets s)%nat /\ (digit_count rest <= digit_count s)%nat.
Proof.
  intros [pre ->]. unfold opening_brackets, digit_count.
  rewrite !List.filter_app, !List.length_app. lia.
Qed.

Lemma raise_condition_suffix (max_str_digits depth : nat) (rest s : ustr) (e : exception) :
  rest `suffix_of` s ->
  raise_condition max_str_digits depth rest e -> raise_condition max_str_digits depth s e.
Proof.
  intros Hs. destruct (suffix_counts rest s Hs) as [H1 H2].
  destruct e; simpl; lia.
Qed.

Lemma scan_sound_suffix {A : Type} (max_str_digits depth : nat) (r s : ustr) (res : scan A) :
  r `suffix_of` s ->
  scan_sound max_str_digits depth r res -> scan_sound max_str_digits depth s res.
Proof.
  intros Hs. destruct res as [a rest|msg|e|]; simpl; try done.
  - intros H. by transitivity r.
  - by apply raise_condition_suffix.
Qed.

Lemma drop_while_suffix (p : N -> bool) (s : ustr) : drop_while p s `suffix_of` s.
Proof.
  induction s as [|c s IH]; simpl; [done|].
  destruct (p c); [by apply suffix_cons_r | done].
Qed.

Lemma skip_ws_suffix (s : ustr) : skip_ws s `suffix_of` s.
Proof. apply drop_while_suffix. Qed.

Lemma expect_suffix (c : N) (s r : ustr) : expect c s = Some r -> r `suffix_of` s.
Proof.
  destruct s as [|x s]; simpl; [done|]. destruct (x =? c)%N; [|done].
  intros [= <-]. by apply suffix_cons_r.
Qed.

Lemma strip_prefix_suffix (p s r : ustr) : strip_prefix p s = Some r -> r `suffix_of` s.
Proof.
  revert s. induction p as [|a p IH]; intros s H; simpl in *.
  - by inversion H.
  - destruct s as [|b s]; [done|]. destruct (a =? b)%N; [|done].
    apply suffix_cons_r. by apply IH.
Qed.

(** A text is an end of itself with characters put in front. *)
Ltac suffix_tail := first [reflexivity | apply suffix_cons_r; suffix_tail].

Lemma scanstring_suffix (n : nat) :
  forall s acc str rest, (length s <= n)%nat ->
    scanstring s acc = Scanned str rest -> rest `suffix_of` s.
Proof.
  induction n as [|n IH]; intros s acc str rest Hn.
  - destruct s; [done | simpl in Hn; lia].
  - destruct s as [|c r]; [done|].
    cbn [scanstring]. simpl in Hn.
    repeat match goal with
           | |- (if ?b then _ else _) = _ -> _ => destruct b eqn:?
           | |- match ?l with [] => _ | _ :: _ => _ end = _ -> _ => destruct l eqn:?
           | |- match ?o with Some _ => _ | None => _ end = _ -> _ => destruct o eqn:?
           end; subst; try done;
      try (intros [= <- <-]; by apply suffix_cons_r);
      (intros H; apply IH in H; [|simpl in *; lia];
       etransitivity; [exact H|]; suffix_tail).
Qed.

Lemma scanstring_sound (max_str_digits depth : nat) (s : ustr) :
  scan_sound max_str_digits depth s (scanstring s []).
Proof.
  pose proof (scanstring_outcome s) as Ho.
  destruct (scanstring s []) as [str rest| | |] eqn:E; simpl; try done.
  by apply (scanstring_suffix (length s) s [] str rest).
Qed.

Lemma skipn_suffix (n : nat) (s : ustr) : List.skipn n s `suffix_of` s.
Proof. apply suffix_drop. Qed.

Lemma take_while_digits (s : ustr) :
  (length (take_while is_ascii_digit s) <= digit_count s)%nat.
Proof.
  unfold digit_count. induction s as [|c s IH]; simpl; [done|].
  destruct (is_ascii_digit c); simpl; lia.
Qed.

(** The digits of the integer part of a number are digits of the text. *)
Lemma match_integer_digits (s integer : ustr) :
  match_integer s = Some integer ->
  (length (match expect 45 integer with Some ds => ds | None => integer end)
   <= digit_count s)%nat.
Proof.
  assert (Hz : forall c r, (c =? 48)%N = true -> (1 <= digit_count (c :: r))%nat).
  { intros c r Hc. apply N.eqb_eq in Hc as ->. unfold digit_count. simpl. lia. }
  assert (Hd : forall c, in_range 49 57 c = true ->
            is_ascii_digit c = true /\ (c =? 45)%N = false).
  { intros c Hc. unfold in_range, is_ascii_digit in *. apply andb_true_iff in Hc as [Hlo Hhi].
    apply N.leb_le in Hlo, Hhi. split; [|apply N.eqb_neq; lia].
    unfold in_range. apply andb_true_iff. split; apply N.leb_le; lia. }
  assert (Hcons : forall c r, (digit_count r <= digit_count (c :: r))%nat).
  { intros c r. unfold digit_count. cbn [List.filter].
    destruct (is_ascii_digit c); simpl; lia. }
  unfold match_integer.
  destruct (expect 45 s) as [r|] eqn:E.
  - destruct s as [|x s]; [done|]. simpl in E.
    destruct (N.eqb_spec x 45) as [->|]; [|done]. injection E as ->.
    destruct r as [|c r]; [done|].
    destruct (c =? 48)%N eqn:E0.
    + intros [= <-]. cbn [app expect]. rewrite N.eqb_refl. cbn [length].
      etransitivity; [apply (Hz c r E0) | apply Hcons].
    + destruct (in_range 49 57 c) eqn:Ec; [|done]. intros [= <-].
      destruct (Hd c Ec) as [Hdc _].
      pose proof (take_while_digits (c :: r)) as Ht.
      cbn [take_while] in Ht. rewrite Hdc in Ht.
      cbn [app expect take_while]. rewrite N.eqb_refl, Hdc.
      etransitivity; [exact Ht | apply Hcons].
  - destruct s as [|c r]; [done|].
    destruct (c =? 48)%N eqn:E0.
    + intros [= <-]. cbn [app expect]. change (48 =? 45)%N with false. cbv iota.
      by apply Hz.
    + destruct (in_range 49 57 c) eqn:Ec; [|done]. intros [= <-].
      destruct (Hd c Ec) as [Hdc Hne].
      pose proof (take_while_digits (c :: r)) as Ht.
      cbn [take_while] in Ht. rewrite Hdc in Ht.
      cbn [app expect take_while]. rewrite Hdc. cbn [expect]. by rewrite Hne.
Qed.

Lemma int_digits_refused (max_str_digits ndigits : nat) :
  int_digits_ok max_str_digits ndigits = false ->
  (0 < max_str_digits)%nat /\ (640 < ndigits)%nat /\ (max_str_digits < ndigits)%nat.
Proof.
  unfold int_digits_ok. intros H. apply negb_false_iff in H.
  apply andb_true_iff in H as [H H3]. apply andb_true_iff in H as [H1 H2].
  apply Nat.ltb_lt in H1, H2, H3. lia.
Qed.

Lemma scan_number_sound (max_str_digits depth : nat) (s : ustr) :
  match scan_number max_str_digits s with
  | Some res => scan_sound max_str_digits depth s res
  | None => True
  end.
Proof.
  unfold scan_number.
  destruct (match_integer s) as [integer|] eqn:E; [|exact I].
  apply match_integer_digits in E.
  set (r1 := List.skipn (length integer) s).
  set (frac := match_frac r1). set (r2 := List.skipn (length frac) r1).
  set (exp := match_exp r2). set (r3 := List.skipn (length exp) r2).
  assert (Hsuf : r3 `suffix_of` s).
  { unfold r3, r2, r1. etransitivity; [apply skipn_suffix|].
    etransitivity; apply skipn_suffix. }
  destruct frac, exp;
    try (destruct (expect 45 integer); cbv zeta iota beta;
         (destruct (int_digits_ok _ _) eqn:Ei;
          [exact Hsuf | apply int_digits_refused in Ei; simpl; lia]));
    destruct (Float.of_str _); try exact I; exact Hsuf.
Qed.

Lemma scan_atom_sound (max_str_digits depth : nat) (s : ustr) :
  scan_sound max_str_digits depth s (scan_atom max_str_digits s).
Proof.
  unfold scan_atom, scan_literal, scan_constant.
  destruct (strip_prefix (u "null") s) eqn:E1; [by apply strip_prefix_suffix in E1|].
  destruct (strip_prefix (u "true") s) eqn:E2; [by apply strip_prefix_suffix in E2|].
  destruct (strip_prefix (u "false") s) eqn:E3; [by apply strip_prefix_suffix in E3|].
  pose proof (scan_number_sound max_str_digits depth s) as H2.
  destruct (scan_number max_str_digits s) as [res|]; [exact H2|].
  destruct (strip_prefix (u "NaN") s) eqn:E4; [by apply strip_prefix_suffix in E4|].
  destruct (strip_prefix (u "Infinity") s) eqn:E5; [by apply strip_prefix_suffix in E5|].
  destruct (strip_prefix (u "-Infinity") s) eqn:E6; [by apply strip_prefix_suffix in E6|].
  exact I.
Qed.

Lemma opening_bracket_cons (c : N) (r : ustr) :
  (c =? 123)%N = true \/ (c =? 91)%N = true ->
  opening_brackets (c :: r) = S (opening_brackets r).
Proof.
  intros H. unfold opening_brackets. cbn [List.filter].
  destruct H as [H | H]; rewrite H; rewrite ?orb_true_r; reflexivity.
Qed.

(** Entering an array or an object takes one level of nesting and one
    opening bracket of the text. *)
Lemma scan_sound_enter (max_str_digits depth : nat) (c : N) (r r' : ustr) (res : scan json) :
  (c =? 123)%N = true \/ (c =? 91)%N = true ->
  r' `suffix_of` r ->
  scan_sound max_str_digits depth r' res ->
  scan_sound max_str_digits (S depth) (c :: r) res.
Proof.
  intros Hc Hs. destruct res as [a rest|msg|e|]; simpl; try done.
  - intros H. apply suffix_cons_r. by transitivity r'.
  - intros H. apply (raise_condition_suffix _ _ _ _ _ Hs) in H.
    destruct e; simpl in *.
    + rewrite (opening_bracket_cons c r Hc). lia.
    + unfold digit_count in *. cbn [List.filter].
      destruct (is_ascii_digit c); simpl; lia.
Qed.

(** The scanner and its two loops raise only on a text with enough
    brackets or digits. *)
Lemma scan_once_sound (max_str_digits : nat) (fuel : nat) :
  (forall depth s, scan_sound max_str_digits depth s (scan_once fuel max_str_digits depth s))
  /\ (forall depth s pairs,
        scan_sound max_str_digits depth s (parse_members fuel max_str_digits depth s pairs))
  /\ (forall depth s values,
        scan_sound max_str_digits depth s (parse_items fuel max_str_digits depth s values)).
Proof.
  induction fuel as [|fuel (IHscan & IHmem & IHitems)]; [by split; [|split]|].
  split; [|split].
  - intros depth s. cbn [scan_once]. destruct s as [|c r]; [exact I|].
    destruct (c =? 34)%N eqn:E34.
    { pose proof (scanstring_sound max_str_digits depth r) as Hw.
      destruct (scanstring r []) as [str rest| |e|]; simpl in *; try done.
      - by apply suffix_cons_r.
      - apply (raise_condition_suffix _ _ r); [by apply suffix_cons_r | done]. }
    destruct (c =? 123)%N eqn:E123.
    { destruct depth as [|depth].
      - simpl. rewrite opening_bracket_cons by auto. lia.
      - destruct (expect 125 (skip_ws r)) as [rest|] eqn:E.
        + simpl. apply suffix_cons_r. apply expect_suffix in E.
          etransitivity; [exact E | apply skip_ws_suffix].
        + apply (scan_sound_enter _ _ c r (skip_ws r)); [auto | apply skip_ws_suffix|].
          apply IHmem. }
    destruct (c =? 91)%N eqn:E91.
    { destruct depth as [|depth].
      - simpl. rewrite opening_bracket_cons by auto. lia.
      - destruct (expect 93 (skip_ws r)) as [rest|] eqn:E.
        + simpl. apply suffix_cons_r. apply expect_suffix in E.
          etransitivity; [exact E | apply skip_ws_suffix].
        + apply (scan_sound_enter _ _ c r (skip_ws r)); [auto | apply skip_ws_suffix|].
          apply IHitems. }
    apply scan_atom_sound.
  - intros depth s pairs. cbn [parse_members].
    destruct (expect 34 s) as [r|] eqn:E; [|exact I].
    apply expect_suffix in E.
    pose proof (scanstring_sound max_str_digits depth r) as Hw.
    destruct (scanstring r []) as [key r1| |e|]; [|exact I| |exact I].
    2:{ by apply (scan_sound_suffix _ _ r). }
    simpl in Hw.
    destruct (expect 58 (skip_ws r1)) as [r2|] eqn:E2; [|exact I].
    apply expect_suffix in E2.
    assert (S2 : skip_ws r2 `suffix_of` s).
    { etransitivity; [apply skip_ws_suffix|]. etransitivity; [exact E2|].
      etransitivity; [apply skip_ws_suffix|]. by etransitivity. }
    pose proof (IHscan depth (skip_ws r2)) as Hs.
    destruct (scan_once fuel max_str_digits depth (skip_ws r2)) as [value r3| |e|];
      [|exact I| |exact I].
    2:{ by apply (scan_sound_suffix _ _ (skip_ws r2)). }
    simpl in Hs.
    assert (S3 : skip_ws r3 `suffix_of` s).
    { etransitivity; [apply skip_ws_suffix|]. by etransitivity. }
    destruct (expect 125 (skip_ws r3)) as [rest|] eqn:E3.
    { apply expect_suffix in E3. simpl. by etransitivity. }
    destruct (expect 44 (skip_ws r3)) as [r4|] eqn:E4; [|exact I].
    apply expect_suffix in E4.
    apply (scan_sound_suffix _ _ (skip_ws r4)); [|apply IHmem].
    etransitivity; [apply skip_ws_suffix|]. by etransitivity.
  - intros depth s values. cbn [parse_items].
    pose proof (IHscan depth s) as Hs.
    destruct (scan_once fuel max_str_digits depth s) as [value r1| |e|];
      [|exact I|exact Hs|exact I].
    simpl in Hs.
    assert (S1 : skip_ws r1 `suffix_of` s).
    { etransitivity; [apply skip_ws_suffix|]. done. }
    destruct (expect 93 (skip_ws r1)) as [rest|] eqn:E3.
    { apply expect_suffix in E3. simpl. by etransitivity. }
    destruct (expect 44 (skip_ws r1)) as [r2|] eqn:E4; [|exact I].
    apply expect_suffix in E4.
    apply (scan_sound_suffix _ _ (skip_ws r2)); [|apply IHitems].
    etransitivity; [apply skip_ws_suffix|]. by etransitivity.
Qed.

(** [json.loads] raises [RecursionError] only on a text with more opening
    brackets than it can nest, and [ValueError] only on a text with more
    digits than [int] reads. *)
Lemma loads_raises (max_str_digits max_nesting : nat) (s : ustr) (e : exception) :
  loads max_str_digits max_nesting s = LoadsRaised e ->
  raise_condition max_str_digits max_nesting s e.
Proof.
  unfold loads, loads_fuel. destruct (startswith _ s); [done|].
  pose proof (proj1 (scan_once_sound max_str_digits (2 * length s + 2))
                max_nesting (skip_ws s)) as H.
  destruct (scan_once _ _ _ (skip_ws s)) as [obj rest| |e'|]; try done.
  - by destruct (skip_ws rest).
  - intros [= <-]. by apply (raise_condition_suffix _ _ (skip_ws s)); [apply skip_ws_suffix|].
Qed.


(** A text nested deeper than the decoder can go, and a text that holds an
    integer of more digits than [int] reads, are not rejected as an
    upstream failure: the exception of the decoder passes through. *)
Example payload_uncaught_examples :
  _parse_mapped_payload default_max_str_digits example_max_nesting (JStr deep_text)
  = Uncaught RecursionError
  /\ _parse_mapped_payload default_max_str_digits example_max_nesting (JStr long_int_text)
     = Uncaught ValueError
  /\ _parse_mapped_payload 0 example_max_nesting (JStr long_int_text)
     = Raise 502 (u "LLM returned a list with non-object items").
Proof. split; [|split]; vm_compute; reflexivity. Qed.

Section PayloadParser.

Variable max_str_digits : nat.
Variable max_nesting : nat -> nat.

Lemma accepts_objects (level : nat) (mapped : json) (rows : list json) :
  accepts max_str_digits max_nesting level mapped rows -> List.forallb is_dict rows = true.
Proof. induction 1; [done | done | done]. Qed.

Lemma parse_fuel_sound (fuel level : nat) (mapped : json) (rows : list json) :
  parse_mapped_payload_fuel fuel max_str_digits max_nesting level mapped = Rows rows ->
  accepts max_str_digits max_nesting level mapped rows.
Proof.
  revert level mapped. induction fuel as [|fuel IH]; intros level mapped;
    destruct mapped; cbn [parse_mapped_payload_fuel]; try done.
  - destruct (List.forallb is_dict l) eqn:E; [|done].
    intros H. inversion H; subst. by constructor.
  - intros H. inversion H. constructor.
  - destruct (loads _ _ (_strip_code_fences s)) as [parsed| | |] eqn:E; [|done|done|done].
    intros H. apply (accepts_str _ _ level s parsed); [done | by apply IH].
  - destruct (List.forallb is_dict l) eqn:E; [|done].
    intros H. inversion H; subst. by constructor.
  - intros H. inversion H. constructor.
Qed.

Lemma parse_fuel_raised (fuel level : nat) (mapped : json) (e : exception) :
  parse_mapped_payload_fuel fuel max_str_digits max_nesting level mapped = Uncaught e ->
  lets_through max_str_digits max_nesting level mapped e.
Proof.
  revert level mapped. induction fuel as [|fuel IH]; intros level mapped;
    destruct mapped; cbn [parse_mapped_payload_fuel]; try done;
    try (by destruct (List.forallb is_dict l)).
  destruct (loads _ _ (_strip_code_fences s)) as [parsed| |e'|] eqn:E; [|done| |done].
  - intros H. apply (through_parsed _ _ level s parsed); [done | by apply IH].
  - intros H. inversion H; subst. by constructor.
Qed.

Lemma size_after_loads (depth : nat) (s : ustr) (parsed : json) (fuel : nat) :
  loads max_str_digits depth (_strip_code_fences s) = Loaded parsed ->
  (length s < S fuel)%nat ->
  is_str parsed = true -> (payload_size parsed < fuel)%nat.
Proof.
  intros Hl Hf Hs. destruct parsed; try done. simpl.
  apply loads_str_shorter in Hl. pose proof (strip_code_fences_length s). lia.
Qed.

Lemma parse_fuel_complete (level : nat) (mapped : json) (rows : list json) :
  accepts max_str_digits max_nesting level mapped rows ->
  forall fuel, (is_str mapped = true -> (payload_size mapped < fuel)%nat) ->
    parse_mapped_payload_fuel fuel max_str_digits max_nesting level mapped = Rows rows.
Proof.
  induction 1 as [level d | level items Hi | level s parsed rows Hl Ha IH]; intros fuel Hf.
  - by destruct fuel.
  - destruct fuel; cbn [parse_mapped_payload_fuel]; by rewrite Hi.
  - specialize (Hf eq_refl). simpl in Hf.
    destruct fuel as [|fuel]; [lia|]. cbn [parse_mapped_payload_fuel]. rewrite Hl.
    apply IH. by apply (size_after_loads (max_nesting level) s).
Qed.

Lemma parse_fuel_raises (level : nat) (mapped : json) (e : exception) :
  lets_through max_str_digits max_nesting level mapped e ->
  forall fuel, (is_str mapped = true -> (payload_size mapped < fuel)%nat) ->
    parse_mapped_payload_fuel fuel max_str_digits max_nesting level mapped = Uncaught e.
Proof.
  induction 1 as [level s e Hl | level s parsed e Hl Ha IH]; intros fuel Hf.
  - specialize (Hf eq_refl). simpl in Hf.
    destruct fuel as [|fuel]; [lia|]. cbn [parse_mapped_payload_fuel]. by rewrite Hl.
  - specialize (Hf eq_refl). simpl in Hf.
    destruct fuel as [|fuel]; [lia|]. cbn [parse_mapped_payload_fuel]. rewrite Hl.
    apply IH. by apply (size_after_loads (max_nesting level) s).
Qed.

Lemma parse_fuel_total (fuel : nat) :
  forall level mapped, (is_str mapped = true -> (payload_size mapped < fuel)%nat) ->
    match parse_mapped_payload_fuel fuel max_str_digits max_nesting level mapped with
    | Rows _ => True
    | Raise status _ => status = 502%nat
    | Uncaught _ => True
    | PayloadOutOfFuel => False
    end.
Proof.
  induction fuel as [|fuel IH]; intros level mapped Hf;
    destruct mapped; cbn [parse_mapped_payload_fuel]; try done;
    try (by destruct (List.forallb is_dict l)).
  - specialize (Hf eq_refl). lia.
  - specialize (Hf eq_refl). simpl in Hf.
    destruct (loads _ _ (_strip_code_fences s)) as [parsed| | |] eqn:E; [|done|done|].
    + apply IH. by apply (size_after_loads (max_nesting level) s).
    + by apply loads_total in E.
Qed.

(** An exception passes through only on a string. *)
Lemma lets_through_str (level : nat) (mapped : json) (e : exception) :
  lets_through max_str_digits max_nesting level mapped e -> is_str mapped = true.
Proof. by destruct 1. Qed.

(** An exception passes through only when one of the texts decoded from
    the payload, none longer than the payload, meets the condition under
    which the decoder raises it. *)
Lemma lets_through_condition (level : nat) (mapped : json) (e : exception) :
  lets_through max_str_digits max_nesting level mapped e ->
  exists level' text,
    (length text <= payload_size mapped)%nat
    /\ raise_condition max_str_digits (max_nesting level') text e.
Proof.
  induction 1 as [level s e Hl | level s parsed e Hl Ha (level' & text & Hlen & Hc)].
  - exists level, (_strip_code_fences s). split; [apply strip_code_fences_length|].
    by apply loads_raises.
  - exists level', text. split; [|done].
    apply lets_through_str in Ha. destruct parsed; try done.
    apply loads_str_shorter in Hl. pose proof (strip_code_fences_length s).
    simpl in *. lia.
Qed.

End PayloadParser.




(** A fenced array of objects, a bare object, and payloads that are
    rejected. *)
Example payload_examples :
  let parse := _parse_mapped_payload default_max_str_digits example_max_nesting in
  parse (JStr (u "```json" ++ [10%N] ++ u "[{}, {}]" ++ [10%N] ++ u "```"))
    = Rows [JDict []; JDict []]
  /\ parse (JDict [(u "fullname", JNull)]) = Rows [JDict [(u "fullname", JNull)]]
  /\ parse (JList [JDict []; JInt 1])
     = Raise 502 (u "LLM returned a list with non-object items")
  /\ parse JNull = Raise 502 (u "Unsupported LLM response format")
  /\ parse (JStr (u "[1, 2]"))
     = Raise 502 (u "LLM returned a list with non-object items")
  /\ parse (JStr (u "not json"))
     = Raise 502 (u "LLM returned invalid JSON string: Expecting value")
  /\ parse (JStr (u "17")) = Raise 502 (u "Unsupported LLM response format").
Proof. cbv zeta. repeat split; vm_compute; reflexivity. Qed.

(** * Part III: further properties of the code *)

(** ** The normalizer *)

Lemma name_char_ascii (c : N) : is_name_char c = true -> (c < 128)%N.
Proof.
  unfold is_name_char, is_ascii_lower, is_ascii_digit, in_range.
  rewrite !orb_true_iff, !andb_true_iff, !N.leb_le, N.eqb_eq. lia.
Qed.

Lemma name_char_facts (c : N) :
  is_name_char c = true ->
  is_space c = false /\ lower_cp c = [c]
  /\ negb (is_ascii_alnum c) = (c =? 95)%N.
Proof.
  intros H. pose proof (name_char_ascii c H) as Hc.
  assert (A : implb (is_name_char c)
                (negb (is_space c) && bool_decide (lower_cp c = [c])
                 && Bool.eqb (negb (is_ascii_alnum c)) (c =? 95)%N) = true).
  { clear H. revert c Hc. apply ascii_forall. vm_compute. reflexivity. }
  rewrite H in A. simpl in A.
  apply andb_true_iff in A as [A A3]. apply andb_true_iff in A as [A1 A2].
  split; [by apply negb_true_iff|]. split; [by apply bool_decide_eq_true in A2|].
  by apply Bool.eqb_prop.
Qed.

Lemma alnum_lower_name_char (c : N) :
  is_ascii_alnum c = true -> is_ascii_upper c = false -> is_name_char c = true.
Proof.
  unfold is_ascii_alnum, is_ascii_alpha, is_name_char. intros H Hu.
  rewrite Hu in H. simpl in H. by rewrite H.
Qed.

(** The rows of the lowercase mapping send no character to a letter A to
    Z. *)
Lemma lower_rows_targets :
  List.forallb (fun '(_, _, _, target) => (90 <? target)%N) UnicodeData.lower_rows = true.
Proof. vm_compute. reflexivity. Qed.

Lemma lower_cp_no_upper (c x : N) : List.In x (lower_cp c) -> is_ascii_upper x = false.
Proof.
  unfold lower_cp. destruct (c =? 304)%N; [by intros [<- | [<- | []]]|].
  destruct (List.find _ UnicodeData.lower_rows) as [[[[first last] step] target]|] eqn:E.
  - apply List.find_some in E as [Hin _].
    pose proof lower_rows_targets as Ht. rewrite List.forallb_forall in Ht.
    specialize (Ht _ Hin). cbn beta iota in Ht. apply N.ltb_lt in Ht.
    intros [<- | []]. unfold is_ascii_upper, in_range.
    apply andb_false_iff. right. apply N.leb_gt. lia.
  - intros [<- | []].
    assert (Hrow : List.In (65, 90, 1, 97)%N UnicodeData.lower_rows) by (by left).
    pose proof (List.find_none _ _ E _ Hrow) as Hf. cbn beta iota in Hf.
    rewrite N.mod_1_r in Hf. by rewrite andb_true_r in Hf.
Qed.

Lemma lower_from_no_upper (before s : ustr) (c : N) :
  List.In c (lower_from before s) -> is_ascii_upper c = false.
Proof.
  revert before. induction s as [|x s IH]; intros before; cbn [lower_from]; [done|].
  intros H. apply List.in_app_or in H as [H | H]; [|by apply IH in H].
  destruct (x =? 931)%N; [|by apply lower_cp_no_upper in H].
  destruct H as [<- | []]. by destruct (final_sigma before s).
Qed.

Lemma lower_no_upper (s : ustr) (c : N) : List.In c (lower s) -> is_ascii_upper c = false.
Proof. apply lower_from_no_upper. Qed.

(** A character of ASCII that is no capital letter is its own lowercase. *)
Lemma lower_from_plain (c : N) (before s : ustr) :
  (c < 128)%N -> is_ascii_upper c = false ->
  lower_from before (c :: s) = c :: lower_from (c :: before) s.
Proof.
  intros Hc Hu.
  assert (A : implb (negb (is_ascii_upper c))
                (negb (c =? 931)%N && bool_decide (lower_cp c = [c])) = true).
  { clear Hu. revert c Hc. apply ascii_forall. vm_compute. reflexivity. }
  rewrite Hu in A. cbn [negb implb] in A. apply andb_true_iff in A as [A1 A2].
  apply negb_true_iff in A1. apply bool_decide_eq_true in A2.
  cbn [lower_from]. by rewrite A1, A2.
Qed.

Lemma sub_runs_aux_In (p : N -> bool) (rep : ustr) (b : bool) (s : ustr) (c : N) :
  List.In c (sub_runs_aux p rep b s) -> List.In c rep \/ (List.In c s /\ p c = false).
Proof.
  revert b. induction s as [|x s IH]; intros b; simpl; [done|].
  destruct (p x) eqn:Ep.
  - intros H. apply List.in_app_or in H as [H | H].
    + destruct b; [done | by left].
    + apply IH in H as [H | [H1 H2]]; [by left | right; by split; [right|]].
  - intros [<- | H]; [right; by split; [left|]|].
    apply IH in H as [H | [H1 H2]]; [by left | right; by split; [right|]].
Qed.

Lemma normalize_chars (name : pyval) :
  List.forallb is_name_char (_normalize_column_name name) = true.
Proof.
  apply List.forallb_forall. intros c Hc. unfold _normalize_column_name in Hc.
  apply strip_with_In, sub_runs_aux_In in Hc as [Hc | [Hc Hne]];
    [by destruct Hc as [<- | []]|].
  apply sub_runs_aux_In in Hc as [Hc | [Hc Ha]]; [by destruct Hc as [<- | []]|].
  apply negb_false_iff in Ha. apply lower_no_upper in Hc.
  by apply alnum_lower_name_char.
Qed.

Lemma single_underscores_app (a b : ustr) :
  single_underscores (a ++ b) = true ->
  single_underscores a = true /\ single_underscores b = true.
Proof.
  induction a as [|x a IH]; [done|].
  change ((x :: a) ++ b) with (x :: (a ++ b)). cbn [single_underscores].
  intros H. apply andb_true_iff in H as [H1 H2]. destruct (IH H2) as [Ia Ib].
  split; [|done]. rewrite Ia, andb_true_r.
  destruct a as [|y a]; [done|]. exact H1.
Qed.

Lemma sub_runs_single (s : ustr) (b : bool) :
  single_underscores (sub_runs_aux (N.eqb 95) [95%N] b s) = true
  /\ (b = true -> startswith [95%N] (sub_runs_aux (N.eqb 95) [95%N] b s) = false).
Proof.
  revert b. induction s as [|c s IH]; intros b; cbn [sub_runs_aux]; [done|].
  destruct (N.eqb_spec 95 c) as [<- | Hne].
  - destruct (IH true) as [I1 I2]. specialize (I2 eq_refl).
    destruct b; cbn [app]; [done|]. split; [|done].
    cbn [single_underscores]. rewrite I1, andb_true_r.
    destruct (sub_runs_aux _ _ true s) as [|d r]; [done|].
    unfold startswith in I2. cbn [strip_prefix] in I2.
    rewrite (N.eqb_sym d 95). by destruct (95 =? d)%N.
  - destruct (IH false) as [I1 _]. split.
    + cbn [single_underscores]. rewrite I1, andb_true_r.
      rewrite (proj2 (N.eqb_neq c 95)) by done. by destruct (sub_runs_aux _ _ false s).
    + intros _. unfold startswith. cbn [strip_prefix].
      by rewrite (proj2 (N.eqb_neq 95 c)).
Qed.

(** The result of the normalizer is a name in normal form. *)
Lemma normalize_normal (name : pyval) : normal_name (_normalize_column_name name).
Proof.
  split; [apply normalize_chars|]. unfold _normalize_column_name.
  set (g := sub_runs (N.eqb 95) (u "_") _).
  destruct (strip_with_ends (N.eqb 95) g) as [Hh Hl].
  split; [|split].
  - destruct (strip_with_infix (N.eqb 95) g) as (a & b & E & _ & _).
    assert (Hs : single_underscores g = true) by apply (sub_runs_single _ false).
    rewrite E in Hs.
    apply single_underscores_app in Hs as [_ Hs].
    by apply single_underscores_app in Hs as [Hs _].
  - unfold startswith. change (u "_") with [95%N].
    destruct (strip_with (N.eqb 95) g) as [|c r]; [done|]. cbn [strip_prefix].
    by rewrite Hh.
  - unfold endswith, startswith. change (List.rev (u "_")) with [95%N].
    destruct (List.rev (strip_with (N.eqb 95) g)) as [|c r]; [done|]. cbn [strip_prefix].
    by rewrite Hl.
Qed.

Lemma name_char_plain (c : N) :
  is_name_char c = true -> (c < 128)%N /\ is_ascii_upper c = false.
Proof.
  intros H. pose proof (name_char_ascii c H) as Hc. split; [done|].
  assert (A : implb (is_name_char c) (negb (is_ascii_upper c)) = true).
  { clear H. revert c Hc. apply ascii_forall. vm_compute. reflexivity. }
  rewrite H in A. by apply negb_true_iff in A.
Qed.

Lemma lower_name (s : ustr) : List.forallb is_name_char s = true -> lower s = s.
Proof.
  unfold lower. generalize (@nil N) as before.
  induction s as [|c s IH]; intros before; [done|]. cbn [List.forallb]. intros H.
  apply andb_true_iff in H as [Hc H].
  destruct (name_char_plain c Hc) as [H1 H2].
  rewrite (lower_from_plain c before s H1 H2). by rewrite (IH _ H).
Qed.

Lemma sub_runs_fixed (p : N -> bool) (s : ustr) (b : bool) :
  (forall c, is_name_char c = true -> p c = (c =? 95)%N) ->
  List.forallb is_name_char s = true ->
  single_underscores s = true ->
  (b = true -> startswith [95%N] s = false) ->
  sub_runs_aux p [95%N] b s = s.
Proof.
  intros Hp. revert b. induction s as [|c s IH]; intros b Hc Hs Hb; [done|].
  cbn [List.forallb single_underscores] in Hc, Hs.
  apply andb_true_iff in Hc as [Hc Hcs]. apply andb_true_iff in Hs as [Hs1 Hs].
  cbn [sub_runs_aux]. rewrite (Hp c Hc).
  destruct (N.eqb_spec c 95) as [-> | Hne].
  - destruct b; [by specialize (Hb eq_refl)|]. cbn [app]. f_equal.
    apply IH; [done | done |]. intros _.
    destruct s as [|d s]; [done|]. unfold startswith. cbn [strip_prefix].
    simpl in Hs1. apply negb_true_iff in Hs1.
    by rewrite N.eqb_sym, Hs1.
  - f_equal. by apply IH.
Qed.

(** A name in normal form is left as it is. *)
Lemma normal_name_fixed (s : ustr) : normal_name s -> _normalize_column_name (VStr s) = s.
Proof.
  intros (Hc & Hs & Hh & Hl). unfold _normalize_column_name. cbn [py_str].
  assert (Hin : forall c, List.In c s -> is_name_char c = true)
    by (by apply List.forallb_forall).
  assert (Hstrip : strip s = s).
  { apply strip_with_fixed.
    - destruct s as [|c r]; [done|].
      apply name_char_facts, Hin. by left.
    - destruct (List.rev s) as [|c r] eqn:E; [done|].
      apply name_char_facts, Hin, List.in_rev. rewrite E. by left. }
  rewrite Hstrip, (lower_name s Hc).
  change (u "_") with [95%N]. unfold sub_runs.
  rewrite (sub_runs_fixed (fun c => negb (is_ascii_alnum c)) s false); [|
    intros c H; by apply name_char_facts | done | done | done].
  rewrite (sub_runs_fixed (N.eqb 95) s false);
    [| intros c _; apply N.eqb_sym | done | done | done].
  apply strip_with_fixed.
  - destruct s as [|c r]; [done|]. unfold startswith in Hh.
    change (u "_") with [95%N] in Hh. cbn [strip_prefix] in Hh.
    by destruct (95 =? c)%N.
  - unfold endswith, startswith in Hl. change (List.rev (u "_")) with [95%N] in Hl.
    destruct (List.rev s) as [|c r]; [done|]. cbn [strip_prefix] in Hl.
    by destruct (95 =? c)%N.
Qed.

Lemma filter_none (p q : N -> bool) (s : ustr) :
  (forall c, p c = true -> q c = false) -> List.forallb p s = true -> List.filter q s = [].
Proof.
  intros Hpq. induction s as [|c s IH]; cbn [List.forallb List.filter]; [done|].
  intros H. apply andb_true_iff in H as [Hc H]. by rewrite (Hpq c Hc), IH.
Qed.

Lemma filter_strip_with (p q : N -> bool) (s : ustr) :
  (forall c, p c = true -> q c = false) ->
  List.filter q (strip_with p s) = List.filter q s.
Proof.
  intros Hpq. destruct (strip_with_infix p s) as (a & b & E & Ha & Hb).
  rewrite E at 2. rewrite !List.filter_app.
  rewrite (filter_none p q a Hpq Ha), (filter_none p q b Hpq Hb).
  by rewrite List.app_nil_r.
Qed.

Lemma filter_sub_runs (p q : N -> bool) (rep : ustr) (b : bool) (s : ustr) :
  (forall c, p c = true -> q c = false) -> List.filter q rep = [] ->
  List.filter q (sub_runs_aux p rep b s) = List.filter q s.
Proof.
  intros Hpq Hrep. revert b. induction s as [|c s IH]; intros b; cbn [sub_runs_aux]; [done|].
  destruct (p c) eqn:Ep.
  - rewrite List.filter_app, IH. cbn [List.filter]. rewrite (Hpq c Ep).
    destruct b; [done | by rewrite Hrep].
  - cbn [List.filter]. by rewrite IH.
Qed.

(** X1.  The result of [_normalize_column_name], for any label, is a name in
    normal form: its characters are the letters a to z, the digits and the
    underscore; it holds no two underscores in a row; it neither starts nor
    ends with an underscore.  Its letters and digits are those of the
    label written as text, trimmed and put in lower case, in the same
    order. *)
Theorem normalize_column_name_shape (name : pyval) :
  normal_name (_normalize_column_name name)
  /\ List.filter is_ascii_alnum (_normalize_column_name name)
     = List.filter is_ascii_alnum (lower (strip (py_str name))).
Proof.
  split; [apply normalize_normal|]. unfold _normalize_column_name, sub_runs.
  assert (Hu : forall c, (95 =? c)%N = true -> is_ascii_alnum c = false)
    by (intros c Hc; apply N.eqb_eq in Hc; by subst c).
  rewrite (filter_strip_with _ _ _ Hu).
  rewrite (filter_sub_runs _ _ _ _ _ Hu) by done.
  apply filter_sub_runs; [|done].
  intros c Hc. by apply negb_true_iff in Hc.
Qed.

(** X2.  [_normalize_column_name] leaves a name in normal form as it is, so
    normalizing twice is the same as normalizing once; every alias declared
    in [FIELD_ALIASES] is such a name, its own normalization. *)
Theorem normalize_column_name_idempotent (name : pyval) (s : ustr) :
  (normal_name s -> _normalize_column_name (VStr s) = s)
  /\ _normalize_column_name (VStr (_normalize_column_name name)) = _normalize_column_name name
  /\ Forall (fun fa : ustr * list ustr =>
               Forall (fun alias => _normalize_column_name (VStr alias) = alias) fa.2)
            FIELD_ALIASES.
Proof.
  split; [apply normal_name_fixed|]. split; [apply normal_name_fixed, normalize_normal|].
  by_compute.
Qed.

Lemma normalize_column_name_idempotent_witness :
  _normalize_column_name (VStr (u "loan_amount")) = u "loan_amount".
Proof.
  refine (proj1 (normalize_column_name_idempotent VNone (u "loan_amount")) _).
  repeat split; vm_compute; reflexivity.
Defined.

(** ** Cells *)

Lemma strip_idemp (s : ustr) : strip (strip s) = strip s.
Proof. apply strip_with_idemp. Qed.



(** ** Code fences *)

Lemma strip_fixed_pad (a s b : ustr) :
  List.forallb is_space a = true -> List.forallb is_space b = true ->
  strip s = s -> strip (a ++ s ++ b) = s.
Proof. intros Ha Hb Hs. unfold strip. rewrite strip_with_pad by done. exact Hs. Qed.

Lemma strip_code_fences_stripped (text : ustr) :
  strip (_strip_code_fences text) = _strip_code_fences text.
Proof. unfold _strip_code_fences. apply strip_idemp. Qed.

Lemma strip_code_fences_plain (text : ustr) :
  startswith (u "```") (strip text) = false -> _strip_code_fences text = strip text.
Proof. intros H. unfold _strip_code_fences. rewrite H. apply strip_idemp. Qed.

Lemma fenced_strip_backticks (rest body : ustr) :
  match rest with c :: _ => (96 =? c)%N = false | [] => True end ->
  strip_with (N.eqb 96) (u "```" ++ rest ++ [10%N] ++ body ++ [10%N] ++ u "```")
  = rest ++ [10%N] ++ body ++ [10%N].
Proof.
  intros Hr.
  assert (E : rest ++ [10%N] ++ body ++ [10%N] ++ u "```"
              = (rest ++ [10%N] ++ body ++ [10%N]) ++ u "```")
    by (by rewrite <- !List.app_assoc).
  rewrite E, strip_with_pad by done.
  apply strip_with_fixed.
  - destruct rest as [|c r]; [done | exact Hr].
  - rewrite !List.app_assoc, List.rev_app_distr. done.
Qed.

(** X4.  The result of [_strip_code_fences] is trimmed and no longer than the
    text; when the trimmed text does not start with three backticks it is
    that trimmed text; and a trimmed body put between a line of three
    backticks, followed by [json] or by nothing, and a closing line of
    three backticks, is given back as it was. *)
Theorem strip_code_fences_spec (text body : ustr) :
  strip (_strip_code_fences text) = _strip_code_fences text
  /\ (length (_strip_code_fences text) <= length text)%nat
  /\ (startswith (u "```") (strip text) = false -> _strip_code_fences text = strip text)
  /\ (strip body = body ->
      _strip_code_fences (fenced (u "json") body) = body
      /\ _strip_code_fences (fenced [] body) = body).
Proof.
  split; [apply strip_code_fences_stripped|]. split; [apply strip_code_fences_length|].
  split; [apply strip_code_fences_plain|].
  intros Hb.
  assert (Hf : forall lang, strip (fenced lang body) = fenced lang body).
  { intros lang. apply strip_with_fixed; [done|].
    unfold fenced. rewrite !List.app_assoc, List.rev_app_distr. done. }
  split.
  - unfold _strip_code_fences. rewrite Hf.
    change (startswith (u "```") (fenced (u "json") body)) with true. cbv iota.
    unfold fenced. rewrite fenced_strip_backticks by done.
    assert (Hl : exists rest, lower (u "json" ++ [10%N] ++ body ++ [10%N]) = u "json" ++ rest).
    { eexists. unfold lower. change (u "json") with [106%N; 115%N; 111%N; 110%N].
      cbn [app]. rewrite !lower_from_plain by done. reflexivity. }
    destruct Hl as [rest ->].
    change (startswith (u "json") (u "json" ++ rest)) with true.
    cbv iota. change (List.skipn 4 (u "json" ++ [10%N] ++ body ++ [10%N]))
      with ([10%N] ++ body ++ [10%N]).
    by apply strip_fixed_pad.
  - unfold _strip_code_fences. rewrite Hf.
    change (startswith (u "```") (fenced [] body)) with true. cbv iota.
    unfold fenced. rewrite fenced_strip_backticks by done.
    assert (Hl : startswith (u "json") (lower ([] ++ [10%N] ++ body ++ [10%N])) = false).
    { unfold lower. cbn [app]. by rewrite lower_from_plain. }
    rewrite Hl. by apply (strip_fixed_pad [10%N] body [10%N]).
Qed.

Lemma strip_code_fences_spec_witness :
  _strip_code_fences (fenced (u "json") (u "[{}]")) = u "[{}]"
  /\ _strip_code_fences (fenced [] (u "[{}]")) = u "[{}]".
Proof.
  refine (proj2 (proj2 (proj2 (strip_code_fences_spec [] (u "[{}]")))) _).
  vm_compute. reflexivity.
Defined.

(** ** The validator, applied twice *)

Lemma clean_amount_idemp (v : pyval) : clean_amount (clean_amount v) = clean_amount v.
Proof.
  unfold clean_amount. destruct (is_none v) eqn:E; [done|]. by destruct (py_float v).
Qed.

Lemma clean_mobile_idemp (v : pyval) : clean_mobile (clean_mobile v) = clean_mobile v.
Proof.
  unfold clean_mobile.
  destruct (py_truthy v) eqn:T, (match_mobile (py_str v)) eqn:M; simpl; by rewrite ?T, ?M.
Qed.

Lemma clean_adhar_idemp (v : pyval) : clean_adhar (clean_adhar v) = clean_adhar v.
Proof.
  unfold clean_adhar.
  destruct (py_truthy v) eqn:T, (match_adhar (py_str v)) eqn:M; simpl; by rewrite ?T, ?M.
Qed.

Lemma clean_row_dom (row : pydict) : dom (clean_row row) = list_to_set REQUIRED_FIELDS.
Proof.
  rewrite clean_row_unfold, !dom_insert_L, copy_fields_dom.
  cbn [REQUIRED_FIELDS list_to_set]. set_solver.
Qed.

Lemma clean_row_amount (row : pydict) :
  dict_get (clean_row row) (u "total_amount") = clean_amount (dict_get row (u "total_amount")).
Proof. rewrite clean_row_unfold. by dict_simpl. Qed.

(** In a [dict] whose keys are the 7 fields, [get] reads what is stored. *)
Lemma required_lookup (d : pydict) (field : ustr) :
  dom d = list_to_set REQUIRED_FIELDS -> field ∈ REQUIRED_FIELDS ->
  d !! field = Some (dict_get d field).
Proof.
  intros Hd Hf. unfold dict_get. destruct (d !! field) eqn:E; [done|].
  apply not_elem_of_dom in E. rewrite Hd in E. exfalso. by apply E, elem_of_list_to_set.
Qed.

Lemma copy_fields_fixed (d : pydict) :
  dom d = list_to_set REQUIRED_FIELDS -> copy_fields d = d.
Proof.
  intros Hd. apply map_eq. intros k.
  destruct (decide (k ∈ REQUIRED_FIELDS)) as [Hk | Hk].
  - by rewrite copy_fields_lookup, required_lookup.
  - assert (H1 : copy_fields d !! k = None).
    { apply not_elem_of_dom. rewrite copy_fields_dom. by rewrite elem_of_list_to_set. }
    assert (H2 : d !! k = None).
    { apply not_elem_of_dom. rewrite Hd. by rewrite elem_of_list_to_set. }
    by rewrite H1, H2.
Qed.

Lemma clean_row_idemp (row : pydict) : clean_row (clean_row row) = clean_row row.
Proof.
  pose proof (clean_row_dom row) as Hd.
  rewrite (clean_row_unfold (clean_row row)), (copy_fields_fixed _ Hd).
  assert (Ha : clean_amount (dict_get (clean_row row) (u "total_amount"))
               = dict_get (clean_row row) (u "total_amount"))
    by (rewrite clean_row_amount; apply clean_amount_idemp).
  assert (Hm : clean_mobile (dict_get (clean_row row) (u "mobile_no"))
               = dict_get (clean_row row) (u "mobile_no"))
    by (rewrite clean_row_mobile; apply clean_mobile_idemp).
  assert (Hh : clean_adhar (dict_get (clean_row row) (u "loaner_adhar"))
               = dict_get (clean_row row) (u "loaner_adhar"))
    by (rewrite clean_row_adhar; apply clean_adhar_idemp).
  rewrite Ha, Hm, Hh.
  rewrite (insert_id (clean_row row) (u "total_amount"))
    by (apply required_lookup; [done | by_compute]).
  rewrite (insert_id (clean_row row) (u "mobile_no"))
    by (apply required_lookup; [done | by_compute]).
  apply insert_id, required_lookup; [done | by_compute].
Qed.

(** X5.  Validating a row that is already validated changes nothing, and so
    for a list of rows. *)
Theorem validate_and_clean_idempotent (data_list : list pydict) (row : pydict) :
  clean_row (clean_row row) = clean_row row
  /\ validate_and_clean (validate_and_clean data_list) = validate_and_clean data_list.
Proof.
  split; [apply clean_row_idemp|]. unfold validate_and_clean.
  rewrite List.map_map. apply List.map_ext. intros r. apply clean_row_idemp.
Qed.

(** ** The score of a row *)

Lemma alias_to_field_values (ao : ustr -> list ustr) (n f : ustr) :
  ALIAS_TO_FIELD ao !! n = Some f -> f ∈ REQUIRED_FIELDS.
Proof.
  unfold ALIAS_TO_FIELD. rewrite build_alias_to_field_pairs. intros H.
  apply fold_insert_inv in H as [H | H]; [|by rewrite lookup_empty in H].
  unfold alias_pairs in H.
  apply list_elem_of_In, List.in_flat_map in H as (fa & Hfa & H).
  apply List.in_map_iff in H as (alias & E & _). inversion E; subst.
  change REQUIRED_FIELDS with (FIELD_ALIASES.*1).
  apply list_elem_of_fmap. exists fa. split; [done | by apply list_elem_of_In].
Qed.

Lemma required_fields_size : size (list_to_set REQUIRED_FIELDS : gset ustr) = 7%nat.
Proof. rewrite size_list_to_set; [done | by_compute]. Qed.

Lemma row_score_le (ao : ustr -> list ustr) (raw_cells : list pyval) :
  (row_score ao raw_cells <= 7)%nat.
Proof.
  destruct (row_score_distinct ao raw_cells) as (matched & -> & Hm).
  rewrite <- required_fields_size. apply subseteq_size.
  intros f Hf. apply Hm in Hf as (cell & _ & _ & Hf).
  apply elem_of_list_to_set. by apply alias_to_field_values in Hf.
Qed.

(** X6.  The score [_detect_header_row] gives a row never exceeds the number
    of required fields, whatever the order in which the alias index was
    built; a row that reaches it names every required field in one of its
    cells. *)
Theorem row_score_bound (ao : ustr -> list ustr) (raw_cells : list pyval) :
  (row_score ao raw_cells <= length REQUIRED_FIELDS)%nat
  /\ (row_score ao raw_cells = length REQUIRED_FIELDS ->
      forall field, field ∈ REQUIRED_FIELDS ->
        exists cell, cell ∈ raw_cells /\ header_cell cell
          /\ ALIAS_TO_FIELD ao !! _normalize_column_name cell = Some field).
Proof.
  split; [apply row_score_le|].
  destruct (row_score_distinct ao raw_cells) as (matched & -> & Hm).
  intros Hs field Hf. apply Hm.
  assert (Hsub : matched ⊆ list_to_set REQUIRED_FIELDS).
  { intros f Hin. apply Hm in Hin as (cell & _ & _ & Hin).
    apply elem_of_list_to_set. by apply alias_to_field_values in Hin. }
  apply set_subseteq_size_eq in Hsub.
  - rewrite Hsub. by apply elem_of_list_to_set.
  - rewrite required_fields_size, Hs. done.
Qed.

Lemma row_score_bound_witness :
  exists cell, cell ∈ header_row /\ header_cell cell
    /\ ALIAS_TO_FIELD aliases_of !! _normalize_column_name cell = Some (u "mobile_no").
Proof.
  refine (proj2 (row_score_bound aliases_of header_row) _ (u "mobile_no") _).
  - vm_compute. reflexivity.
  - by_compute.
Defined.

(** ** The row the locator returns *)

Lemma first_index_spec (P : nat -> bool) (l : list nat) (i : nat) :
  first_index P l = Some i ->
  exists x, l !! i = Some x /\ P x = true
    /\ forall j y, (j < i)%nat -> l !! j = Some y -> P y = false.
Proof.
  revert i. induction l as [|x l IH]; intros i H; cbn [first_index] in H; [done|].
  destruct (P x) eqn:E.
  - inversion H; subst. exists x. split; [done|]. split; [done|]. intros j y Hj. lia.
  - destruct (first_index P l) as [k|]; [|done]. inversion H; subst.
    destruct (IH k eq_refl) as (x' & Hx & Hp & Hlt).
    exists x'. split; [done|]. split; [done|].
    intros [|j] y Hj Hy; [by inversion Hy; subst|].
    apply (Hlt j); [lia | done].
Qed.

Lemma lookup_map_firstn {A B : Type} (f : A -> B) (n : nat) (l : list A) (j : nat) (y : B) :
  List.map f (List.firstn n l) !! j = Some y ->
  exists x, l !! j = Some x /\ y = f x /\ (j < n)%nat.
Proof.
  revert n j. induction l as [|x l IH]; intros [|n] [|j] H; simpl in H; try done.
  - inversion H; subst. exists x. split; [done|]. split; [done | lia].
  - apply IH in H as (x' & Hx & -> & Hj). exists x'. split; [done|]. split; [done | lia].
Qed.

Lemma lookup_map_firstn_lt {A B : Type} (f : A -> B) (n : nat) (l : list A) (j : nat) (x : A) :
  (j < n)%nat -> l !! j = Some x -> List.map f (List.firstn n l) !! j = Some (f x).
Proof.
  revert n j. induction l as [|a l IH]; intros [|n] [|j] Hj H; simpl in *; try done; try lia.
  - by inversion H.
  - apply IH; [lia | done].
Qed.

Lemma lookup_map_Some {A B : Type} (f : A -> B) (l : list A) (j : nat) (x : A) :
  l !! j = Some x -> List.map f l !! j = Some (f x).
Proof.
  revert j. induction l as [|a l IH]; intros [|j] H; simpl in *; try done.
  - by inversion H.
  - by apply IH.
Qed.

Lemma max_list_ge (l : list nat) (j x : nat) : l !! j = Some x -> (x <= max_list l)%nat.
Proof. intros H. apply max_list_elem_of_le. by eapply list_elem_of_lookup_2. Qed.

(** X7.  The row that the header locator returns is one of the first
    [max_rows] rows of the probe, names at least 4 fields, and names
    strictly more fields than every row before it. *)
Theorem header_row_dominates (ao : ustr -> list ustr) (probe : list (list pyval))
    (max_rows i : nat) :
  detect_in ao probe max_rows = Some i ->
  exists row, probe !! i = Some row
    /\ (i < max_rows)%nat
    /\ (4 <= row_score ao row)%nat
    /\ forall j r, (j < i)%nat -> probe !! j = Some r ->
         (row_score ao r < row_score ao row)%nat.
Proof.
  rewrite detect_in_spec. unfold locate_spec.
  set (scores := List.map (row_score ao) (List.firstn max_rows probe)).
  change (length REQUIRED_FIELDS) with 7%nat.
  destruct (first_index (Nat.eqb 7) scores) as [k|] eqn:E7.
  - intros H. inversion H; subst k. clear H.
    apply first_index_spec in E7 as (x & Hx & Hp & Hlt).
    apply Nat.eqb_eq in Hp. subst x.
    apply lookup_map_firstn in Hx as (row & Hrow & Hs & Hi).
    exists row. split; [done|]. split; [done|]. split; [lia|].
    intros j r Hj Hr. rewrite <- Hs.
    pose proof (row_score_le ao r) as Hle.
    assert (Hne : Nat.eqb 7 (row_score ao r) = false).
    { apply (Hlt j); [done|]. apply lookup_map_firstn_lt; [lia | done]. }
    apply Nat.eqb_neq in Hne. lia.
  - destruct (Nat.leb_spec 4 (max_list scores)) as [H4 | H4]; [|done].
    intros H. apply first_index_spec in H as (x & Hx & Hp & Hlt).
    apply Nat.eqb_eq in Hp. subst x.
    apply lookup_map_firstn in Hx as (row & Hrow & Hs & Hi).
    exists row. split; [done|]. split; [done|]. split; [lia|].
    intros j r Hj Hr. rewrite <- Hs.
    assert (Hsj : scores !! j = Some (row_score ao r))
      by (apply lookup_map_firstn_lt; [lia | done]).
    pose proof (max_list_ge _ _ _ Hsj) as Hle.
    pose proof (Hlt j _ Hj Hsj) as Hne. apply Nat.eqb_neq in Hne. lia.
Qed.

Lemma header_row_dominates_witness :
  exists row, example_probe !! 7%nat = Some row
    /\ (7 < 15)%nat
    /\ (4 <= row_score aliases_of row)%nat
    /\ forall j r, (j < 7)%nat -> example_probe !! j = Some r ->
         (row_score aliases_of r < row_score aliases_of row)%nat.
Proof.
  refine (header_row_dominates aliases_of example_probe 15 7 _).
  vm_compute. reflexivity.
Defined.

(** ** Columns with the same normalized label *)

Lemma normalized_columns_skip (post : list pyval) (acc : gmap ustr pyval) (k : ustr) :
  Forall (fun c => _normalize_column_name c ≠ k) post ->
  List.fold_left
    (fun acc col =>
       let normalized := _normalize_column_name col in
       if negb (startswith (u "unnamed") normalized)
       then <[normalized := col]> acc
       else acc)
    post acc !! k = acc !! k.
Proof.
  intros H. revert acc. induction H as [|c post Hc Hpost IH]; intros acc; simpl; [done|].
  rewrite IH. destruct (negb _); [|done]. by rewrite lookup_insert_ne.
Qed.

Lemma normalized_columns_last (pre post : list pyval) (col : pyval) :
  startswith (u "unnamed") (_normalize_column_name col) = false ->
  Forall (fun c => _normalize_column_name c ≠ _normalize_column_name col) post ->
  normalized_columns (pre ++ col :: post) !! _normalize_column_name col = Some col.
Proof.
  intros Hu Hpost. unfold normalized_columns.
  rewrite List.fold_left_app. cbn [List.fold_left]. cbv zeta.
  rewrite normalized_columns_skip by done.
  rewrite Hu. cbn [negb]. by rewrite lookup_insert_eq.
Qed.

Lemma match_column_lookup (m : gmap ustr pyval) (candidates : list ustr) :
  match_column m candidates ≠ VNone ->
  exists alias, alias ∈ candidates
    /\ m !! _normalize_column_name (VStr alias) = Some (match_column m candidates).
Proof.
  induction candidates as [|a candidates IH]; simpl; [done|].
  destruct (m !! _normalize_column_name (VStr a)) as [col|] eqn:E.
  - intros _. exists a. split; [apply elem_of_cons; by left | done].
  - intros H. destruct (IH H) as (alias & Hin & Hl).
    exists alias. split; [apply elem_of_cons; by right | done].
Qed.

Lemma resolve_mapping_lookup (ao : ustr -> list ustr) (df : DataFrame)
    (m : gmap ustr pyval) (field : ustr) (col : pyval) :
  _resolve_field_mapping ao df = Some m -> m !! field = Some col ->
  field ∈ REQUIRED_FIELDS
  /\ exists alias, alias ∈ ao field
       /\ normalized_columns (columns df) !! _normalize_column_name (VStr alias) = Some col.
Proof.
  intros Hm Hl. apply resolve_fields_Some in Hm as [H1 H2].
  destruct (decide (field ∈ REQUIRED_FIELDS)) as [Hf | Hf].
  - split; [done|]. destruct (H1 _ Hf) as [Hne Hl']. rewrite Hl' in Hl.
    inversion Hl; subst col. by apply match_column_lookup.
  - by rewrite (H2 _ Hf), lookup_empty in Hl.
Qed.

(** X8.  In a mapping returned by [_resolve_field_mapping], the column of a
    field is a column of the sheet whose normalized label is a normalized
    alias of the field and does not start with [unnamed]; and among the
    columns with that normalized label it is the last one. *)
Theorem mapped_column_is_last (ao : ustr -> list ustr) (df : DataFrame)
    (m : gmap ustr pyval) (field : ustr) (col : pyval) :
  _resolve_field_mapping ao df = Some m ->
  m !! field = Some col ->
  col ∈ columns df
  /\ startswith (u "unnamed") (_normalize_column_name col) = false
  /\ (exists alias, alias ∈ ao field
        /\ _normalize_column_name col = _normalize_column_name (VStr alias))
  /\ forall pre c post,
       columns df = pre ++ c :: post ->
       _normalize_column_name c = _normalize_column_name col ->
       Forall (fun x => _normalize_column_name x ≠ _normalize_column_name col) post ->
       col = c.
Proof.
  intros Hm Hl.
  destruct (resolve_mapping_lookup ao df m field col Hm Hl) as (Hf & alias & Ha & Hn).
  pose proof Hn as Hn'.
  apply normalized_columns_sound in Hn' as (Hin & Hk & Hu).
  split; [done|]. split; [by rewrite Hk|]. split; [by exists alias|].
  intros pre c post Hcols Hc Hpost.
  assert (Hlast : normalized_columns (columns df) !! _normalize_column_name c = Some c).
  { rewrite Hcols. apply normalized_columns_last; [by rewrite Hc, Hk | by rewrite Hc]. }
  rewrite Hc, Hk, Hn in Hlast. by inversion Hlast.
Qed.

Lemma mapped_column_is_last_witness : VStr (u "Phone") ∈ columns duplicate_sheet.
Proof.
  refine (proj1 (mapped_column_is_last aliases_of duplicate_sheet duplicate_sheet_mapping
                   (u "mobile_no") (VStr (u "Phone")) _ _)).
  - vm_compute. reflexivity.
  - vm_compute. reflexivity.
Defined.

(** ** The rows of the direct mapper *)

Lemma clean_nan_idemp (v : pyval) : _clean_nan (_clean_nan v) = _clean_nan v.
Proof.
  destruct v as [|b|z|f|s|t tr mi]; cbn [_clean_nan]; try done.
  - destruct (Float.is_nan f) eqn:E; cbn [_clean_nan]; by rewrite ?E.
  - pose proof (strip_idemp s) as Hi.
    destruct (strip s) as [|c r] eqn:E; [done|]. cbn [_clean_nan]. by rewrite Hi.
Qed.

Lemma direct_row_fold (cols : list pyval) (m : gmap ustr pyval) (row : list pyval) :
  let r :=
    List.fold_left
      (fun (direct_row : pydict) (fc : ustr * pyval) =>
         <[fst fc := _clean_nan (record_get cols row (snd fc))]> direct_row)
      (List.combine REQUIRED_FIELDS (List.map (dict_get m) REQUIRED_FIELDS)) ∅ in
  dom r = list_to_set REQUIRED_FIELDS
  /\ forall field, field ∈ REQUIRED_FIELDS ->
       r !! field = Some (_clean_nan (record_get cols row (dict_get m field))).
Proof.
  cbv zeta. split.
  - cbn [List.fold_left List.combine List.map REQUIRED_FIELDS fst snd].
    rewrite !dom_insert_L, dom_empty_L. cbn [list_to_set]. set_solver.
  - intros field Hf. unfold REQUIRED_FIELDS in Hf. rewrite !elem_of_cons, elem_of_nil in Hf.
    repeat destruct Hf as [Hf | Hf]; try done; subst field;
      cbn [List.fold_left List.combine List.map REQUIRED_FIELDS fst snd]; by dict_simpl.
Qed.

Lemma extract_direct_rows_None (ao : ustr -> list ustr) (df : DataFrame) :
  _extract_direct_rows ao df = None <-> _resolve_field_mapping ao df = None.
Proof.
  unfold _extract_direct_rows. cbv zeta.
  change (_resolve_field_mapping ao (dropna_all df)) with (_resolve_field_mapping ao df).
  by destruct (_resolve_field_mapping ao df).
Qed.

(** X9.  [_extract_direct_rows] returns nothing exactly when the header
    mapping of the sheet fails; the rows that are entirely empty play no
    part in that.  Otherwise it returns one row for each row that is not
    entirely empty, in order; such a row has exactly the 7 fields as keys
    and holds, under each field, the cleaned cell of the column mapped to
    the field, so that no value is a NaN, a blank text or a text with
    blanks around it. *)
Theorem extract_direct_rows_shape (ao : ustr -> list ustr) (df : DataFrame) :
  (_extract_direct_rows ao df = None <-> _resolve_field_mapping ao df = None)
  /\ forall direct_rows, _extract_direct_rows ao df = Some direct_rows ->
       exists m, _resolve_field_mapping ao df = Some m
         /\ length direct_rows = length (rows (dropna_all df))
         /\ (forall i row, rows (dropna_all df) !! i = Some row ->
               exists r, direct_rows !! i = Some r /\ direct_row_of (columns df) m row r)
         /\ (forall r, r ∈ direct_rows ->
               dom r = list_to_set REQUIRED_FIELDS
               /\ forall field v, r !! field = Some v -> cleaned v).
Proof.
  unfold _extract_direct_rows. cbv zeta.
  change (_resolve_field_mapping ao (dropna_all df)) with (_resolve_field_mapping ao df).
  change (columns (dropna_all df)) with (columns df).
  destruct (_resolve_field_mapping ao df) as [m|] eqn:Em; [|done].
  split; [done|]. intros direct_rows [= <-].
  exists m. split; [done|]. split; [by rewrite List.length_map|]. split.
  - intros i row Hrow.
    eexists. split; [apply (lookup_map_Some _ _ _ _ Hrow)|].
    intros field col Hf.
    destruct (direct_row_fold (columns df) m row) as [_ Hl].
    pose proof (resolve_mapping_dom ao df m Em) as Hd.
    assert (Hreq : field ∈ (list_to_set REQUIRED_FIELDS : gset ustr))
      by (rewrite <- Hd; apply elem_of_dom; by eexists).
    apply elem_of_list_to_set in Hreq.
    specialize (Hl _ Hreq).
    assert (E : dict_get m field = col) by (unfold dict_get; by rewrite Hf).
    rewrite E in Hl. exact Hl.
  - intros r Hin. apply list_elem_of_In, List.in_map_iff in Hin as (row & <- & _).
    destruct (direct_row_fold (columns df) m row) as [Hd Hl].
    split; [exact Hd|]. intros field v Hv.
    assert (Hreq : field ∈ (list_to_set REQUIRED_FIELDS : gset ustr))
      by (rewrite <- Hd; apply elem_of_dom; by eexists).
    apply elem_of_list_to_set in Hreq.
    assert (E : Some v = Some (_clean_nan (record_get (columns df) row (dict_get m field))))
      by (rewrite <- Hv; exact (Hl _ Hreq)).
    inversion E. apply clean_nan_idemp.
Qed.

Lemma extract_direct_rows_shape_witness :
  exists m, _resolve_field_mapping aliases_of example_sheet = Some m
    /\ length example_direct_rows = length (rows (dropna_all example_sheet))
    /\ (forall i row, rows (dropna_all example_sheet) !! i = Some row ->
          exists r, example_direct_rows !! i = Some r
            /\ direct_row_of (columns example_sheet) m row r)
    /\ (forall r, r ∈ example_direct_rows ->
          dom r = list_to_set REQUIRED_FIELDS
          /\ forall field v, r !! field = Some v -> cleaned v).
Proof.
  refine (proj2 (extract_direct_rows_shape aliases_of example_sheet) example_direct_rows _).
  vm_compute. reflexivity.
Defined.

(** ** The reconciled identifier, reconciled again *)

Lemma ustr_of_uint_digits (d : Decimal.uint) :
  List.forallb is_ascii_digit (ustr_of_uint d) = true.
Proof. induction d; simpl; try done. Qed.

Lemma str_of_N_nonempty (n : N) : str_of_N n ≠ [].
Proof.
  unfold str_of_N. destruct n as [|p]; [done|]. simpl.
  pose proof (DecimalPos.Unsigned.to_uint_nonnil p) as H.
  by destruct (Pos.to_uint p).
Qed.

Lemma str_of_N_digits (n : N) : List.forallb is_ascii_digit (str_of_N n) = true.
Proof. apply ustr_of_uint_digits. Qed.

(** A text of digits ends with a digit. *)
Lemma digits_rev (s : ustr) :
  List.forallb is_ascii_digit s = true -> s ≠ [] ->
  exists d r, List.rev s = d :: r /\ is_ascii_digit d = true
    /\ List.forallb is_ascii_digit r = true.
Proof.
  intros Hd Hne.
  assert (Hr : List.forallb is_ascii_digit (List.rev s) = true).
  { rewrite List.forallb_forall in Hd |- *. intros x Hx. apply Hd. by apply List.in_rev. }
  destruct (List.rev s) as [|d r] eqn:E.
  - apply (f_equal (@List.rev N)) in E. rewrite List.rev_involutive in E. done.
  - simpl in Hr. apply andb_true_iff in Hr as [H1 H2]. by exists d, r.
Qed.

Lemma digit_facts (c : N) :
  is_ascii_digit c = true -> is_space c = false /\ c ≠ 46%N.
Proof.
  intros H.
  assert (Hc : (c < 128)%N).
  { unfold is_ascii_digit, in_range in H. apply andb_true_iff in H as [_ H].
    apply N.leb_le in H. lia. }
  assert (A : implb (is_ascii_digit c) (negb (is_space c) && negb (c =? 46)%N) = true).
  { clear H. revert c Hc. apply ascii_forall. vm_compute. reflexivity. }
  rewrite H in A. simpl in A. apply andb_true_iff in A as [A1 A2].
  split; [by apply negb_true_iff|]. apply negb_true_iff in A2. by apply N.eqb_neq.
Qed.

(** The last two characters of a text that ends in [".0"]. *)
Lemma endswith_dot0 (s : ustr) :
  endswith (u ".0") s = true -> exists r, List.rev s = 48%N :: 46%N :: r.
Proof.
  unfold endswith, startswith. change (List.rev (u ".0")) with [48%N; 46%N].
  destruct (List.rev s) as [|a [|b r]]; cbn [strip_prefix].
  - done.
  - by destruct (48 =? a)%N.
  - destruct (N.eqb_spec 48 a) as [<-|]; [|done].
    destruct (N.eqb_spec 46 b) as [<-|]; [|done]. by exists r.
Qed.

(** A text the reconciler returns as it is. *)
Lemma ensure_id_text (s : ustr) (index : Z) (batch_tag : ustr) :
  strip s = s -> s ≠ [] ->
  endswith (u ".0") s = false
  \/ Float.of_str s = None
  \/ (exists f, Float.of_str s = Some f /\ Float.to_int f = None) ->
  _ensure_loaner_id (VStr s) index batch_tag = s.
Proof.
  intros Hs Hne H. unfold _ensure_loaner_id. cbn [py_str]. rewrite Hs.
  destruct s as [|c r]; [done|].
  destruct H as [-> | [-> | (f & -> & ->)]]; [done | |];
    by destruct (endswith (u ".0") (c :: r)).
Qed.

Lemma str_of_Z_chars (z : Z) :
  str_of_Z z ≠ []
  /\ (forall c, List.In c (str_of_Z z) -> is_space c = false /\ c ≠ 46%N).
Proof.
  assert (Hn : forall n c, List.In c (str_of_N n) -> is_space c = false /\ c ≠ 46%N).
  { intros n c Hc. apply digit_facts.
    pose proof (str_of_N_digits n) as Hd. rewrite List.forallb_forall in Hd. by apply Hd. }
  destruct z as [|p|p]; cbn [str_of_Z].
  - split; [apply str_of_N_nonempty | apply Hn].
  - split; [apply str_of_N_nonempty | apply Hn].
  - split; [done|]. intros c [<- | Hc]; [done | by apply (Hn (Npos p))].
Qed.

(** A text none of whose characters is a blank or a dot. *)
Lemma ensure_id_plain (s : ustr) :
  s ≠ [] -> (forall c, List.In c s -> is_space c = false /\ c ≠ 46%N) ->
  strip s = s /\ endswith (u ".0") s = false.
Proof.
  intros Hne Hc. split.
  - apply strip_with_fixed.
    + destruct s as [|c r]; [done|]. apply Hc. by left.
    + destruct (List.rev s) as [|c r] eqn:E; [done|].
      apply Hc, List.in_rev. rewrite E. by left.
  - destruct (endswith (u ".0") s) eqn:E; [|done].
    apply endswith_dot0 in E as [r E].
    assert (Hin : List.In 46%N s) by (apply List.in_rev; rewrite E; right; by left).
    by destruct (Hc _ Hin).
Qed.

Lemma format_04d_rev (z : Z) :
  exists d1 d2 r, List.rev (format_04d z) = d1 :: d2 :: r
    /\ is_ascii_digit d1 = true /\ is_ascii_digit d2 = true.
Proof.
  assert (Hp : forall w n, (2 <= w)%nat ->
            exists d1 d2 r, List.rev (zero_pad w (str_of_N n)) = d1 :: d2 :: r
              /\ is_ascii_digit d1 = true /\ is_ascii_digit d2 = true).
  { intros w n Hw.
    assert (Hd : List.forallb is_ascii_digit (zero_pad w (str_of_N n)) = true).
    { unfold zero_pad. rewrite List.forallb_app, str_of_N_digits, andb_true_r.
      apply List.forallb_forall. intros x Hx. by apply List.repeat_spec in Hx as ->. }
    pose proof (zero_pad_length w (str_of_N n)) as Hl.
    destruct (digits_rev _ Hd) as (d1 & r & E & H1 & Hr).
    { intros E. rewrite E in Hl. simpl in Hl. lia. }
    destruct r as [|d2 r].
    - apply (f_equal (@length N)) in E. rewrite List.length_rev, Hl in E. simpl in E. lia.
    - simpl in Hr. apply andb_true_iff in Hr as [H2 _]. by exists d1, d2, r. }
  destruct z as [|p|p]; cbn [format_04d].
  - apply Hp. lia.
  - apply Hp. lia.
  - destruct (Hp 3%nat (Npos p)) as (d1 & d2 & r & E & H1 & H2); [lia|].
    exists d1, d2, (r ++ [45%N]). split; [|done].
    cbn [List.rev]. by rewrite E.
Qed.

Lemma auto_id_text (index : Z) (batch_tag : ustr) :
  auto_id index batch_tag ≠ []
  /\ strip (auto_id index batch_tag) = auto_id index batch_tag
  /\ endswith (u ".0") (auto_id index batch_tag) = false.
Proof.
  destruct (format_04d_rev index) as (d1 & d2 & r & E & H1 & H2).
  assert (Er : List.rev (auto_id index batch_tag)
               = d1 :: d2 :: r ++ List.rev batch_tag ++ List.rev (u "AUTO")).
  { unfold auto_id. rewrite !List.rev_app_distr, E. simpl. by rewrite <- List.app_assoc. }
  split; [done|]. split.
  - apply strip_with_fixed; [done|]. rewrite Er. by apply digit_facts.
  - destruct (endswith (u ".0") (auto_id index batch_tag)) eqn:Ee; [|done].
    apply endswith_dot0 in Ee as [r' Ee]. rewrite Er in Ee. inversion Ee; subst.
    by apply digit_facts in H2 as [_ H2].
Qed.

(** The reconciler returns the identifier it synthesizes, an integer
    written in decimal, or the trimmed text it was given. *)
Lemma ensure_id_cases (value : pyval) (index : Z) (batch_tag : ustr) :
  _ensure_loaner_id value index batch_tag = auto_id index batch_tag
  \/ (exists z, _ensure_loaner_id value index batch_tag = str_of_Z z)
  \/ (_ensure_loaner_id value index batch_tag = strip (py_str value)
      /\ strip (py_str value) ≠ []
      /\ (endswith (u ".0") (strip (py_str value)) = false
          \/ Float.of_str (strip (py_str value)) = None
          \/ exists f, Float.of_str (strip (py_str value)) = Some f
               /\ Float.to_int f = None)).
Proof.
  destruct value as [|b|z|f|s|t tr mi]; [by left | ..];
    unfold _ensure_loaner_id;
    (destruct (strip (py_str _)) as [|c r] eqn:Es; [by left|]);
    (destruct (endswith (u ".0") (c :: r)) eqn:Ee; [|right; right; by auto]);
    (destruct (Float.of_str (c :: r)) as [x|] eqn:Ef; [|right; right; by auto]);
    (destruct (Float.to_int x) as [n|] eqn:Ez;
       [ right; left; by exists n
       | right; right; split; [done|]; split; [done|]; right; right; by exists x ]).
Qed.

Lemma ensure_id_trimmed (value : pyval) (index : Z) (batch_tag : ustr) :
  _ensure_loaner_id value index batch_tag ≠ []
  /\ strip (_ensure_loaner_id value index batch_tag) = _ensure_loaner_id value index batch_tag.
Proof.
  destruct (ensure_id_cases value index batch_tag) as [E | [[z E] | (E & Hne & Hc)]];
    rewrite E.
  - destruct (auto_id_text index batch_tag) as (H1 & H2 & _). done.
  - destruct (str_of_Z_chars z) as [H1 H2].
    destruct (ensure_id_plain _ H1 H2) as [H3 _]. done.
  - split; [done | apply strip_idemp].
Qed.

(** X10.  The identifier [_ensure_loaner_id] returns is never empty and has no
    blank at either end; reconciling it again, at any index and for any
    batch, gives it back unchanged. *)
Theorem ensure_id_stable (value : pyval) (index index' : Z) (batch_tag batch_tag' : ustr) :
  _ensure_loaner_id value index batch_tag ≠ []
  /\ strip (_ensure_loaner_id value index batch_tag) = _ensure_loaner_id value index batch_tag
  /\ _ensure_loaner_id (VStr (_ensure_loaner_id value index batch_tag)) index' batch_tag'
     = _ensure_loaner_id value index batch_tag.
Proof.
  destruct (ensure_id_trimmed value index batch_tag) as [Hne Hs].
  split; [done|]. split; [done|].
  destruct (ensure_id_cases value index batch_tag) as [E | [[z E] | (E & _ & Hc)]];
    rewrite E; rewrite E in Hne, Hs.
  - apply ensure_id_text; [done | done |]. left. apply auto_id_text.
  - apply ensure_id_text; [done | done |]. left.
    destruct (str_of_Z_chars z) as [H1 H2]. by apply ensure_id_plain.
  - by apply ensure_id_text.
Qed.

(** ** The upload *)

Lemma clean_mobile_valid (v : pyval) :
  py_truthy (clean_mobile v) = true -> match_mobile (py_str (clean_mobile v)) = true.
Proof.
  unfold clean_mobile.
  destruct (py_truthy v) eqn:T, (match_mobile (py_str v)) eqn:M; simpl; congruence.
Qed.

Lemma clean_adhar_valid (v : pyval) :
  py_truthy (clean_adhar v) = true -> match_adhar (py_str (clean_adhar v)) = true.
Proof.
  unfold clean_adhar.
  destruct (py_truthy v) eqn:T, (match_adhar (py_str v)) eqn:M; simpl; congruence.
Qed.

Lemma with_id_persisted (batch_tag : ustr) (i : Z) (row : pydict) :
  persisted_row (with_id batch_tag i (clean_row row)).
Proof.
  unfold with_id, persisted_row.
  set (c := clean_row row).
  set (id := _ensure_loaner_id (dict_get c (u "loaner_id")) i batch_tag).
  split; [|split; [|split; [|split]]].
  - rewrite dom_insert_L. unfold c. rewrite clean_row_dom.
    cbn [REQUIRED_FIELDS list_to_set]. set_solver.
  - exists id. rewrite lookup_insert_eq.
    by destruct (ensure_id_trimmed (dict_get c (u "loaner_id")) i batch_tag).
  - rewrite dict_get_insert_ne by key_neq. unfold c. rewrite clean_row_amount.
    unfold clean_amount. destruct (is_none _); [by left|].
    destruct (py_float _) as [f|]; [right; by exists f | by left].
  - rewrite dict_get_insert_ne by key_neq. unfold c. rewrite clean_row_mobile.
    apply clean_mobile_valid.
  - rewrite dict_get_insert_ne by key_neq. unfold c. rewrite clean_row_adhar.
    apply clean_adhar_valid.
Qed.

Section Upload.

Variable alias_order : ustr -> list ustr.
Variable read_excel : list Byte.byte -> header_arg -> DataFrame + ustr.
Variable DB : Type.
Variable db_add : DB -> pydict -> DB * add_outcome.
Variable db_commit : DB -> DB.
Variable db_rollback : DB -> DB.
Variable db_query : DB -> list pydict.

(** The insertion loop: the rows it adds, in order, and its counters. *)
Lemma persist_rows_spec (batch_tag : ustr) (clean_data : list pydict) (db : DB) (i : Z) :
  exists db' inserted skipped failed,
    persist_rows DB db_add batch_tag db i clean_data
    = (imap (fun k row => with_id batch_tag (i + Z.of_nat k) row) clean_data,
       db', (inserted, skipped, failed),
       List.map EvAdd (imap (fun k row => with_id batch_tag (i + Z.of_nat k) row) clean_data))
    /\ (inserted + skipped + failed = length clean_data)%nat.
Proof.
  revert db i. induction clean_data as [|row rest IH]; intros db i.
  - exists db, 0%nat, 0%nat, 0%nat. done.
  - cbn [persist_rows]. fold (with_id batch_tag i row).
    destruct (db_add db (with_id batch_tag i row)) as [db1 outcome].
    destruct (IH db1 (i + 1)%Z) as (db' & ins & skp & fl & E & Hs). rewrite E.
    assert (Ei : imap (fun k r => with_id batch_tag (i + Z.of_nat k) r) (row :: rest)
                 = with_id batch_tag i row
                   :: imap (fun k r => with_id batch_tag (i + 1 + Z.of_nat k) r) rest).
    { cbn [imap]. rewrite Z.add_0_r. f_equal. apply imap_ext. intros k r _.
      unfold compose. f_equal. lia. }
    rewrite Ei. cbn [List.map length].
    destruct outcome.
    + exists db', (S ins), skp, fl. split; [done | lia].
    + exists db', ins, (S skp), fl. split; [done | lia].
    + exists db', ins, skp, (S fl). split; [done | lia].
Qed.

(** The upload, once the sheet is loaded and mapped. *)
Lemma upload_mapped (file_bytes : list Byte.byte) (batch_tag : ustr) (db : DB)
    (df : DataFrame) (mapped_rows : list pydict) (source : mapping_source) :
  file_bytes ≠ [] ->
  _load_excel_with_best_header alias_order read_excel file_bytes = inl df ->
  match _extract_direct_rows alias_order df with
  | Some direct_rows => Some (direct_rows, direct_header)
  | None =>
      match _extract_rows_by_content df with
      | Some rows => Some (rows, content_heuristic)
      | None => None
      end
  end = Some (mapped_rows, source) ->
  let added :=
    imap (fun k row => with_id batch_tag (1 + Z.of_nat k) row)
         (validate_and_clean mapped_rows) in
  exists db' inserted skipped failed,
    upload_excel alias_order read_excel DB db_add db_commit db_rollback db_query
      file_bytes batch_tag db
    = (Success {| ok_mapping_source := source;
                  rows_inserted := inserted;
                  duplicates_skipped := skipped;
                  failed_rows := failed;
                  total_processed := length added;
                  preview := List.firstn 3 added;
                  data := db_query (db_commit db') |},
       db_commit db', List.map EvAdd added ++ [EvCommit; EvQuery])
    /\ (inserted + skipped + failed = length added)%nat.
Proof.
  intros Hb Hload Hmap. cbv zeta.
  destruct (persist_rows_spec batch_tag (validate_and_clean mapped_rows) db 1)
    as (db' & ins & skp & fl & E & Hs).
  exists db', ins, skp, fl. split; [|by rewrite length_imap].
  unfold upload_excel. destruct file_bytes as [|b bs]; [done|].
  rewrite Hload. cbv zeta. rewrite Hmap, E. reflexivity.
Qed.

(** Every outcome of the upload. *)
Lemma upload_outcome (file_bytes : list Byte.byte) (batch_tag : ustr) (db : DB) :
  (exists status detail,
     (status = 400 \/ status = 500)%nat
     /\ upload_excel alias_order read_excel DB db_add db_commit db_rollback db_query
          file_bytes batch_tag db
        = (HTTPException status detail, db_rollback db, [EvRollback]))
  \/ (exists df mapped_rows source db' inserted skipped failed,
        let added :=
          imap (fun k row => with_id batch_tag (1 + Z.of_nat k) row)
               (validate_and_clean mapped_rows) in
        _load_excel_with_best_header alias_order read_excel file_bytes = inl df
        /\ match _extract_direct_rows alias_order df with
           | Some direct_rows => Some (direct_rows, direct_header)
           | None =>
               match _extract_rows_by_content df with
               | Some rows => Some (rows, content_heuristic)
               | None => None
               end
           end = Some (mapped_rows, source)
        /\ upload_excel alias_order read_excel DB db_add db_commit db_rollback db_query
          file_bytes batch_tag db
        = (Success {| ok_mapping_source := source;
                      rows_inserted := inserted;
                      duplicates_skipped := skipped;
                      failed_rows := failed;
                      total_processed := length added;
                      preview := List.firstn 3 added;
                      data := db_query (db_commit db') |},
           db_commit db', List.map EvAdd added ++ [EvCommit; EvQuery])
        /\ (inserted + skipped + failed = length added)%nat).
Proof.
  destruct file_bytes as [|b bs] eqn:Eb.
  { left. exists 400%nat, (u "Uploaded file is empty"). split; [by left | done]. }
  rewrite <- Eb.
  destruct (_load_excel_with_best_header alias_order read_excel file_bytes) as [df|e] eqn:El.
  2:{ left. exists 500%nat, e. split; [by right|].
      unfold upload_excel. rewrite El. by rewrite Eb. }
  destruct (match _extract_direct_rows alias_order df with
            | Some direct_rows => Some (direct_rows, direct_header)
            | None =>
                match _extract_rows_by_content df with
                | Some rows => Some (rows, content_heuristic)
                | None => None
                end
            end) as [[mapped_rows source]|] eqn:Em.
  - right.
    destruct (upload_mapped file_bytes batch_tag db df mapped_rows source)
      as (db' & ins & skp & fl & E & Hs); [by rewrite Eb | done | done |].
    by exists df, mapped_rows, source, db', ins, skp, fl.
  - left. exists 400%nat, (unmappable_detail df). split; [by left|].
    unfold upload_excel. rewrite El. cbv zeta. rewrite Em. by rewrite Eb.
Qed.

(** X11.  An empty upload is answered with the error 400 [Uploaded file is
    empty]; when one of the reads of the loader raises, the upload is
    answered with the error 500 carrying the message of the reader.  Every
    error answer of the upload has status 400 or 500, and the only call
    made on the session before it is the rollback (commit and query are
    taken not to raise). *)
Theorem upload_error_paths (file_bytes : list Byte.byte) (batch_tag : ustr) (db : DB) :
  (file_bytes = [] ->
   upload_excel alias_order read_excel DB db_add db_commit db_rollback db_query
     file_bytes batch_tag db
   = (HTTPException 400 (u "Uploaded file is empty"), db_rollback db, [EvRollback]))
  /\ (forall e, file_bytes ≠ [] ->
        _load_excel_with_best_header alias_order read_excel file_bytes = inr e ->
        upload_excel alias_order read_excel DB db_add db_commit db_rollback db_query
          file_bytes batch_tag db
        = (HTTPException 500 e, db_rollback db, [EvRollback])
        /\ exists header, read_excel file_bytes header = inr e)
  /\ (forall status detail db' evs,
        upload_excel alias_order read_excel DB db_add db_commit db_rollback db_query
          file_bytes batch_tag db
        = (HTTPException status detail, db', evs) ->
        (status = 400 \/ status = 500)%nat /\ db' = db_rollback db /\ evs = [EvRollback]).
Proof.
  split; [|split].
  - by intros ->.
  - intros e Hb Hl. split.
    + unfold upload_excel. rewrite Hl. by destruct file_bytes.
    + unfold _load_excel_with_best_header, _detect_header_row in Hl.
      destruct (read_excel file_bytes (HeaderRow 0)) as [df|e0] eqn:E0.
      2:{ inversion Hl; subst. by exists (HeaderRow 0). }
      destruct (_resolve_field_mapping alias_order df); [done|].
      destruct (read_excel file_bytes HeaderNone) as [probe|e1] eqn:E1.
      2:{ inversion Hl; subst. by exists HeaderNone. }
      destruct (detect_in alias_order (rows probe) 15) as [h|]; [|done].
      by exists (HeaderRow h).
  - intros status detail db' evs H.
    destruct (upload_outcome file_bytes batch_tag db)
      as [(st & dt & Hst & E) | (df & mr & src & d & i & s & f & _ & _ & E & _)];
      rewrite E in H; [|done].
    by inversion H; subst.
Qed.

(** X12.  In a successful upload the session receives one insertion for each
    processed row, in order, then the commit, then the query; the three
    counters of the report add up to the number of processed rows; the
    preview is made of the first 3 rows handed to the session; the data of
    the report is what the query returns on the session the upload
    leaves. *)
Theorem upload_success_accounting (file_bytes : list Byte.byte) (batch_tag : ustr) (db : DB)
    (r : upload_ok) (db' : DB) (evs : list db_event) :
  upload_excel alias_order read_excel DB db_add db_commit db_rollback db_query
    file_bytes batch_tag db
  = (Success r, db', evs) ->
  exists added : list pydict,
    evs = List.map EvAdd added ++ [EvCommit; EvQuery]
    /\ total_processed r = length added
    /\ (rows_inserted r + duplicates_skipped r + failed_rows r = total_processed r)%nat
    /\ preview r = List.firstn 3 added
    /\ data r = db_query db'.
Proof.
  intros H.
  destruct (upload_outcome file_bytes batch_tag db)
    as [(st & dt & Hst & E) | (df & mr & src & d & i & s & f & Hl & Hm & E & Hs)];
    rewrite E in H; [done|].
  inversion H; subst. eexists. split; [reflexivity|]. cbn. done.
Qed.

(** X13.  The report of a successful upload names [direct_header] as mapping
    source exactly when the headers of the loaded sheet map to the 7
    fields; when it names [content_heuristic] at least one row was
    processed. *)
Theorem upload_mapping_source (file_bytes : list Byte.byte) (batch_tag : ustr) (db : DB)
    (r : upload_ok) (db' : DB) (evs : list db_event) :
  upload_excel alias_order read_excel DB db_add db_commit db_rollback db_query
    file_bytes batch_tag db
  = (Success r, db', evs) ->
  exists df,
    _load_excel_with_best_header alias_order read_excel file_bytes = inl df
    /\ (ok_mapping_source r = direct_header
        <-> is_Some (_resolve_field_mapping alias_order df))
    /\ (ok_mapping_source r = content_heuristic -> (1 <= total_processed r)%nat).
Proof.
  intros H.
  destruct (upload_outcome file_bytes batch_tag db)
    as [(st & dt & Hst & E) | (df & mr & src & d & i & s & f & Hl & Hm & E & Hs)];
    rewrite E in H; [done|].
  inversion H; subst. clear H. exists df. split; [done|].
  cbn [ok_mapping_source total_processed].
  pose proof (extract_direct_rows_None alias_order df) as Hd.
  destruct (_extract_direct_rows alias_order df) as [direct_rows|] eqn:Ed.
  - inversion Hm; subst. split; [|done]. split; [|done]. intros _.
    destruct (_resolve_field_mapping alias_order df) as [m|]; [by eexists|].
    discriminate (proj2 Hd eq_refl).
  - pose proof (extract_rows_by_content_nonempty df) as Hne.
    destruct (_extract_rows_by_content df) as [rows|]; [|done].
    inversion Hm; subst. split.
    + rewrite (proj1 Hd eq_refl). split; [done | by intros [m Hsome]].
    + intros _. rewrite length_imap. unfold validate_and_clean. rewrite List.length_map.
      destruct mr; [done | simpl; lia].
Qed.

(** X14.  Every row that an upload hands to the session has exactly the 7
    fields as keys; its identifier is a trimmed text that is not empty; its
    amount is [None] or a float; its mobile number and its identity number,
    unless they are false as a condition, match their patterns. *)
Theorem upload_persisted_rows (file_bytes : list Byte.byte) (batch_tag : ustr) (db : DB)
    (resp : response) (db' : DB) (evs : list db_event) (row : pydict) :
  upload_excel alias_order read_excel DB db_add db_commit db_rollback db_query
    file_bytes batch_tag db
  = (resp, db', evs) ->
  EvAdd row ∈ evs ->
  persisted_row row.
Proof.
  intros H Hin.
  destruct (upload_outcome file_bytes batch_tag db)
    as [(st & dt & Hst & E) | (df & mr & src & d & i & s & f & Hl & Hm & E & Hs)];
    rewrite E in H; inversion H; subst.
  - apply elem_of_cons in Hin as [Hin | Hin]; [done | by apply elem_of_nil in Hin].
  - apply elem_of_app in Hin as [Hin | Hin].
    + apply list_elem_of_In, List.in_map_iff in Hin as (x & Ex & Hx).
      inversion Ex; subst x. apply list_elem_of_In, elem_of_lookup_imap in Hx
        as (k & y & -> & Hy).
      unfold validate_and_clean in Hy.
      apply list_elem_of_lookup_2, list_elem_of_In, List.in_map_iff in Hy as (r0 & <- & _).
      apply with_id_persisted.
    + rewrite !elem_of_cons, elem_of_nil in Hin. by destruct Hin as [? | [? | []]].
Qed.

(** X15.  The insertion loop hands to the session, for the row at position k
    of the cleaned data (from 0), that row with its identifier reconciled
    at index k + 1, and nothing else; two rows of one upload that both lack
    an identifier get different synthesized identifiers. *)
Theorem persist_rows_ids (batch_tag : ustr) (clean_data : list pydict) (db : DB)
    (added : list pydict) (db' : DB) (counters : nat * nat * nat) (evs : list db_event) :
  persist_rows DB db_add batch_tag db 1 clean_data = (added, db', counters, evs) ->
  evs = List.map EvAdd added
  /\ length added = length clean_data
  /\ (forall k row, clean_data !! k = Some row ->
        added !! k = Some (with_id batch_tag (1 + Z.of_nat k) row))
  /\ (forall k1 k2 row1 row2 a1 a2,
        k1 ≠ k2 ->
        clean_data !! k1 = Some row1 -> clean_data !! k2 = Some row2 ->
        missing_id row1 -> missing_id row2 ->
        added !! k1 = Some a1 -> added !! k2 = Some a2 ->
        a1 !! u "loaner_id" ≠ a2 !! u "loaner_id").
Proof.
  intros H.
  destruct (persist_rows_spec batch_tag clean_data db 1)
    as (d & i & s & f & E & _).
  rewrite E in H. inversion H; subst. clear H.
  assert (Hk : forall k row, clean_data !! k = Some row ->
            imap (fun k row => with_id batch_tag (1 + Z.of_nat k) row) clean_data !! k
            = Some (with_id batch_tag (1 + Z.of_nat k) row)).
  { intros k row Hr. rewrite list_lookup_imap, Hr. done. }
  split; [done|]. split; [apply length_imap|]. split; [exact Hk|].
  intros k1 k2 row1 row2 a1 a2 Hne H1 H2 M1 M2 A1 A2.
  rewrite (Hk _ _ H1) in A1. rewrite (Hk _ _ H2) in A2.
  inversion A1; subst a1. inversion A2; subst a2.
  unfold with_id. rewrite !lookup_insert_eq.
  assert (Hauto : forall row j, missing_id row ->
            _ensure_loaner_id (dict_get row (u "loaner_id")) j batch_tag
            = auto_id j batch_tag).
  { intros row j [Hm | Hm]; unfold _ensure_loaner_id.
    - by rewrite Hm.
    - rewrite Hm. by destruct (dict_get row (u "loaner_id")). }
  rewrite (Hauto _ _ M1), (Hauto _ _ M2).
  intros Heq.
  assert (Ha : auto_id (1 + Z.of_nat k1) batch_tag = auto_id (1 + Z.of_nat k2) batch_tag)
    by congruence.
  apply auto_id_inj in Ha; lia.
Qed.

(** X16.  A sheet whose headers map to the 7 fields and whose rows are all
    entirely empty is accepted: the answer is a success with the mapping
    source [direct_header], no row processed and an empty preview, and the
    session is committed without any insertion. *)
Theorem upload_header_only (file_bytes : list Byte.byte) (batch_tag : ustr) (db : DB)
    (df : DataFrame) :
  file_bytes ≠ [] ->
  _load_excel_with_best_header alias_order read_excel file_bytes = inl df ->
  is_Some (_resolve_field_mapping alias_order df) ->
  Forall (fun row => List.forallb is_na row = true) (rows df) ->
  upload_excel alias_order read_excel DB db_add db_commit db_rollback db_query
    file_bytes batch_tag db
  = (Success {| ok_mapping_source := direct_header;
                rows_inserted := 0;
                duplicates_skipped := 0;
                failed_rows := 0;
                total_processed := 0;
                preview := [];
                data := db_query (db_commit db) |},
     db_commit db, [EvCommit; EvQuery]).
Proof.
  intros Hb Hl [m Hm] Hrows.
  assert (Hd : _extract_direct_rows alias_order df = Some []).
  { unfold _extract_direct_rows. cbv zeta.
    change (_resolve_field_mapping alias_order (dropna_all df))
      with (_resolve_field_mapping alias_order df).
    rewrite Hm. f_equal.
    assert (E : rows (dropna_all df) = []).
    { unfold dropna_all. cbn [rows].
      induction Hrows as [|row l Hr Hl' IH]; [done|]. cbn [List.filter]. by rewrite Hr. }
    by rewrite E. }
  unfold upload_excel. destruct file_bytes as [|b bs]; [done|].
  rewrite Hl. cbv zeta. rewrite Hd. reflexivity.
Qed.

End Upload.

Lemma upload_error_paths_witness :
  upload_excel aliases_of (fun _ _ => inl example_sheet) (list pydict) list_add
    (fun db => db) (fun _ => []) (fun db => db) [] (u "AB12CD34") []
  = (HTTPException 400 (u "Uploaded file is empty"), [], [EvRollback]).
Proof.
  refine (proj1 (upload_error_paths aliases_of (fun _ _ => inl example_sheet) (list pydict)
                   list_add (fun db => db) (fun _ => []) (fun db => db)
                   [] (u "AB12CD34") []) _).
  reflexivity.
Defined.

Lemma upload_success_accounting_witness :
  exists added : list pydict,
    [EvAdd example_mapping; EvCommit; EvQuery] = List.map EvAdd added ++ [EvCommit; EvQuery]
    /\ total_processed example_report = length added
    /\ (rows_inserted example_report + duplicates_skipped example_report
        + failed_rows example_report = total_processed example_report)%nat
    /\ preview example_report = List.firstn 3 added
    /\ data example_report = [example_mapping].
Proof.
  refine (upload_success_accounting aliases_of
            (fun _ _ => inl {| columns := []; rows := [example_row] |}) (list pydict)
            list_add (fun db => db) (fun _ => []) (fun db => db)
            example_bytes (u "AB12CD34") [] example_report [example_mapping]
            [EvAdd example_mapping; EvCommit; EvQuery] _).
  vm_compute. reflexivity.
Defined.

Lemma upload_mapping_source_witness :
  exists df,
    _load_excel_with_best_header aliases_of
      (fun _ _ => inl {| columns := []; rows := [example_row] |}) example_bytes = inl df
    /\ (ok_mapping_source example_report = direct_header
        <-> is_Some (_resolve_field_mapping aliases_of df))
    /\ (ok_mapping_source example_report = content_heuristic ->
        (1 <= total_processed example_report)%nat).
Proof.
  refine (upload_mapping_source aliases_of
            (fun _ _ => inl {| columns := []; rows := [example_row] |}) (list pydict)
            list_add (fun db => db) (fun _ => []) (fun db => db)
            example_bytes (u "AB12CD34") [] example_report [example_mapping]
            [EvAdd example_mapping; EvCommit; EvQuery] _).
  vm_compute. reflexivity.
Defined.

Lemma upload_persisted_rows_witness : persisted_row example_mapping.
Proof.
  refine (upload_persisted_rows aliases_of
            (fun _ _ => inl {| columns := []; rows := [example_row] |}) (list pydict)
            list_add (fun db => db) (fun _ => []) (fun db => db)
            example_bytes (u "AB12CD34") [] (Success example_report) [example_mapping]
            [EvAdd example_mapping; EvCommit; EvQuery] example_mapping _ _).
  - vm_compute. reflexivity.
  - apply elem_of_cons. by left.
Defined.

Lemma persist_rows_ids_witness :
  [EvAdd {[ u "loaner_id" := VStr (u "AUTOX0001") ]};
   EvAdd {[ u "loaner_id" := VStr (u "AUTOX0002") ]}]
  = List.map EvAdd rows_with_auto_id.
Proof.
  refine (proj1 (persist_rows_ids (list pydict) list_add (u "X") rows_without_id []
                   rows_with_auto_id rows_with_auto_id (2, 0, 0)%nat
                   (List.map EvAdd rows_with_auto_id) _)).
  vm_compute. reflexivity.
Defined.

Lemma upload_header_only_witness :
  upload_excel aliases_of (fun _ _ => inl header_only_sheet) (list pydict) list_add
    (fun db => db) (fun _ => []) (fun db => db) example_bytes (u "AB12CD34") []
  = (Success {| ok_mapping_source := direct_header;
                rows_inserted := 0;
                duplicates_skipped := 0;
                failed_rows := 0;
                total_processed := 0;
                preview := [];
                data := [] |},
     [], [EvCommit; EvQuery]).
Proof.
  refine (upload_header_only aliases_of (fun _ _ => inl header_only_sheet) (list pydict)
            list_add (fun db => db) (fun _ => []) (fun db => db)
            example_bytes (u "AB12CD34") [] header_only_sheet _ _ _ _).
  - discriminate.
  - vm_compute. reflexivity.
  - vm_compute. by eexists.
  - repeat constructor.
Defined.

(** ** The order of the sort keys *)

Lemma str_compare_refl (s : ustr) : str_compare s s = Eq.
Proof. induction s as [|c s IH]; simpl; [done|]. by rewrite N.compare_refl. Qed.

Lemma str_compare_eq (a b : ustr) : str_compare a b = Eq -> a = b.
Proof.
  revert b. induction a as [|x a IH]; intros [|y b]; simpl; try done.
  destruct (N.compare_spec x y) as [-> | |]; try done.
  intros H. by rewrite (IH _ H).
Qed.

Lemma sort_key_prefixed (max_str_digits : nat) (loaner_id : pyval) (pre digits : ustr)
    (k : sort_key) :
  prefixed_number (id_text loaner_id) pre digits ->
  _loaner_sort_key max_str_digits loaner_id = Some k ->
  k = {| key_class := 0; key_prefix := lower pre;
         key_num := Z.of_N (digits_value digits); key_text := lower (id_text loaner_id) |}.
Proof.
  intros H. unfold _loaner_sort_key. fold (id_text loaner_id).
  rewrite (match_sort_pattern_complete _ _ _ H), group2_value.
  destruct (int_digits_ok _ _); [|done]. by intros [= <-].
Qed.

Lemma sort_key_other (max_str_digits : nat) (loaner_id : pyval) :
  (~ exists pre digits, prefixed_number (id_text loaner_id) pre digits) ->
  _loaner_sort_key max_str_digits loaner_id =
    Some {| key_class := 1; key_prefix := lower (id_text loaner_id); key_num := 0;
            key_text := lower (id_text loaner_id) |}.
Proof.
  intros Hno. unfold _loaner_sort_key. fold (id_text loaner_id).
  destruct (match_sort_pattern (id_text loaner_id)) as [[g1 g2]|] eqn:E; [|done].
  exfalso. apply Hno. apply match_sort_pattern_sound in E as (digits & H & _).
  by exists g1, digits.
Qed.

Lemma sort_key_text (max_str_digits : nat) (loaner_id : pyval) (k : sort_key) :
  _loaner_sort_key max_str_digits loaner_id = Some k ->
  key_text k = lower (id_text loaner_id).
Proof.
  unfold _loaner_sort_key. fold (id_text loaner_id).
  destruct (match_sort_pattern (id_text loaner_id)) as [[g1 g2]|].
  - destruct (int_digits_ok _ _); [|done]. by intros [= <-].
  - by intros [= <-].
Qed.

(** X17.  Take two identifiers that have a key, [ka] and [kb].  If both are
    made of the same letters, up to case, followed by digits, the one whose
    digits write the smaller number has the smaller key; an identifier of
    that form has a smaller key than any identifier that is not of that
    form; and if the keys compare equal, the two identifiers have the same
    trimmed text in lower case. *)
Theorem sort_key_order (max_str_digits : nat) (a b : pyval) (ka kb : sort_key) :
  _loaner_sort_key max_str_digits a = Some ka ->
  _loaner_sort_key max_str_digits b = Some kb ->
  (forall pa da pb db,
     prefixed_number (id_text a) pa da -> prefixed_number (id_text b) pb db ->
     lower pa = lower pb -> (digits_value da < digits_value db)%N ->
     key_compare ka kb = Lt)
  /\ (forall pa da,
        prefixed_number (id_text a) pa da ->
        (~ exists pb db, prefixed_number (id_text b) pb db) ->
        key_compare ka kb = Lt)
  /\ (key_compare ka kb = Eq -> lower (id_text a) = lower (id_text b)).
Proof.
  intros Hka Hkb. split; [|split].
  - intros pa da pb db Ha Hb Hp Hn.
    rewrite (sort_key_prefixed _ a pa da ka Ha Hka), (sort_key_prefixed _ b pb db kb Hb Hkb).
    unfold key_compare. cbn [key_class key_prefix key_num key_text].
    rewrite Hp, str_compare_refl. cbn [Z.compare].
    by rewrite (proj2 (Z.compare_lt_iff _ _)) by lia.
  - intros pa da Ha Hb.
    rewrite (sort_key_prefixed _ a pa da ka Ha Hka).
    rewrite (sort_key_other max_str_digits b Hb) in Hkb. by injection Hkb as <-.
  - intros H. rewrite <- (sort_key_text _ a ka Hka), <- (sort_key_text _ b kb Hkb).
    unfold key_compare in H.
    destruct (key_class _ ?= key_class _)%Z; try done.
    destruct (str_compare (key_prefix _) (key_prefix _)); try done.
    destruct (key_num _ ?= key_num _)%Z; try done.
    by apply str_compare_eq.
Qed.

Lemma sort_key_order_witness :
  key_compare
    {| key_class := 0; key_prefix := u "ln"; key_num := 9; key_text := u "ln9" |}
    {| key_class := 0; key_prefix := u "ln"; key_num := 10; key_text := u "ln10" |} = Lt.
Proof.
  refine (proj1 (sort_key_order default_max_str_digits (VStr (u "LN9")) (VStr (u " ln10 "))
                   {| key_class := 0; key_prefix := u "ln"; key_num := 9;
                      key_text := u "ln9" |}
                   {| key_class := 0; key_prefix := u "ln"; key_num := 10;
                      key_text := u "ln10" |} _ _)
            (u "LN") (u "9") (u "ln") (u "10") _ _ _ _).
  - vm_compute. reflexivity.
  - vm_compute. reflexivity.
  - vm_compute. repeat split. discriminate.
  - vm_compute. repeat split. discriminate.
  - vm_compute. reflexivity.
  - vm_compute. reflexivity.
Defined.

(** ** The types of the rows of the content classifier *)

Lemma untouched_insert (d : pydict) (k : ustr) (v : pyval) :
  k ≠ u "fullname" -> k ≠ u "descrition" -> k ≠ u "total_amount" ->
  (k = u "total_land" -> str_or_none v) ->
  untouched_row d -> untouched_row (<[k := v]> d).
Proof.
  intros H1 H2 H3 H4 (U1 & U2 & U3 & U4). unfold untouched_row.
  rewrite !dict_get_insert_ne by done. split; [done|]. split; [done|]. split; [done|].
  destruct (decide (k = u "total_land")) as [->|Hne].
  - rewrite dict_get_insert_eq. by apply H4.
  - by rewrite dict_get_insert_ne.
Qed.

Lemma untouched_init :
  untouched_row (List.fold_left (fun acc field => <[field := VNone]> acc) REQUIRED_FIELDS ∅).
Proof.
  split; [|split; [|split]]; [vm_compute; reflexivity.. | left; vm_compute; reflexivity].
Qed.

Lemma classify_value_untouched (st : row_state) (value : pyval) :
  untouched_row (inferred st) -> untouched_row (inferred (classify_value st value)).
Proof.
  intros Hinv. unfold classify_value.
  repeat match goal with
         | |- context [ if ?b then _ else _ ] => destruct b eqn:?
         end; cbn [inferred set_inferred]; try done;
    (apply untouched_insert; [other_key | other_key | other_key | | done]).
  - intros _. right. by eexists.
  - other_key.
  - other_key.
  - other_key.
Qed.

Lemma classify_values_untouched (values : list pyval) (st : row_state) :
  untouched_row (inferred st) ->
  untouched_row (inferred (List.fold_left classify_value values st)).
Proof.
  revert st. induction values as [|v values IH]; intros st H; simpl; [done|].
  by apply IH, classify_value_untouched.
Qed.

Lemma max_by_len_ge (l : list ustr) (best x : ustr) :
  x = best \/ List.In x l -> (length x <= length (max_by_len best l))%nat.
Proof.
  revert best x. induction l as [|y l IH]; intros best x H; cbn [max_by_len].
  - destruct H as [-> | []]. lia.
  - destruct (Nat.ltb_spec (length best) (length y)) as [Hlt | Hge].
    + destruct H as [-> | [<- | H]].
      * transitivity (length y); [lia | apply IH; by left].
      * apply IH. by left.
      * apply IH. by right.
    + destruct H as [-> | [<- | H]].
      * apply IH. by left.
      * transitivity (length best); [lia | apply IH; by left].
      * apply IH. by right.
Qed.

Lemma assign_text_typed (inf : pydict) (cands : list ustr) :
  untouched_row inf -> typed_row (assign_text inf cands).
Proof.
  intros (U1 & U2 & U3 & U4). unfold assign_text.
  destruct cands as [|c rest].
  { split; [done|]. split; [by left|]. split; [by left | by left]. }
  set (d := max_by_len c rest).
  destruct (pick_fullname d (c :: rest)) as [name|] eqn:E.
  - apply List.find_some in E as [Hin Hp].
    apply andb_true_iff in Hp as [Hne Hw].
    apply negb_true_iff in Hne. unfold ustr_eqb in Hne. apply bool_decide_eq_false in Hne.
    apply Nat.leb_le in Hw.
    unfold typed_row, inferred_name.
    rewrite !dict_get_insert_eq.
    rewrite !(dict_get_insert_ne _ (u "fullname")) by key_neq.
    rewrite !dict_get_insert_eq.
    rewrite !(dict_get_insert_ne _ (u "descrition")) by key_neq.
    split; [done|]. split; [right; by eexists|]. split; [left; done|].
    right. exists name, d. split; [done|]. split; [done|]. split; [done|].
    split; [|done]. apply max_by_len_ge. destruct Hin as [-> | Hin]; [by left | by right].
  - unfold typed_row, inferred_name.
    rewrite !dict_get_insert_eq.
    rewrite !(dict_get_insert_ne _ (u "descrition")) by key_neq.
    split; [done|]. split; [right; by eexists|]. split; [left; done | by left].
Qed.

Lemma typed_insert_id (d : pydict) (v : pyval) :
  typed_row d -> typed_row (<[u "loaner_id" := v]> d).
Proof.
  unfold typed_row, inferred_name. by rewrite !dict_get_insert_ne by key_neq.
Qed.

Lemma typed_insert_amount (d : pydict) (n : spec_float) :
  Float.geb_Z n 1000 = true -> typed_row d -> typed_row (<[u "total_amount" := VFloat n]> d).
Proof.
  intros Hn (T1 & T2 & _ & T4). unfold typed_row, inferred_name.
  rewrite dict_get_insert_eq. rewrite !dict_get_insert_ne by key_neq.
  split; [done|]. split; [done|]. split; [|done]. right. by exists n.
Qed.

Lemma assign_numeric_typed (inf : pydict) (candidate : ustr) :
  typed_row inf -> typed_row (assign_numeric inf candidate).
Proof.
  intros H. unfold assign_numeric.
  destruct (Float.of_str candidate) as [n|]; [|done].
  set (inf1 := if is_none (dict_get inf (u "total_amount")) && Float.geb_Z n 1000
               then <[u "total_amount" := VFloat n]> inf else inf).
  assert (H1 : typed_row inf1).
  { unfold inf1. destruct (is_none _ && Float.geb_Z n 1000) eqn:E; [|done].
    apply andb_true_iff in E as [_ E]. by apply typed_insert_amount. }
  destruct (_ && _ && _ && _); [|done].
  destruct (Float.to_int n) as [z|]; [|done].
  by apply typed_insert_id.
Qed.

Lemma assign_numerics_typed (cands : list ustr) (inf : pydict) :
  typed_row inf -> typed_row (List.fold_left assign_numeric cands inf).
Proof.
  revert inf. induction cands as [|c cands IH]; intros inf H; simpl; [done|].
  by apply IH, assign_numeric_typed.
Qed.

Lemma classify_row_typed (idx : nat) (row : list pyval) (r : pydict) :
  classify_row idx row = Some r -> typed_row r.
Proof.
  unfold classify_row. destruct (row_values row) as [|v values]; [done|].
  set (st := List.fold_left classify_value (v :: values) _).
  set (inf := List.fold_left assign_numeric _ _).
  assert (Hinf : typed_row inf).
  { apply assign_numerics_typed, assign_text_typed, classify_values_untouched.
    cbn [inferred]. apply untouched_init. }
  intros H. inversion H as [Hr]. clear H.
  destruct (is_none (dict_get inf (u "loaner_id"))); [|done].
  by apply typed_insert_id.
Qed.

(** X18.  In every row the content classifier emits, the land and the
    description are [None] or a text; the amount is [None] or a float that
    is at least 1000; the name is [None], or a text of at most 4 words that
    differs from the description and is not longer than it. *)
Theorem classifier_rows_typed (df : DataFrame) (inferred_rows : list pydict) (r : pydict) :
  _extract_rows_by_content df = Some inferred_rows ->
  r ∈ inferred_rows ->
  typed_row r.
Proof.
  intros Hrows Hr. unfold _extract_rows_by_content in Hrows.
  assert (Hin : r ∈ classify_rows 1 (rows (dropna_all df))).
  { destruct (classify_rows 1 (rows (dropna_all df))); [done|].
    by inversion Hrows; subst. }
  apply classify_rows_elem in Hin as (i & row & Hc).
  by apply classify_row_typed in Hc.
Qed.

Lemma classifier_rows_typed_witness : typed_row example_mapping.
Proof.
  refine (classifier_rows_typed {| columns := []; rows := [example_row] |}
            [example_mapping] example_mapping _ _).
  - vm_compute. reflexivity.
  - by_compute.
Defined.

(** ** The patterns of the validator *)

Lemma ascii_digits_spec (n : nat) (s rest : ustr) :
  ascii_digits n s = Some rest
  <-> exists ds, s = ds ++ rest /\ length ds = n /\ List.forallb is_ascii_digit ds = true.
Proof.
  revert s. induction n as [|n IH]; intros s; cbn [ascii_digits].
  - split.
    + intros [= ->]. by exists [].
    + intros (ds & -> & Hl & _). by destruct ds.
  - destruct s as [|c s].
    + split; [done|]. intros (ds & E & Hl & _). by destruct ds.
    + destruct (is_ascii_digit c) eqn:Ec.
      * rewrite IH. split.
        -- intros (ds & -> & Hl & Hd). exists (c :: ds). cbn. rewrite Ec, Hd, Hl. done.
        -- intros (ds & E & Hl & Hd). destruct ds as [|d ds]; [done|].
           cbn in E, Hl, Hd. inversion E; subst. apply andb_true_iff in Hd as [_ Hd].
           exists ds. split; [done|]. split; [lia | done].
      * split; [done|]. intros (ds & E & Hl & Hd). destruct ds as [|d ds]; [done|].
        cbn in E, Hd. inversion E; subst. by rewrite Ec in Hd.
Qed.

Lemma at_dollar_spec (rest : ustr) : at_dollar rest = true <-> rest = [] \/ rest = [10%N].
Proof.
  split.
  - destruct rest as [|x tail]; [by left|]. intros H. right.
    destruct x as [|px]; [done|].
    do 4 (destruct px as [px|px|]; try done). by destruct tail.
  - by intros [-> | ->].
Qed.

(** X19.  The validator accepts as mobile number exactly the texts made of a
    character among 6, 7, 8, 9 followed by 9 digits 0 to 9, and as identity
    number exactly the texts made of 12 digits 0 to 9, in both cases with
    or without one line feed at the end. *)
Theorem validator_patterns (s : ustr) :
  (match_mobile s = true
   <-> exists c ds, up_to_newline s (c :: ds) /\ in_range 54 57 c = true
         /\ length ds = 9%nat /\ List.forallb is_ascii_digit ds = true)
  /\ (match_adhar s = true
      <-> exists ds, up_to_newline s ds /\ length ds = 12%nat
            /\ List.forallb is_ascii_digit ds = true).
Proof.
  split.
  - unfold match_mobile. destruct s as [|c s].
    { split; [done|]. intros (c & ds & [E | E] & _); [done | by destruct ds]. }
    split.
    + intros H. apply andb_true_iff in H as [Hc H].
      destruct (ascii_digits 9 s) as [rest|] eqn:E; [|done].
      apply ascii_digits_spec in E as (ds & -> & Hl & Hd).
      apply at_dollar_spec in H as [-> | ->]; exists c, ds.
      * split; [left; by rewrite List.app_nil_r | done].
      * split; [by right | done].
    + intros (c' & ds & Hs & Hc & Hl & Hd).
      assert (E : c = c' /\ exists rest, s = ds ++ rest /\ at_dollar rest = true).
      { destruct Hs as [E | E]; inversion E; subst; (split; [done|]).
        - exists []. by rewrite List.app_nil_r.
        - by exists [10%N]. }
      destruct E as (<- & rest & -> & Hr). rewrite Hc. cbn [andb].
      rewrite (proj2 (ascii_digits_spec 9 (ds ++ rest) rest)); [done|]. by exists ds.
  - unfold match_adhar. split.
    + intros H. destruct (ascii_digits 12 s) as [rest|] eqn:E; [|done].
      apply ascii_digits_spec in E as (ds & -> & Hl & Hd).
      apply at_dollar_spec in H as [-> | ->]; exists ds.
      * split; [left; by rewrite List.app_nil_r | done].
      * split; [by right | done].
    + intros (ds & Hs & Hl & Hd).
      assert (E : exists rest, s = ds ++ rest /\ at_dollar rest = true).
      { destruct Hs as [-> | ->]; [exists []; by rewrite List.app_nil_r | by exists [10%N]]. }
      destruct E as (rest & -> & Hr).
      rewrite (proj2 (ascii_digits_spec 12 (ds ++ rest) rest)); [done|]. by exists ds.
Qed.

Lemma validator_patterns_witness : match_mobile (u "9876543210" ++ [10%N]) = true.
Proof.
  refine (proj2 (proj1 (validator_patterns (u "9876543210" ++ [10%N]))) _).
  exists 57%N, (u "876543210"). split; [by right|]. repeat split; vm_compute; reflexivity.
Defined.

(** ** Rows of blank cells *)

Lemma record_get_cell (cols row : list pyval) (col : pyval) :
  record_get cols row col = VNone \/ List.In (record_get cols row col) row.
Proof.
  revert row. induction cols as [|c cols IH]; intros [|v row]; cbn [record_get];
    try (by left).
  destruct (IH row) as [E | Hin].
  - rewrite E. destruct (bool_decide (c = col)); [right; by left | by left].
  - destruct (record_get cols row col) eqn:E; try (right; by right).
    destruct (bool_decide (c = col)); [right; by left | by left].
Qed.

Lemma record_get_blank (cols row : list pyval) (col : pyval) :
  blank_row row -> _clean_nan (record_get cols row col) = VNone.
Proof.
  intros Hb. destruct (record_get_cell cols row col) as [-> | Hin]; [done|].
  unfold blank_row in Hb. rewrite List.Forall_forall in Hb. by apply Hb.
Qed.

Lemma clean_row_id (row : pydict) :
  dict_get (clean_row row) (u "loaner_id") = dict_get row (u "loaner_id").
Proof.
  rewrite clean_row_unfold. dict_simpl. unfold dict_get at 1.
  by rewrite copy_fields_lookup by by_compute.
Qed.

Lemma blank_row_values (row : list pyval) : blank_row row -> row_values row = [].
Proof.
  unfold row_values. intros Hb. induction Hb as [|v row Hv Hrow IH]; [done|].
  cbn [List.filter]. by rewrite Hv.
Qed.

(** X20.  A row whose cells are all [None], NaN or blank texts, and that is
    not dropped as entirely empty, is skipped by the content classifier but
    kept by the direct mapper, as a row whose 7 fields are all [None]; the
    insertion loop then gives it a synthesized identifier. *)
Theorem blank_row_kept (ao : ustr -> list ustr) (df : DataFrame)
    (m : gmap ustr pyval) (i : nat) (row : list pyval) :
  _resolve_field_mapping ao df = Some m ->
  rows (dropna_all df) !! i = Some row ->
  blank_row row ->
  (forall idx, classify_row idx row = None)
  /\ exists direct_rows r,
       _extract_direct_rows ao df = Some direct_rows
       /\ direct_rows !! i = Some r
       /\ (forall field, field ∈ REQUIRED_FIELDS -> r !! field = Some VNone)
       /\ forall batch_tag k,
            with_id batch_tag k (clean_row r) !! u "loaner_id"
            = Some (VStr (auto_id k batch_tag)).
Proof.
  intros Hm Hrow Hb. split.
  { intros idx. apply classify_row_None. by apply blank_row_values. }
  pose (build := fun row : list pyval =>
    List.fold_left
      (fun (direct_row : pydict) (fc : ustr * pyval) =>
         <[fst fc := _clean_nan (record_get (columns df) row (snd fc))]> direct_row)
      (List.combine REQUIRED_FIELDS (List.map (dict_get m) REQUIRED_FIELDS)) ∅).
  exists (List.map build (rows (dropna_all df))), (build row).
  split.
  { unfold _extract_direct_rows. cbv zeta.
    change (_resolve_field_mapping ao (dropna_all df)) with (_resolve_field_mapping ao df).
    by rewrite Hm. }
  split; [apply (lookup_map_Some _ _ _ _ Hrow)|].
  assert (Hnone : forall field, field ∈ REQUIRED_FIELDS -> build row !! field = Some VNone).
  { intros field Hf. destruct (direct_row_fold (columns df) m row) as [_ Hl].
    etransitivity; [exact (Hl _ Hf)|]. by rewrite record_get_blank. }
  split; [exact Hnone|].
  intros batch_tag k. unfold with_id. rewrite lookup_insert_eq. do 2 f_equal.
  rewrite clean_row_id. unfold dict_get.
  rewrite (Hnone (u "loaner_id")) by by_compute. done.
Qed.

Lemma blank_row_kept_witness :
  (forall idx, classify_row idx [VStr (u "  "); VNone; VNone; VNone; VNone; VNone; VNone] = None)
  /\ exists direct_rows r,
       _extract_direct_rows aliases_of blank_text_sheet = Some direct_rows
       /\ direct_rows !! 0%nat = Some r
       /\ (forall field, field ∈ REQUIRED_FIELDS -> r !! field = Some VNone)
       /\ forall batch_tag k,
            with_id batch_tag k (clean_row r) !! u "loaner_id"
            = Some (VStr (auto_id k batch_tag)).
Proof.
  refine (blank_row_kept aliases_of blank_text_sheet blank_text_mapping 0
            [VStr (u "  "); VNone; VNone; VNone; VNone; VNone; VNone] _ _ _).
  - vm_compute. reflexivity.
  - vm_compute. reflexivity.
  - repeat constructor.
Defined.
